(** * DailyBuyStrategy: a shallow embedding of src/DailyBuyStrategy.py

    The strategy is a freqtrade plugin class.  Its callbacks are embedded
    as Rocq functions:

    - pandas columns are lists ([Series]); a frame is the list of host
      candles plus the derived columns the callbacks add;
    - Python floats are rationals extended with the IEEE special values
      ([float]: a rational, +inf, -inf or NaN).  NaN propagation,
      division by zero, comparisons, maxima and minima are as in doubles.
      The arithmetic comes twice: exact ([fadd], [fmul], ...), which is
      enough wherever a statement rests on comparisons, on the NaN
      pattern or on an exact cancellation, and rounded after every
      operation by an arbitrary rounding ([fadd_rounded], ...,
      [populate_indicators_rounded]), which is what the statements about
      the size of a computed value are made over.  The exact columns are
      the rounded ones under the identity rounding.  Overflow and
      underflow are not modelled;
    - [self.commands], the per-trade custom data written through
      [CustomDataWrapper] and the log are mutable state, threaded by a
      state-and-exception monad [M];
    - TA-Lib's indicators and the host's data provider are collaborators
      that are not part of the repository: they are parameters. *)

From Stdlib Require Import ZArith QArith Qminmax Lqa Lia String Ascii List Bool.
From stdpp Require Import base option list gmap strings.

Set Default Proof Using "Type".

(* ===================================================================== *)
(** * Floats *)
(* ===================================================================== *)

(** A Python [float]: a finite value, an infinity or not-a-number. *)
Inductive float : Type :=
| Fin (q : Q)
| PInf
| NInf
| NaN.

Definition Qlt_bool (x y : Q) : bool := negb (Qle_bool y x).

Definition of_Z (z : Z) : float := Fin (inject_Z z).

Definition fneg (x : float) : float :=
  match x with
  | Fin q => Fin (- q)
  | PInf => NInf
  | NInf => PInf
  | NaN => NaN
  end.

Definition fadd (x y : float) : float :=
  match x, y with
  | NaN, _ | _, NaN => NaN
  | Fin a, Fin b => Fin (a + b)
  | PInf, NInf | NInf, PInf => NaN
  | PInf, _ | _, PInf => PInf
  | NInf, _ | _, NInf => NInf
  end.

Definition fsub (x y : float) : float := fadd x (fneg y).

(** [inf] with the sign of the finite factor [q]; zero times an infinity
    is NaN. *)
Definition signed_inf (q : Q) (inf : float) : float :=
  if Qeq_bool q 0 then NaN
  else if Qlt_bool 0 q then inf else fneg inf.

Definition fmul (x y : float) : float :=
  match x, y with
  | NaN, _ | _, NaN => NaN
  | Fin a, Fin b => Fin (a * b)
  | Fin a, PInf | PInf, Fin a => signed_inf a PInf
  | Fin a, NInf | NInf, Fin a => signed_inf a NInf
  | PInf, PInf | NInf, NInf => PInf
  | PInf, NInf | NInf, PInf => NInf
  end.

(** numpy's float division: a finite non-zero value over zero is an
    infinity, zero over zero is NaN (no exception is raised on a column).
    The sign of a zero divisor is not modelled: the zero is taken as +0. *)
Definition fdiv (x y : float) : float :=
  match x, y with
  | NaN, _ | _, NaN => NaN
  | Fin a, Fin b =>
      if Qeq_bool b 0 then signed_inf a PInf else Fin (a / b)
  | Fin _, (PInf | NInf) => Fin 0
  | PInf, Fin b => if Qlt_bool b 0 then NInf else PInf
  | NInf, Fin b => if Qlt_bool b 0 then PInf else NInf
  | (PInf | NInf), (PInf | NInf) => NaN
  end.

(** Comparisons: every comparison with NaN is [False]. *)
Definition flt (x y : float) : bool :=
  match x, y with
  | NaN, _ | _, NaN => false
  | Fin a, Fin b => Qlt_bool a b
  | NInf, (Fin _ | PInf) => true
  | Fin _, PInf => true
  | _, _ => false
  end.

Definition fgt (x y : float) : bool := flt y x.

(* ===================================================================== *)
(** * Series *)
(* ===================================================================== *)

(** A pandas column over the default positional index [0..n-1]. *)
Abbreviation Series := list (only parsing).

(** [s.shift(n)]: rows move down by [n]; the first [n] rows become NaN. *)
Definition shift (n : nat) (s : Series float) : Series float :=
  take (length s) (replicate n NaN ++ s).

(** The rows a rolling window of width [w] sees at row [i]: the last [w]
    rows up to and including [i]. *)
Definition window_at {A} (w i : nat) (s : Series A) : list A :=
  drop (S i - w) (take (S i) s).

(** One aggregated window: NaN while it holds fewer than [min_periods]
    observations (or none at all). *)
Definition aggregate (pick : Q -> Q -> Q) (min_periods : nat) (win : list Q)
  : float :=
  match win with
  | [] => NaN
  | x :: xs =>
      if (min_periods <=? length win)%nat then Fin (foldl pick x xs) else NaN
  end.

(** [s.rolling(window=w, min_periods=mp).max()] and [.min()] on a column
    of finite values. *)
Definition rolling (pick : Q -> Q -> Q) (w mp : nat) (s : Series Q)
  : Series float :=
  imap (fun i _ => aggregate pick mp (window_at w i s)) s.

Definition rolling_max : nat -> nat -> Series Q -> Series float := rolling Qmax.
Definition rolling_min : nat -> nat -> Series Q -> Series float := rolling Qmin.

(** Element-wise operators on columns. *)
Definition vadd : Series float -> Series float -> Series float := zip_with fadd.
Definition vsub : Series float -> Series float -> Series float := zip_with fsub.
Definition vdiv : Series float -> Series float -> Series float := zip_with fdiv.
Definition vscale (k : float) (s : Series float) : Series float := fmul k <$> s.
Definition vunscale (s : Series float) (k : float) : Series float :=
  (fun x => fdiv x k) <$> s.
Definition vlt : Series float -> Series float -> Series bool := zip_with flt.
Definition vgt : Series float -> Series float -> Series bool := zip_with fgt.
Definition vlt_const (s : Series float) (k : float) : Series bool :=
  (fun x => flt x k) <$> s.
Definition vgt_const (s : Series float) (k : float) : Series bool :=
  (fun x => fgt x k) <$> s.
Definition vand : Series bool -> Series bool -> Series bool := zip_with andb.
Definition vor : Series bool -> Series bool -> Series bool := zip_with orb.

Declare Scope series_scope.
Delimit Scope series_scope with S.
Infix ".+" := vadd (at level 50, left associativity) : series_scope.
Infix ".-" := vsub (at level 50, left associativity) : series_scope.
Infix "./" := vdiv (at level 40, left associativity) : series_scope.
Infix ".<" := vlt (at level 70, no associativity) : series_scope.
Infix ".>" := vgt (at level 70, no associativity) : series_scope.
Infix ".&" := vand (at level 40, left associativity) : series_scope.
Infix ".|" := vor (at level 50, left associativity) : series_scope.
Local Open Scope series_scope.

(* ===================================================================== *)
(** * Exceptions, state and the callback monad *)
(* ===================================================================== *)

Inductive Exception : Type :=
| ValueError
| KeyError
| IndexError
| ZeroDivisionError.

Inductive Result (A : Type) : Type :=
| Ok (a : A)
| Raise (e : Exception).
Arguments Ok {A} a.
Arguments Raise {A} e.

(** An entry of [self.commands]: [{'pair': ..., 'command': ...}]. *)
Record Command : Type := mkCommand {
  cmd_pair : string;
  cmd_command : string
}.

(** The records of [CustomDataWrapper], keyed by trade id.  The strategy
    stores a list of prices under the key "DCA" and one float under the
    key "SL"; each key therefore has its own typed table.  A lookup gives
    the list of matching records, which holds at most one entry. *)
Record CustomData : Type := mkCustomData {
  cd_DCA : gmap Z (list Q);
  cd_SL : gmap Z Q
}.

(** What the callbacks hand to [logging]; the f-string payloads are kept
    as fields. *)
Inductive LogRecord : Type :=
| Info_no_data (pair level : string)
| Error_not_all_series
| Info_price_higher (current_rate last_dca : Q)
| Info_dca_triggered (pair : string) (stake_amount : Q).

Record State : Type := mkState {
  commands : list Command;
  custom_data : CustomData;
  log : list LogRecord
}.

Definition M (A : Type) : Type := State -> Result A * State.

Definition ret {A} (a : A) : M A := fun st => (Ok a, st).

Definition raise {A} (e : Exception) : M A := fun st => (Raise e, st).

Definition bind {A B} (m : M A) (k : A -> M B) : M B :=
  fun st =>
    match m st with
    | (Ok a, st') => k a st'
    | (Raise e, st') => (Raise e, st')
    end.

(** [try: body except Exception: handler]; what [body] wrote before it
    raised stays written. *)
Definition try_except {A} (body : M A) (handler : M A) : M A :=
  fun st =>
    match body st with
    | (Ok a, st') => (Ok a, st')
    | (Raise _, st') => handler st'
    end.

Definition gets {A} (f : State -> A) : M A := fun st => (Ok (f st), st).

Definition modify (f : State -> State) : M unit := fun st => (Ok tt, f st).

Notation "x <- m ;; k" := (bind m (fun x => k))
  (at level 100, m at next level, right associativity).
Notation "m ;; k" := (bind m (fun _ => k))
  (at level 100, right associativity).

Definition logging (r : LogRecord) : M unit :=
  modify (fun st =>
    {| commands := commands st; custom_data := custom_data st;
       log := log st ++ [r] |}).

Definition set_commands (cs : list Command) : M unit :=
  modify (fun st =>
    {| commands := cs; custom_data := custom_data st; log := log st |}).

(* ===================================================================== *)
(** * Data model *)
(* ===================================================================== *)

(** One OHLCV row as the host delivers it; every field is finite. *)
Record Candle : Type := mkCandle {
  c_open : Q;
  c_high : Q;
  c_low : Q;
  c_close : Q;
  c_volume : Q
}.

(** A frame that holds the host's columns only. *)
Abbreviation OHLCV := (list Candle) (only parsing).

Definition high (rows : OHLCV) : Series Q := c_high <$> rows.
Definition low (rows : OHLCV) : Series Q := c_low <$> rows.
Definition close (rows : OHLCV) : Series Q := c_close <$> rows.
Definition volume (rows : OHLCV) : Series Q := c_volume <$> rows.

Definition floats (s : Series Q) : Series float := Fin <$> s.

(** The analysed frame: the host rows and the columns the strategy reads
    back.  The columns [rsi], [max_since_buy], [atr] and the Bollinger
    bands are written by [populate_indicators] and read by no callback;
    they are left out.  A signal column that does not exist yet is a
    column of NaN ([None]), which is what pandas creates on the first
    masked assignment. *)
Record DataFrame : Type := mkDataFrame {
  ohlcv : OHLCV;
  macd : Series float;
  macdsignal : Series float;
  ema_short : Series float;
  ema_long : Series float;
  previous_close : Series float;
  pp : Series float;
  r1 : Series float;
  s1 : Series float;
  pivot_point : Series float;
  resistance_1 : Series float;
  support_1 : Series float;
  swing_low : Series float;
  swing_high : Series float;
  resistance_signal : Series bool;
  hh : Series float;
  ll : Series float;
  buyPower : Series float;
  sellPower : Series float;
  ttf : Series float;
  enter_long : Series (option Z);
  enter_tag : Series (option string);
  exit_long : Series (option Z);
  exit_tag : Series (option string)
}.

(** [dataframe.empty] and [len(dataframe.index)]. *)
Definition empty (dataframe : DataFrame) : bool :=
  match ohlcv dataframe with [] => true | _ => false end.

Definition n_rows (dataframe : DataFrame) : nat := length (ohlcv dataframe).

(** The host's [Trade]. *)
Record Trade : Type := mkTrade {
  trade_id : Z;
  trade_pair : string;
  stake_amount : Q;
  stop_loss : Q;
  calc_profit_ratio : Q -> Q
}.

(** [self.dp]: the host's data provider. *)
Record DataProvider : Type := mkDataProvider {
  get_pair_dataframe : string -> string -> OHLCV;
  get_analyzed_dataframe : string -> string -> DataFrame
}.

(** [self]: the tunable parameters (their [.value]), the configured
    timeframe and the data provider. *)
Record DailyBuyStrategy : Type := mkStrategy {
  timeframe : string;
  dp : DataProvider;
  new_sl_coef : Q;
  lookback_length : nat;
  upper_trigger_level : Z;
  lower_trigger_level : Z;
  swing_window : nat;
  swing_min_periods : nat;
  buy_ema_short : Z;
  buy_ema_long : Z;
  dca_candles_modulo : Z;
  dca_threshold : Q
}.

Definition timeframe_hierarchy : gmap string string :=
  list_to_map
    [ ("1m", "5m"); ("5m", "15m"); ("15m", "1h"); ("1h", "4h");
      ("4h", "1d"); ("1d", "1w"); ("1w", "1M") ]%string.

(** The declared ranges of the parameters ([IntParameter(low, high)],
    [DecimalParameter(low, high)]). *)
Record declared_bounds (self : DailyBuyStrategy) : Prop := {
  new_sl_coef_bounds : (0.3 <= new_sl_coef self <= 0.9)%Q;
  lookback_length_bounds : 1 <= lookback_length self <= 30;
  upper_trigger_level_bounds : (1 <= upper_trigger_level self <= 300)%Z;
  lower_trigger_level_bounds : (-300 <= lower_trigger_level self <= -1)%Z;
  swing_window_bounds : 10 <= swing_window self <= 50;
  swing_min_periods_bounds : 1 <= swing_min_periods self <= 10;
  buy_ema_short_bounds : (5 <= buy_ema_short self <= 50)%Z;
  buy_ema_long_bounds : (50 <= buy_ema_long self <= 200)%Z;
  dca_candles_modulo_bounds : (1 <= dca_candles_modulo self <= 100)%Z;
  dca_threshold_bounds : (0.01 <= dca_threshold self <= 0.5)%Q
}.

(** The class with every parameter at its default. *)
Definition defaults (tf : string) (provider : DataProvider) : DailyBuyStrategy :=
  {| timeframe := tf; dp := provider;
     new_sl_coef := 0.75;
     lookback_length := 15;
     upper_trigger_level := 100;
     lower_trigger_level := -100;
     swing_window := 50;
     swing_min_periods := 10;
     buy_ema_short := 10;
     buy_ema_long := 50;
     dca_candles_modulo := 10;
     dca_threshold := 0.01 |}.

Definition set_custom_data (cd : CustomData) : M unit :=
  modify (fun st =>
    {| commands := commands st; custom_data := cd; log := log st |}).

(** [metadata]: the dict the host passes along; only ['pair'] is read. *)
Record Metadata : Type := mkMetadata {
  md_pair : string
}.

(* ===================================================================== *)
(** * Indicators *)
(* ===================================================================== *)

Section Indicators.

(** TA-Lib: [ta.MACD(dataframe)] gives the columns ['macd'] and
    ['macdsignal'], [ta.EMA(dataframe, timeperiod)] gives one column. *)
Variable ta_MACD : OHLCV -> Series float * Series float.
Variable ta_EMA : OHLCV -> Z -> Series float.

(** pandas refuses [min_periods > window] with a [ValueError]. *)
Definition calculate_swing (self : DailyBuyStrategy) (dataframe : OHLCV)
  : Result (Series float * Series float) :=
  if (swing_window self <? swing_min_periods self)%nat then Raise ValueError
  else
    let swing_low :=
      rolling_min (swing_window self) (swing_min_periods self) (low dataframe) in
    let swing_high :=
      rolling_max (swing_window self) (swing_min_periods self) (high dataframe) in
    Ok (swing_low, swing_high).

Definition calculate_pivots (dataframe : OHLCV)
  : Series float * Series float * Series float :=
  let pp :=
    vunscale (shift 1 (floats (high dataframe)) .+ shift 1 (floats (low dataframe))
              .+ shift 1 (floats (close dataframe))) (of_Z 3) in
  let r1 := vscale (of_Z 2) pp .- shift 1 (floats (low dataframe)) in
  let s1 := vscale (of_Z 2) pp .- shift 1 (floats (high dataframe)) in
  (pp, r1, s1).

Definition populate_indicators (self : DailyBuyStrategy) (dataframe : OHLCV)
    (metadata : Metadata) : Result DataFrame :=
  let macd := ta_MACD dataframe in
  let ema_short := ta_EMA dataframe (buy_ema_short self) in
  let ema_long := ta_EMA dataframe (buy_ema_long self) in
  let previous_close := shift 1 (floats (close dataframe)) in
  let '(pp, r1, s1) := calculate_pivots dataframe in
  match calculate_swing self dataframe with
  | Raise e => Raise e
  | Ok (swing_low, swing_high) =>
      let resistance_signal :=
        (floats (close dataframe) .> r1)
        .& (floats (close dataframe) .> previous_close) in
      let n := lookback_length self in
      let hh := rolling_max n n (close dataframe) in
      let ll := rolling_min n n (close dataframe) in
      let buyPower := hh .- shift n ll in
      let sellPower := shift n hh .- ll in
      let ttf :=
        vscale (of_Z 200) (buyPower .- sellPower) ./ (buyPower .+ sellPower) in
      Ok {| ohlcv := dataframe;
            macd := fst macd; macdsignal := snd macd;
            ema_short := ema_short; ema_long := ema_long;
            previous_close := previous_close;
            pp := pp; r1 := r1; s1 := s1;
            pivot_point := pp; resistance_1 := r1; support_1 := s1;
            swing_low := swing_low; swing_high := swing_high;
            resistance_signal := resistance_signal;
            hh := hh; ll := ll;
            buyPower := buyPower; sellPower := sellPower; ttf := ttf;
            enter_long := replicate (length dataframe) None;
            enter_tag := replicate (length dataframe) None;
            exit_long := replicate (length dataframe) None;
            exit_tag := replicate (length dataframe) None |}
  end.

End Indicators.

(* ===================================================================== *)
(** * The arithmetic columns under rounding *)
(* ===================================================================== *)

(** The operations on [float] above return the exact result.  A double
    holds that result rounded.  [round_to rnd] applies a rounding [rnd]
    to a finite result and leaves the infinities and NaN alone; the exact
    operations are the case where [rnd] is the identity.  Comparisons,
    maxima and minima do not round. *)
Definition round_to (rnd : Q -> Q) (x : float) : float :=
  match x with
  | Fin q => Fin (rnd q)
  | _ => x
  end.

(** What is taken for granted about a rounding: it respects the equality
    of rationals, it is monotone, it is symmetric about zero, and its
    relative error is at most [eps], with [eps] below 1.  Rounding to the
    nearest double meets this with [eps] = 2^-53 as long as no result
    overflows or underflows. *)
Record rounding (rnd : Q -> Q) (eps : Q) : Prop := {
  rnd_compat : forall x y, (x == y -> rnd x == rnd y)%Q;
  rnd_monotone : forall x y, (x <= y -> rnd x <= rnd y)%Q;
  rnd_odd : forall x, (rnd (- x) == - rnd x)%Q;
  rnd_error :
    forall x, (0 <= x -> x * (1 - eps) <= rnd x /\ rnd x <= x * (1 + eps))%Q;
  eps_range : (0 <= eps /\ eps < 1)%Q
}.

Section RoundedIndicators.

Variable rnd : Q -> Q.
Variable ta_MACD : OHLCV -> Series float * Series float.
Variable ta_EMA : OHLCV -> Z -> Series float.

Definition fadd_rounded (x y : float) : float := round_to rnd (fadd x y).
Definition fsub_rounded (x y : float) : float := round_to rnd (fsub x y).
Definition fmul_rounded (x y : float) : float := round_to rnd (fmul x y).
Definition fdiv_rounded (x y : float) : float := round_to rnd (fdiv x y).

Definition vadd_rounded : Series float -> Series float -> Series float :=
  zip_with fadd_rounded.
Definition vsub_rounded : Series float -> Series float -> Series float :=
  zip_with fsub_rounded.
Definition vdiv_rounded : Series float -> Series float -> Series float :=
  zip_with fdiv_rounded.
Definition vscale_rounded (k : float) (s : Series float) : Series float :=
  fmul_rounded k <$> s.
Definition vunscale_rounded (s : Series float) (k : float) : Series float :=
  (fun x => fdiv_rounded x k) <$> s.

(** [calculate_pivots] with every sum, product and quotient rounded, in
    the order the code evaluates them. *)
Definition calculate_pivots_rounded (dataframe : OHLCV)
  : Series float * Series float * Series float :=
  let pp :=
    vunscale_rounded
      (vadd_rounded
         (vadd_rounded (shift 1 (floats (high dataframe)))
            (shift 1 (floats (low dataframe))))
         (shift 1 (floats (close dataframe))))
      (of_Z 3) in
  let r1 :=
    vsub_rounded (vscale_rounded (of_Z 2) pp)
      (shift 1 (floats (low dataframe))) in
  let s1 :=
    vsub_rounded (vscale_rounded (of_Z 2) pp)
      (shift 1 (floats (high dataframe))) in
  (pp, r1, s1).

(** [populate_indicators] with the arithmetic of the pivots, of the powers
    and of the TTF rounded. *)
Definition populate_indicators_rounded (self : DailyBuyStrategy)
    (dataframe : OHLCV) (metadata : Metadata) : Result DataFrame :=
  let macd := ta_MACD dataframe in
  let ema_short := ta_EMA dataframe (buy_ema_short self) in
  let ema_long := ta_EMA dataframe (buy_ema_long self) in
  let previous_close := shift 1 (floats (close dataframe)) in
  let '(pp, r1, s1) := calculate_pivots_rounded dataframe in
  match calculate_swing self dataframe with
  | Raise e => Raise e
  | Ok (swing_low, swing_high) =>
      let resistance_signal :=
        (floats (close dataframe) .> r1)
        .& (floats (close dataframe) .> previous_close) in
      let n := lookback_length self in
      let hh := rolling_max n n (close dataframe) in
      let ll := rolling_min n n (close dataframe) in
      let buyPower := vsub_rounded hh (shift n ll) in
      let sellPower := vsub_rounded (shift n hh) ll in
      let ttf :=
        vdiv_rounded
          (vscale_rounded (of_Z 200) (vsub_rounded buyPower sellPower))
          (vadd_rounded buyPower sellPower) in
      Ok {| ohlcv := dataframe;
            macd := fst macd; macdsignal := snd macd;
            ema_short := ema_short; ema_long := ema_long;
            previous_close := previous_close;
            pp := pp; r1 := r1; s1 := s1;
            pivot_point := pp; resistance_1 := r1; support_1 := s1;
            swing_low := swing_low; swing_high := swing_high;
            resistance_signal := resistance_signal;
            hh := hh; ll := ll;
            buyPower := buyPower; sellPower := sellPower; ttf := ttf;
            enter_long := replicate (length dataframe) None;
            enter_tag := replicate (length dataframe) None;
            exit_long := replicate (length dataframe) None;
            exit_tag := replicate (length dataframe) None |}
  end.

End RoundedIndicators.

(* ===================================================================== *)
(** * Entry and exit signals *)
(* ===================================================================== *)

(** [dataframe['volume'] > 0]. *)
Definition volume_positive (dataframe : DataFrame) : Series bool :=
  (fun v => Qlt_bool 0 v) <$> volume (ohlcv dataframe).

(** [dataframe.loc[mask, column] = v]: rows outside the mask keep what
    they hold. *)
Definition loc_assign {A} (mask : Series bool) (v : A)
    (column : Series (option A)) : Series (option A) :=
  zip_with (fun (m : bool) old => if m then Some v else old) mask column.

Definition assign_enter (mask : Series bool) (v : Z) (tag : string)
    (d : DataFrame) : DataFrame :=
  {| ohlcv := ohlcv d; macd := macd d; macdsignal := macdsignal d;
     ema_short := ema_short d; ema_long := ema_long d;
     previous_close := previous_close d;
     pp := pp d; r1 := r1 d; s1 := s1 d;
     pivot_point := pivot_point d; resistance_1 := resistance_1 d;
     support_1 := support_1 d;
     swing_low := swing_low d; swing_high := swing_high d;
     resistance_signal := resistance_signal d;
     hh := hh d; ll := ll d;
     buyPower := buyPower d; sellPower := sellPower d; ttf := ttf d;
     enter_long := loc_assign mask v (enter_long d);
     enter_tag := loc_assign mask tag (enter_tag d);
     exit_long := exit_long d; exit_tag := exit_tag d |}.

Definition assign_exit (mask : Series bool) (v : Z) (tag : string)
    (d : DataFrame) : DataFrame :=
  {| ohlcv := ohlcv d; macd := macd d; macdsignal := macdsignal d;
     ema_short := ema_short d; ema_long := ema_long d;
     previous_close := previous_close d;
     pp := pp d; r1 := r1 d; s1 := s1 d;
     pivot_point := pivot_point d; resistance_1 := resistance_1 d;
     support_1 := support_1 d;
     swing_low := swing_low d; swing_high := swing_high d;
     resistance_signal := resistance_signal d;
     hh := hh d; ll := ll d;
     buyPower := buyPower d; sellPower := sellPower d; ttf := ttf d;
     enter_long := enter_long d; enter_tag := enter_tag d;
     exit_long := loc_assign mask v (exit_long d);
     exit_tag := loc_assign mask tag (exit_tag d) |}.

(** [np.logical_and.reduce] over a non-empty list of columns. *)
Definition logical_and_reduce (conditions : list (Series bool)) : Series bool :=
  match conditions with
  | [] => []
  | c :: cs => foldl vand c cs
  end.

(** [informative.reindex(dataframe.index, method='nearest')] on one
    column: both frames carry the positional index, so the label nearest
    to row [i] among [0..m-1] is [min i (m-1)].  The callback reindexes a
    frame only after it has found it not empty. *)
Definition reindex_nearest {A} (n : nat) (s : Series A) : Series A :=
  match s with
  | [] => []
  | x :: _ => (fun i => default x (s !! (i `min` (length s - 1)))) <$> seq 0 n
  end.

(** The guard both signal callbacks start with: the queue is not empty,
    its last entry names this pair and carries [command]. *)
Definition last_command_is (command : string) (cmds : list Command)
    (metadata : Metadata) : bool :=
  match last cmds with
  | Some c =>
      String.eqb (cmd_pair c) (md_pair metadata)
      && String.eqb (cmd_command c) command
  | None => false
  end.

Definition without_pair (p : string) (cmds : list Command) : list Command :=
  filter (fun s => cmd_pair s <> p) cmds.

(** The three OR'd technical conditions of the entry, each under a name. *)
Definition macd_ema_bullish (dataframe : DataFrame) : Series bool :=
  (macd dataframe .> macdsignal dataframe)
  .& (ema_short dataframe .> ema_long dataframe).

Definition resistance_breakout (dataframe : DataFrame) : Series bool :=
  resistance_signal dataframe .& volume_positive dataframe.

Definition ttf_above (self : DailyBuyStrategy) (dataframe : DataFrame)
  : Series bool :=
  vgt_const (ttf dataframe) (of_Z (upper_trigger_level self)).

Definition entry_technical (self : DailyBuyStrategy) (dataframe : DataFrame)
  : Series bool :=
  macd_ema_bullish dataframe
  .| resistance_breakout dataframe
  .| ttf_above self dataframe.

(** [dataframe['close'] < informative['close'].shift(1)] after the
    informative frame has been reindexed. *)
Definition higher_timeframe_confirmation (dataframe : DataFrame)
    (informative : OHLCV) : Series bool :=
  floats (close (ohlcv dataframe))
  .< shift 1 (floats (reindex_nearest (n_rows dataframe) (close informative))).

Definition populate_entry_trend (self : DailyBuyStrategy)
    (dataframe : DataFrame) (metadata : Metadata) : M DataFrame :=
  cmds <- gets commands ;;
  if last_command_is "BUY" cmds metadata then
    set_commands (without_pair (md_pair metadata) cmds) ;;
    ret (assign_enter (volume_positive dataframe) 1 "trigger_buy" dataframe)
  else
    let conditions := [ entry_technical self dataframe ] in
    match timeframe_hierarchy !! timeframe self with
    | None => raise KeyError
    | Some level =>
        let informative :=
          get_pair_dataframe (dp self) (md_pair metadata) level in
        conditions <-
          match informative with
          | _ :: _ =>
              ret (conditions
                   ++ [ higher_timeframe_confirmation dataframe informative ])
          | [] =>
              logging (Info_no_data (md_pair metadata) level) ;;
              ret conditions
          end ;;
        (* every condition is a Series, so the [else] that logs
           "Not all conditions are pandas Series." is never taken *)
        let final_condition := logical_and_reduce conditions in
        ret (assign_enter final_condition 1 "multi_timeframe_cross" dataframe)
    end.

(** The exit's OR'd conditions, each under a name. *)
Definition close_above_swing_high (dataframe : DataFrame) : Series bool :=
  floats (close (ohlcv dataframe)) .> swing_high dataframe.

Definition macd_ema_bearish (dataframe : DataFrame) : Series bool :=
  (macd dataframe .< macdsignal dataframe)
  .& (ema_short dataframe .< ema_long dataframe).

Definition ttf_below (self : DailyBuyStrategy) (dataframe : DataFrame)
  : Series bool :=
  vlt_const (ttf dataframe) (of_Z (lower_trigger_level self)).

Definition exit_technical (self : DailyBuyStrategy) (dataframe : DataFrame)
  : Series bool :=
  close_above_swing_high dataframe
  .| macd_ema_bearish dataframe
  .| ttf_below self dataframe.

Definition populate_exit_trend (self : DailyBuyStrategy)
    (dataframe : DataFrame) (metadata : Metadata) : M DataFrame :=
  cmds <- gets commands ;;
  if last_command_is "SELL" cmds metadata then
    set_commands (without_pair (md_pair metadata) cmds) ;;
    ret (assign_exit (volume_positive dataframe) 1 "trigger_sell" dataframe)
  else
    let conditions :=
      [ exit_technical self dataframe; volume_positive dataframe ] in
    let exit_condition := logical_and_reduce conditions in
    ret (assign_exit exit_condition 1 "macd_ema_exit" dataframe).

(* ===================================================================== *)
(** * Exit confirmation *)
(* ===================================================================== *)

(** Python's [needle in text] on strings: [needle] occurs as a substring. *)
Fixpoint contains (needle text : string) : bool :=
  String.prefix needle text
  || match text with
     | EmptyString => false
     | String _ rest => contains needle rest
     end.

Definition confirm_trade_exit (self : DailyBuyStrategy) (pair : string)
    (trade : Trade) (rate : Q) (exit_reason : string) : bool :=
  let profit_ratio := calc_profit_ratio trade rate in
  if contains "macd_ema_exit" exit_reason && Qle_bool 0.005 profit_ratio then true
  else if (contains "trailing" exit_reason || contains "roi" exit_reason)
          && Qle_bool 0.005 profit_ratio then true
  else if contains "force" exit_reason || contains "trigger" exit_reason then true
  else false.

(* ===================================================================== *)
(** * Custom data, stop-loss and DCA *)
(* ===================================================================== *)

(** [CustomDataWrapper.get_custom_data(trade_id=..., key=...)]: the list
    of matching records. *)
Definition get_custom_data_DCA (id : Z) : M (list (list Q)) :=
  gets (fun st => option_list (cd_DCA (custom_data st) !! id)).

Definition get_custom_data_SL (id : Z) : M (list Q) :=
  gets (fun st => option_list (cd_SL (custom_data st) !! id)).

(** [CustomDataWrapper.set_custom_data(trade_id=..., key=..., value=...)]. *)
Definition set_custom_data_DCA (id : Z) (value : list Q) : M unit :=
  cd <- gets custom_data ;;
  set_custom_data {| cd_DCA := <[id := value]> (cd_DCA cd); cd_SL := cd_SL cd |}.

Definition set_custom_data_SL (id : Z) (value : Q) : M unit :=
  cd <- gets custom_data ;;
  set_custom_data {| cd_DCA := cd_DCA cd; cd_SL := <[id := value]> (cd_SL cd) |}.

(** [records[0]]. *)
Definition item0 {A} (records : list A) : M A :=
  match records with
  | r :: _ => ret r
  | [] => raise IndexError
  end.

Definition get_dca_list (self : DailyBuyStrategy) (trade : Trade) : M (list Q) :=
  try_except
    (records <- get_custom_data_DCA (trade_id trade) ;; item0 records)
    (ret []).

(** The body of [get_mk_sl] over any lookup: whatever the lookup raises
    is swallowed and the trade's own stop-loss is returned. *)
Definition get_mk_sl_from (lookup : M (list Q)) (trade : Trade) : M Q :=
  try_except
    (records <- lookup ;; item0 records)
    (ret (stop_loss trade)).

Definition get_mk_sl (self : DailyBuyStrategy) (trade : Trade) : M Q :=
  get_mk_sl_from (get_custom_data_SL (trade_id trade)) trade.

Definition set_mk_sl (self : DailyBuyStrategy) (trade : Trade)
    (current_rate : Q) : M unit :=
  let sl := (current_rate * new_sl_coef self)%Q in
  set_custom_data_SL (trade_id trade) sl.

Definition confirm_dca (self : DailyBuyStrategy) (current_rate : Q)
    (trade : Trade) : M unit :=
  dcas <- get_dca_list self trade ;;
  let dcas := dcas ++ [current_rate] in
  set_mk_sl self trade current_rate ;;
  set_custom_data_DCA (trade_id trade) dcas.

(** What [custom_exit] returns when it fires: the string
    [f"custom_stop_loss_{sl}"], kept with its payload. *)
Inductive ExitSignal : Type :=
| custom_stop_loss_ (sl : Q).

Definition custom_exit (self : DailyBuyStrategy) (pair : string)
    (trade : Trade) (current_rate current_profit : Q)
  : M (option ExitSignal) :=
  sl <- get_mk_sl self trade ;;
  if Qle_bool current_rate sl then ret (Some (custom_stop_loss_ sl))
  else ret None.

(** [dataframe.index[-1]] on the positional index. *)
Definition last_index (dataframe : DataFrame) : Z :=
  Z.of_nat (n_rows dataframe) - 1.

(** [dataframe.iloc[-1][column]]: the last cell of a column.  The callers
    have checked that the frame is not empty; on a rectangular frame the
    column then has a last cell. *)
Definition iloc_last (column : Series bool) : bool :=
  default false (last column).

(** Python's [a % m]: the result has the sign of [m], as [Z.modulo];
    a zero [m] raises. *)
Definition py_mod (a m : Z) : M Z :=
  if (m =? 0)%Z then raise ZeroDivisionError else ret (a mod m)%Z.

(** The arguments [current_time], [min_stake], [max_stake] and the
    entry/exit rates and profits are not read by the decision. *)
Definition adjust_trade_position (self : DailyBuyStrategy) (trade : Trade)
    (current_rate current_profit : Q) : M (option Q) :=
  dcas <- get_dca_list self trade ;;
  if match last dcas with
     | Some d => Qle_bool (d * 0.995) current_rate
     | None => false
     end
  then ret None
  else if Qle_bool (- dca_threshold self) current_profit then ret None
  else
    let dataframe :=
      get_analyzed_dataframe (dp self) (trade_pair trade) (timeframe self) in
    if empty dataframe then ret None
    else
      let last_candle_resistance_signal :=
        iloc_last (resistance_signal dataframe) in
      let last_index := last_index dataframe in
      dca_list <- get_dca_list self trade ;;
      let proceed : M (option Q) :=
        r <- py_mod last_index (dca_candles_modulo self) ;;
        if negb (r =? 0)%Z then ret None
        else if last_candle_resistance_signal then
          confirm_dca self current_rate trade ;;
          logging (Info_dca_triggered (trade_pair trade) (stake_amount trade)) ;;
          ret (Some (stake_amount trade))
        else ret None in
      match last dca_list with
      | Some d =>
          if Qlt_bool d current_rate then
            logging (Info_price_higher current_rate d) ;; ret None
          else proceed
      | None => proceed
      end.

Definition custom_stake_amount (self : DailyBuyStrategy)
    (proposed_stake : Q) : Q :=
  (proposed_stake / 4)%Q.

(* ===================================================================== *)
(** * Informative pairs, the text of an exit reason, repeated DCAs *)
(* ===================================================================== *)

(** [self.timeframe_hierarchy.keys()], in the order the class writes
    them. *)
Definition timeframe_hierarchy_keys : list string :=
  [ "1m"; "5m"; "15m"; "1h"; "4h"; "1d"; "1w" ]%string.

(** [informative_pairs]; [self.dp.current_whitelist()] is the host's and
    comes in as [pairs]. *)
Definition informative_pairs (self : DailyBuyStrategy) (pairs : list string)
  : list (string * string) :=
  pair ← pairs; timeframe ← timeframe_hierarchy_keys; [(pair, timeframe)].

(** The string [custom_exit] returns, [f"custom_stop_loss_{sl}"]; Python's
    formatting of a float comes in as [format]. *)
Definition exit_reason_of (format : Q -> string) (signal : ExitSignal)
  : string :=
  match signal with
  | custom_stop_loss_ sl => "custom_stop_loss_" +:+ format sl
  end.

(** The characters Python writes a float with: digits, the point, signs,
    the exponent mark and the letters of [inf] and [nan]. *)
Definition float_characters : list ascii :=
  list_ascii_of_string "0123456789.-+einfa".

Definition float_text (s : string) : Prop :=
  Forall (fun c => c ∈ float_characters) (list_ascii_of_string s).

(** [confirm_dca] called once per rate, oldest first, as the host does
    over the life of a trade. *)
Fixpoint confirm_dca_each (self : DailyBuyStrategy) (rates : list Q)
    (trade : Trade) : M unit :=
  match rates with
  | [] => ret tt
  | rate :: later =>
      confirm_dca self rate trade ;; confirm_dca_each self later trade
  end.

(* ===================================================================== *)
(** * Concrete inputs *)
(* ===================================================================== *)

(** MACD(12, 26, 9) and EMA(50) are still warming up on a series of thirty
    candles: TA-Lib returns NaN on every row.  EMA(10) has values from
    the tenth row on, but the only comparison it enters has the NaN of
    EMA(50) on the other side, so NaN stands in for them. *)
Definition warmup_MACD (rows : OHLCV) : Series float * Series float :=
  (replicate (length rows) NaN, replicate (length rows) NaN).

Definition warmup_EMA (rows : OHLCV) (timeperiod : Z) : Series float :=
  replicate (length rows) NaN.

(** A candle one unit wide around its close, with some volume. *)
Definition candle_at (c : Q) : Candle :=
  {| c_open := c; c_high := c + 1; c_low := c - 1; c_close := c;
     c_volume := 1 |}.

(** Twenty-nine candles falling from 60 to 32, then one closing at 34. *)
Definition falling_then_uptick : OHLCV :=
  ((fun k => candle_at (inject_Z (60 - Z.of_nat k))) <$> seq 0 29)
  ++ [candle_at 34].

Definition no_columns : DataFrame :=
  {| ohlcv := []; macd := []; macdsignal := []; ema_short := [];
     ema_long := []; previous_close := []; pp := []; r1 := []; s1 := [];
     pivot_point := []; resistance_1 := []; support_1 := [];
     swing_low := []; swing_high := []; resistance_signal := [];
     hh := []; ll := []; buyPower := []; sellPower := []; ttf := [];
     enter_long := []; enter_tag := []; exit_long := []; exit_tag := [] |}.

(** A data provider with nothing to offer. *)
Definition no_data : DataProvider :=
  {| get_pair_dataframe := fun _ _ => [];
     get_analyzed_dataframe := fun _ _ => no_columns |}.

Definition btc : Metadata := {| md_pair := "BTC/USD" |}.

Definition idle : State :=
  {| commands := [];
     custom_data := {| cd_DCA := ∅; cd_SL := ∅ |};
     log := [] |}.

(** The analysed frame of [falling_then_uptick] under the default
    parameters. *)
Definition falling_frame : DataFrame :=
  match
    populate_indicators warmup_MACD warmup_EMA (defaults "5m" no_data)
      falling_then_uptick btc
  with
  | Ok df => df
  | Raise _ => no_columns
  end.

(** The falling frame with the columns of some other indicator library in
    place of the warm-up columns. *)
Definition with_indicators (macd_columns : Series float * Series float)
    (ema_short_column ema_long_column : Series float) (d : DataFrame)
  : DataFrame :=
  {| ohlcv := ohlcv d;
     macd := fst macd_columns; macdsignal := snd macd_columns;
     ema_short := ema_short_column; ema_long := ema_long_column;
     previous_close := previous_close d;
     pp := pp d; r1 := r1 d; s1 := s1 d;
     pivot_point := pivot_point d; resistance_1 := resistance_1 d;
     support_1 := support_1 d;
     swing_low := swing_low d; swing_high := swing_high d;
     resistance_signal := resistance_signal d;
     hh := hh d; ll := ll d;
     buyPower := buyPower d; sellPower := sellPower d; ttf := ttf d;
     enter_long := enter_long d; enter_tag := enter_tag d;
     exit_long := exit_long d; exit_tag := exit_tag d |}.

Definition falling_with (ta_MACD : OHLCV -> Series float * Series float)
    (ta_EMA : OHLCV -> Z -> Series float) : DataFrame :=
  with_indicators (ta_MACD falling_then_uptick)
    (ta_EMA falling_then_uptick 10%Z) (ta_EMA falling_then_uptick 50%Z)
    falling_frame.

(** A data provider whose coarser frames hold two candles, closing at 50
    and at 40. *)
Definition coarse_data : DataProvider :=
  {| get_pair_dataframe := fun _ _ => [candle_at 50; candle_at 40];
     get_analyzed_dataframe := fun _ _ => no_columns |}.

(** The falling frame after the default entry path (the informative frame
    is missing, which is logged) and after the default exit path. *)
Definition falling_entered : DataFrame :=
  assign_enter (entry_technical (defaults "5m" no_data) falling_frame)
    1 "multi_timeframe_cross" falling_frame.

Definition idle_logged : State :=
  {| commands := [];
     custom_data := {| cd_DCA := ∅; cd_SL := ∅ |};
     log := [Info_no_data "BTC/USD" "15m"] |}.

Definition falling_exited : DataFrame :=
  assign_exit
    (exit_technical (defaults "5m" no_data) falling_entered
     .& volume_positive falling_entered)
    1 "macd_ema_exit" falling_entered.

(** One analysed candle that shows a resistance breakout; being alone its
    index is 0. *)
Definition breakout_frame : DataFrame :=
  {| ohlcv := [candle_at 34]; macd := [NaN]; macdsignal := [NaN];
     ema_short := [NaN]; ema_long := [NaN]; previous_close := [Fin 32];
     pp := [Fin 32]; r1 := [Fin 33]; s1 := [Fin 31];
     pivot_point := [Fin 32]; resistance_1 := [Fin 33]; support_1 := [Fin 31];
     swing_low := [NaN]; swing_high := [NaN]; resistance_signal := [true];
     hh := [NaN]; ll := [NaN]; buyPower := [NaN]; sellPower := [NaN];
     ttf := [NaN];
     enter_long := [None]; enter_tag := [None];
     exit_long := [None]; exit_tag := [None] |}.

Definition breakout_data : DataProvider :=
  {| get_pair_dataframe := fun _ _ => [];
     get_analyzed_dataframe := fun _ _ => breakout_frame |}.

(** The same frame one candle later: the last index is 1. *)
Definition two_candle_frame : DataFrame :=
  {| ohlcv := [candle_at 32; candle_at 34]; macd := [NaN; NaN];
     macdsignal := [NaN; NaN]; ema_short := [NaN; NaN]; ema_long := [NaN; NaN];
     previous_close := [NaN; Fin 32];
     pp := [NaN; Fin 32]; r1 := [NaN; Fin 33]; s1 := [NaN; Fin 31];
     pivot_point := [NaN; Fin 32]; resistance_1 := [NaN; Fin 33];
     support_1 := [NaN; Fin 31];
     swing_low := [NaN; NaN]; swing_high := [NaN; NaN];
     resistance_signal := [false; true];
     hh := [NaN; NaN]; ll := [NaN; NaN]; buyPower := [NaN; NaN];
     sellPower := [NaN; NaN]; ttf := [NaN; NaN];
     enter_long := [None; None]; enter_tag := [None; None];
     exit_long := [None; None]; exit_tag := [None; None] |}.

Definition two_candle_data : DataProvider :=
  {| get_pair_dataframe := fun _ _ => [];
     get_analyzed_dataframe := fun _ _ => two_candle_frame |}.

(** An open trade bought at 40 with the host's stop-loss at 36. *)
Definition trade_7 : Trade :=
  {| trade_id := 7; trade_pair := "BTC/USD"; stake_amount := 25;
     stop_loss := 36;
     calc_profit_ratio := fun rate => ((rate - 40) / 40)%Q |}.

(** The persisted DCA list of a trade, empty when nothing is stored. *)
Definition stored_dcas (st : State) (trade : Trade) : list Q :=
  default [] (cd_DCA (custom_data st) !! trade_id trade).

(** The persisted stop-loss of a trade, the trade's own when nothing is
    stored. *)
Definition stored_sl (st : State) (trade : Trade) : Q :=
  default (stop_loss trade) (cd_SL (custom_data st) !! trade_id trade).

(** The six checks of the DCA decision as the specification lists them
    (section 4.6): the price has dropped below 99.5% of the last DCA price,
    the profit is below the negative threshold, there is analysed data,
    the price is not above the last DCA price, the last index is a
    multiple of the modulo, and the last candle shows a resistance
    breakout. *)
Definition dca_checks_pass (self : DailyBuyStrategy) (trade : Trade)
    (current_rate current_profit : Q) (st : State) : bool :=
  let dataframe :=
    get_analyzed_dataframe (dp self) (trade_pair trade) (timeframe self) in
  negb (match last (stored_dcas st trade) with
        | Some d => Qle_bool (d * 0.995) current_rate
        | None => false
        end)
  && Qlt_bool current_profit (- dca_threshold self)
  && negb (empty dataframe)
  && negb (match last (stored_dcas st trade) with
           | Some d => Qlt_bool d current_rate
           | None => false
           end)
  && (last_index dataframe mod dca_candles_modulo self =? 0)%Z
  && iloc_last (resistance_signal dataframe).

(** The state an approved DCA leaves behind. *)
Definition after_dca (self : DailyBuyStrategy) (trade : Trade)
    (current_rate : Q) (st : State) : State :=
  {| commands := commands st;
     custom_data :=
       {| cd_DCA :=
            <[trade_id trade := stored_dcas st trade ++ [current_rate]]>
              (cd_DCA (custom_data st));
          cd_SL :=
            <[trade_id trade := (current_rate * new_sl_coef self)%Q]>
              (cd_SL (custom_data st)) |};
     log := log st
            ++ [Info_dca_triggered (trade_pair trade) (stake_amount trade)] |}.

(** A reason mentions a tag: the tag occurs somewhere inside it. *)
Definition mentions (tag reason : string) : Prop :=
  exists before after, reason = before +:+ tag +:+ after.

(** The breakout candle on a halted market: no volume. *)
Definition halted_frame : DataFrame :=
  {| ohlcv := [ {| c_open := 34; c_high := 35; c_low := 33; c_close := 34;
                   c_volume := 0 |} ];
     macd := [NaN]; macdsignal := [NaN];
     ema_short := [NaN]; ema_long := [NaN]; previous_close := [Fin 32];
     pp := [Fin 32]; r1 := [Fin 33]; s1 := [Fin 31];
     pivot_point := [Fin 32]; resistance_1 := [Fin 33]; support_1 := [Fin 31];
     swing_low := [NaN]; swing_high := [NaN]; resistance_signal := [true];
     hh := [NaN]; ll := [NaN]; buyPower := [NaN]; sellPower := [NaN];
     ttf := [NaN];
     enter_long := [None]; enter_tag := [None];
     exit_long := [None]; exit_tag := [None] |}.

(** A queue whose only entry asks to buy BTC/USD, and one where a command
    for another pair was queued after it. *)
Definition buy_queued : State :=
  {| commands := [ {| cmd_pair := "BTC/USD"; cmd_command := "BUY" |} ];
     custom_data := {| cd_DCA := ∅; cd_SL := ∅ |};
     log := [] |}.

Definition buy_then_other_queued : State :=
  {| commands := [ {| cmd_pair := "BTC/USD"; cmd_command := "BUY" |};
                   {| cmd_pair := "ETH/USD"; cmd_command := "SELL" |} ];
     custom_data := {| cd_DCA := ∅; cd_SL := ∅ |};
     log := [] |}.

(** A float formatting that writes 36.0 whatever it is given; it stands
    in for Python's on the one stop-loss the example below formats. *)
Definition writes_36 (sl : Q) : string := "36.0".


(** A queue that asks to buy BTC/USD and then to sell it. *)
Definition buy_then_sell_queued : State :=
  {| commands := [ {| cmd_pair := "BTC/USD"; cmd_command := "BUY" |};
                   {| cmd_pair := "ETH/USD"; cmd_command := "BUY" |};
                   {| cmd_pair := "BTC/USD"; cmd_command := "SELL" |} ];
     custom_data := {| cd_DCA := ∅; cd_SL := ∅ |};
     log := [] |}.

(** The class with the lookback of the oscillator at the low end of its
    declared range, every other parameter at its default. *)
Definition short_lookback (tf : string) (provider : DataProvider)
  : DailyBuyStrategy :=
  {| timeframe := tf; dp := provider;
     new_sl_coef := 0.75;
     lookback_length := 1;
     upper_trigger_level := 100;
     lower_trigger_level := -100;
     swing_window := 50;
     swing_min_periods := 10;
     buy_ema_short := 10;
     buy_ema_long := 50;
     dca_candles_modulo := 10;
     dca_threshold := 0.01 |}.

(** The analysed frame of [falling_then_uptick] under that lookback. *)
Definition short_frame : DataFrame :=
  match
    populate_indicators warmup_MACD warmup_EMA (short_lookback "5m" no_data)
      falling_then_uptick btc
  with
  | Ok df => df
  | Raise _ => no_columns
  end.

(** A rounding that errs on every result by a tenth of a percent away
    from zero: far coarser than a double, but within what [rounding] asks
    for, and it shows that the bounds proved under rounding are reached. *)
Definition inflate (x : Q) : Q := (x * 1.001)%Q.

(** Twenty-nine candles closing at 1, then one closing at 2. *)
Definition flat_then_uptick : OHLCV :=
  replicate 29 (candle_at 1) ++ [candle_at 2].

(** The analysed frame of [flat_then_uptick] under the default parameters,
    computed with the rounding [inflate]. *)
Definition flat_frame_rounded : DataFrame :=
  match
    populate_indicators_rounded inflate warmup_MACD warmup_EMA
      (defaults "5m" no_data) flat_then_uptick btc
  with
  | Ok df => df
  | Raise _ => no_columns
  end.

(* ===================================================================== *)
(** * The statements that fail, as the specification words them *)
(* ===================================================================== *)

(** "TTF is always in [-200, 200] when buyPower + sellPower is defined and
    not zero", at row [i] of one candle series. *)
Definition ttf_within_200_at
    (ta_MACD : OHLCV -> Series float * Series float)
    (ta_EMA : OHLCV -> Z -> Series float)
    (self : DailyBuyStrategy) (rows : OHLCV) (md : Metadata) (i : nat) : Prop :=
  forall df d t,
    populate_indicators ta_MACD ta_EMA self rows md = Ok df ->
    (buyPower df .+ sellPower df) !! i = Some (Fin d) ->
    ~ (d == 0)%Q ->
    ttf df !! i = Some t ->
    exists q, t = Fin q /\ (-200 <= q)%Q /\ (q <= 200)%Q.

(** "No row is assigned both [enter_long = 1] and [exit_long = 1] by the
    base rule paths", for one candle series run through the three
    callbacks in the host's order. *)
Definition never_both_signals_at
    (ta_MACD : OHLCV -> Series float * Series float)
    (ta_EMA : OHLCV -> Z -> Series float)
    (self : DailyBuyStrategy) (rows : OHLCV) (md : Metadata) (st : State)
  : Prop :=
  forall df d1 st1 d2 st2 i,
    populate_indicators ta_MACD ta_EMA self rows md = Ok df ->
    last_command_is "BUY" (commands st) md = false ->
    last_command_is "SELL" (commands st) md = false ->
    populate_entry_trend self df md st = (Ok d1, st1) ->
    populate_exit_trend self d1 md st1 = (Ok d2, st2) ->
    ~ (enter_long d2 !! i = Some (Some 1%Z)
       /\ exit_long d2 !! i = Some (Some 1%Z)).

(** A command of the queue that asks to buy this pair. *)
Definition queues_buy (cmds : list Command) (md : Metadata) : Prop :=
  exists c, c ∈ cmds /\ cmd_pair c = md_pair md /\ cmd_command c = "BUY"%string.

(** "A queued BUY for the pair gives an entry signal tagged 'trigger_buy'
    on every row and is removed from the queue", for one frame and one
    state. *)
Definition queued_buy_fires_at
    (self : DailyBuyStrategy) (d : DataFrame) (md : Metadata) (st : State)
  : Prop :=
  queues_buy (commands st) md ->
  exists d' st',
    populate_entry_trend self d md st = (Ok d', st')
    /\ (forall i, i < n_rows d ->
          enter_long d' !! i = Some (Some 1%Z)
          /\ enter_tag d' !! i = Some (Some "trigger_buy"%string))
    /\ ~ queues_buy (commands st') md.

(* ===================================================================== *)
(** * Basic facts: comparisons, columns, the monad *)
(* ===================================================================== *)

Lemma Qlt_bool_iff (x y : Q) : Qlt_bool x y = true <-> (x < y)%Q.
Proof.
  unfold Qlt_bool. rewrite negb_true_iff, <- not_true_iff_false, Qle_bool_iff.
  split; [apply Qnot_le_lt | apply Qlt_not_le].
Qed.

Lemma Qlt_bool_false_iff (x y : Q) : Qlt_bool x y = false <-> (y <= x)%Q.
Proof.
  unfold Qlt_bool. rewrite negb_false_iff. apply Qle_bool_iff.
Qed.

Lemma Qle_bool_false_iff (x y : Q) : Qle_bool x y = false <-> (y < x)%Q.
Proof.
  rewrite <- not_true_iff_false, Qle_bool_iff.
  split; [apply Qnot_le_lt | apply Qlt_not_le].
Qed.

Lemma Qeq_bool_false_iff (x y : Q) : Qeq_bool x y = false <-> ~ (x == y)%Q.
Proof. rewrite <- not_true_iff_false, Qeq_bool_iff. reflexivity. Qed.

(** A comparison of two floats holds only between values that are not
    NaN; on finite values it is the order of the rationals. *)
Lemma flt_Fin (a b : Q) : flt (Fin a) (Fin b) = true <-> (a < b)%Q.
Proof. apply Qlt_bool_iff. Qed.


Lemma flt_NaN_r (x : float) : flt x NaN = false.
Proof. by destruct x. Qed.


(** [x < y] and [x > y] exclude each other. *)
Lemma flt_fgt_exclusive (x y : float) : flt x y = true -> fgt x y = true -> False.
Proof.
  unfold fgt. destruct x as [a| | |], y as [b| | |]; cbn; try discriminate.
  rewrite !Qlt_bool_iff. intros H1 H2. apply (Qlt_irrefl a).
  by apply Qlt_trans with b.
Qed.

(** Below [lo] and above [hi] exclude each other when [lo <= hi]. *)
Lemma flt_fgt_levels (x : float) (lo hi : Z) :
  (lo <= hi)%Z -> flt x (of_Z lo) = true -> fgt x (of_Z hi) = true -> False.
Proof.
  intros Hle. unfold fgt, of_Z. destruct x as [a| | |]; cbn; try discriminate.
  rewrite !Qlt_bool_iff. intros H1 H2.
  assert (inject_Z lo <= inject_Z hi)%Q by by rewrite <- Zle_Qle.
  apply (Qlt_irrefl a). apply Qlt_trans with (inject_Z lo); [done |].
  by apply Qle_lt_trans with (inject_Z hi).
Qed.

Section IndicatorFacts.

Variable ta_MACD : OHLCV -> Series float * Series float.
Variable ta_EMA : OHLCV -> Z -> Series float.

(** What a successful [populate_indicators] leaves in the frame. *)
Lemma populate_indicators_columns self rows md df :
  populate_indicators ta_MACD ta_EMA self rows md = Ok df ->
  ohlcv df = rows
  /\ swing_high df
     = rolling_max (swing_window self) (swing_min_periods self) (high rows)
  /\ hh df = rolling_max (lookback_length self) (lookback_length self) (close rows)
  /\ ll df = rolling_min (lookback_length self) (lookback_length self) (close rows)
  /\ buyPower df = hh df .- shift (lookback_length self) (ll df)
  /\ sellPower df = shift (lookback_length self) (hh df) .- ll df
  /\ ttf df
     = vscale (of_Z 200) (buyPower df .- sellPower df)
       ./ (buyPower df .+ sellPower df)
  /\ enter_long df = replicate (length rows) None
  /\ exit_long df = replicate (length rows) None.
Proof.
  unfold populate_indicators, calculate_swing, calculate_pivots.
  destruct (swing_window self <? swing_min_periods self)%nat; [discriminate |].
  intros [= <-]. cbn. repeat split.
Qed.

(** The declared ranges keep [min_periods] within the window, so the
    indicators are computed for every candle series. *)
Lemma populate_indicators_total self rows md :
  declared_bounds self ->
  exists df, populate_indicators ta_MACD ta_EMA self rows md = Ok df.
Proof.
  intros [_ _ _ _ Hw Hm _ _ _ _].
  unfold populate_indicators, calculate_swing, calculate_pivots.
  destruct (Nat.ltb_spec (swing_window self) (swing_min_periods self)); [lia |].
  eauto.
Qed.

End IndicatorFacts.

(** With a zero sum the division is by zero: the TTF is an infinity with
    the sign of buyPower - sellPower, or NaN when both powers are zero;
    it is never a finite value. *)
Lemma ttf_zero_sum (b s : Q) :
  (b + s == 0)%Q ->
  fdiv (fmul (of_Z 200) (fsub (Fin b) (Fin s))) (fadd (Fin b) (Fin s))
  = signed_inf (inject_Z 200 * (b + - s)) PInf
  /\ forall q, signed_inf (inject_Z 200 * (b + - s)) PInf <> Fin q.
Proof.
  intros Hzero. split.
  - cbn. by apply Qeq_bool_iff in Hzero as ->.
  - intros q. unfold signed_inf.
    destruct (Qeq_bool (inject_Z 200 * (b + - s)) 0); [done |].
    by destruct (Qlt_bool 0 (inject_Z 200 * (b + - s))).
Qed.

(* ===================================================================== *)
(** * The TTF oscillator *)
(* ===================================================================== *)

(** A sum of two floats is finite only when both are. *)
Lemma fadd_Fin_inv (x y : float) (d : Q) :
  fadd x y = Fin d -> exists b s, x = Fin b /\ y = Fin s /\ d = (b + s)%Q.
Proof.
  destruct x as [b| | |], y as [s| | |]; cbn; try discriminate.
  intros [= <-]. eauto.
Qed.

(** The frame of the falling series exists, and on its last row the powers
    are -1 and 28: they sum to 27 and the TTF is -5800/27. *)
Lemma falling_frame_computed :
  populate_indicators warmup_MACD warmup_EMA (defaults "5m" no_data)
    falling_then_uptick btc = Ok falling_frame.
Proof. vm_compute. reflexivity. Qed.

Lemma falling_frame_last_row :
  buyPower falling_frame !! 29 = Some (Fin (-1))
  /\ sellPower falling_frame !! 29 = Some (Fin 28)
  /\ (buyPower falling_frame .+ sellPower falling_frame) !! 29 = Some (Fin 27)
  /\ ttf falling_frame !! 29 = Some (Fin (-5800 # 27)).
Proof. vm_compute. repeat split. Qed.

(** C1 (as stated) fails: under the default parameters the last row of the
    falling series has buyPower + sellPower = 27 and a TTF of about
    -214.8. *)
Lemma ttf_exceeds_200 :
  ~ ttf_within_200_at warmup_MACD warmup_EMA (defaults "5m" no_data)
      falling_then_uptick btc 29.
Proof.
  intros Hclaim.
  destruct falling_frame_last_row as (_ & _ & Hsum & Httf).
  destruct (Hclaim falling_frame 27%Q (Fin (-5800 # 27)))
    as (q & [= <-] & Hlo & _);
    [apply falling_frame_computed | exact Hsum | discriminate | exact Httf |].
  apply Qle_bool_iff in Hlo. vm_compute in Hlo. discriminate.
Qed.

(* ===================================================================== *)
(** * Custom data and the stop-loss *)
(* ===================================================================== *)

Lemma get_dca_list_run self trade st :
  get_dca_list self trade st = (Ok (stored_dcas st trade), st).
Proof.
  unfold get_dca_list, try_except, get_custom_data_DCA, stored_dcas, bind, gets.
  by destruct (cd_DCA (custom_data st) !! trade_id trade).
Qed.

Lemma get_mk_sl_run self trade st :
  get_mk_sl self trade st = (Ok (stored_sl st trade), st).
Proof.
  unfold get_mk_sl, get_mk_sl_from, try_except, get_custom_data_SL, stored_sl,
    bind, gets.
  by destruct (cd_SL (custom_data st) !! trade_id trade).
Qed.

Lemma custom_exit_run self pair trade rate profit st :
  custom_exit self pair trade rate profit st
  = (Ok (if Qle_bool rate (stored_sl st trade)
         then Some (custom_stop_loss_ (stored_sl st trade)) else None), st).
Proof.
  unfold custom_exit, bind. rewrite get_mk_sl_run.
  by destruct (Qle_bool rate (stored_sl st trade)).
Qed.

(** C9: [custom_exit] signals exactly when the current rate is at or below
    the looked-up stop-loss; the lookup gives the persisted value when one
    exists and the trade's own stop-loss when none is stored, when the
    record list comes back empty, or when the lookup raises. *)
Theorem custom_exit_iff_rate_at_or_below_stop_loss
    (self : DailyBuyStrategy) (pair : string) (trade : Trade)
    (current_rate current_profit : Q) (st : State) (e : Exception) :
  ((exists signal,
      custom_exit self pair trade current_rate current_profit st
      = (Ok (Some signal), st))
   <-> (current_rate <= stored_sl st trade)%Q)
  /\ ((custom_exit self pair trade current_rate current_profit st = (Ok None, st))
      <-> ~ (current_rate <= stored_sl st trade)%Q)
  /\ get_mk_sl self trade st
     = (Ok match cd_SL (custom_data st) !! trade_id trade with
           | Some persisted => persisted
           | None => stop_loss trade
           end, st)
  /\ get_mk_sl_from (ret []) trade st = (Ok (stop_loss trade), st)
  /\ get_mk_sl_from (raise e) trade st = (Ok (stop_loss trade), st).
Proof.
  rewrite custom_exit_run, get_mk_sl_run, <- Qle_bool_iff.
  assert (Hsl : stored_sl st trade
                = match cd_SL (custom_data st) !! trade_id trade with
                  | Some persisted => persisted
                  | None => stop_loss trade
                  end).
  { unfold stored_sl. by destruct (cd_SL (custom_data st) !! trade_id trade). }
  split; [| split; [| split; [by rewrite Hsl | by split]]].
  - destruct (Qle_bool current_rate (stored_sl st trade)).
    + split; [done | eauto].
    + split; [intros [? [=]] | done].
  - destruct (Qle_bool current_rate (stored_sl st trade)).
    + split; [intros [=] | intros H; by destruct H].
    + split; [intros _ [=] | done].
Qed.

(* ===================================================================== *)
(** * The DCA decision *)
(* ===================================================================== *)

Lemma confirm_dca_run self rate trade st :
  confirm_dca self rate trade st
  = (Ok tt,
     {| commands := commands st;
        custom_data :=
          {| cd_DCA :=
               <[trade_id trade := stored_dcas st trade ++ [rate]]>
                 (cd_DCA (custom_data st));
             cd_SL :=
               <[trade_id trade := (rate * new_sl_coef self)%Q]>
                 (cd_SL (custom_data st)) |};
        log := log st |}).
Proof.
  unfold confirm_dca, bind. rewrite get_dca_list_run. reflexivity.
Qed.

Lemma py_mod_run (a m : Z) (st : State) :
  m <> 0%Z -> py_mod a m st = (Ok (a mod m)%Z, st).
Proof.
  intros Hm. unfold py_mod. by apply Z.eqb_neq in Hm as ->.
Qed.

(** Once the modulo is not zero, the callback returns, and what it
    returns is decided by the six checks. *)
Lemma adjust_trade_position_approved self trade rate profit st :
  dca_candles_modulo self <> 0%Z ->
  dca_checks_pass self trade rate profit st = true ->
  adjust_trade_position self trade rate profit st
  = (Ok (Some (stake_amount trade)), after_dca self trade rate st).
Proof.
  intros Hm. unfold dca_checks_pass, adjust_trade_position, bind.
  rewrite !andb_true_iff, !negb_true_iff, Qlt_bool_iff, <- Qle_bool_false_iff.
  intros (((((H1 & H2) & H3) & H4) & H5) & H6).
  rewrite get_dca_list_run, H1, H2, H3, get_dca_list_run.
  destruct (last (stored_dcas st trade)) as [d |]; [rewrite H4 |];
    cbv beta; rewrite (py_mod_run _ _ _ Hm), H5, H6; cbn [negb];
    rewrite confirm_dca_run; reflexivity.
Qed.

Lemma adjust_trade_position_refused self trade rate profit st :
  dca_candles_modulo self <> 0%Z ->
  dca_checks_pass self trade rate profit st = false ->
  exists st',
    adjust_trade_position self trade rate profit st = (Ok None, st')
    /\ commands st' = commands st
    /\ custom_data st' = custom_data st.
Proof.
  intros Hm. unfold dca_checks_pass, adjust_trade_position, bind.
  rewrite get_dca_list_run.
  destruct (match last (stored_dcas st trade) with
            | Some d => Qle_bool (d * 0.995) rate
            | None => false
            end) eqn:H1; [eauto |].
  unfold Qlt_bool at 1.
  destruct (Qle_bool (- dca_threshold self) profit) eqn:H2; [eauto |].
  destruct (empty _) eqn:H3; [eauto |].
  rewrite get_dca_list_run. unfold bind. cbn [negb andb].
  destruct (last (stored_dcas st trade)) as [d |] eqn:Hlast.
  - destruct (Qlt_bool d rate) eqn:H4; [cbn; eauto |].
    cbv beta. rewrite (py_mod_run _ _ _ Hm). cbn [negb andb].
    destruct (_ =? 0)%Z; cbn [negb andb]; [| eauto].
    intros ->. eauto.
  - cbv beta. rewrite (py_mod_run _ _ _ Hm). cbn [negb andb].
    destruct (_ =? 0)%Z; cbn [negb andb]; [| eauto].
    intros ->. eauto.
Qed.

Lemma defaults_within_bounds tf provider :
  declared_bounds (defaults tf provider).
Proof.
  split; cbn; try lia; split; by apply Qle_bool_iff.
Qed.

(** A coefficient within its declared range lies strictly between 0
    and 1. *)
Lemma new_sl_coef_in_unit_interval self :
  declared_bounds self -> (0 < new_sl_coef self /\ new_sl_coef self < 1)%Q.
Proof.
  intros [[Hlo Hhi] _ _ _ _ _ _ _ _ _]. split.
  - apply Qlt_le_trans with 0.3%Q; [reflexivity | exact Hlo].
  - apply Qle_lt_trans with 0.9%Q; [exact Hhi | reflexivity].
Qed.

Lemma dca_candles_modulo_nonzero self :
  declared_bounds self -> dca_candles_modulo self <> 0%Z.
Proof. intros [_ _ _ _ _ _ _ _ Hm _]. lia. Qed.

(** C5: when the six checks pass, [adjust_trade_position] returns the
    trade's stake amount, appends the current price to the persisted DCA
    list and persists the stop-loss [current_rate * new_sl_coef] with the
    coefficient strictly between 0 and 1; in every other case it returns
    [None] and leaves the custom data as it was. *)
Theorem dca_approval_records_price_and_stop_loss
    (self : DailyBuyStrategy) (trade : Trade)
    (current_rate current_profit : Q) (st : State) :
  declared_bounds self ->
  (dca_checks_pass self trade current_rate current_profit st = true ->
   exists st',
     adjust_trade_position self trade current_rate current_profit st
     = (Ok (Some (stake_amount trade)), st')
     /\ cd_DCA (custom_data st') !! trade_id trade
        = Some (stored_dcas st trade ++ [current_rate])
     /\ cd_SL (custom_data st') !! trade_id trade
        = Some (current_rate * new_sl_coef self)%Q
     /\ (0 < new_sl_coef self /\ new_sl_coef self < 1)%Q)
  /\ (dca_checks_pass self trade current_rate current_profit st = false ->
      exists st',
        adjust_trade_position self trade current_rate current_profit st
        = (Ok None, st')
        /\ custom_data st' = custom_data st).
Proof.
  intros Hbounds.
  pose proof (dca_candles_modulo_nonzero self Hbounds) as Hm.
  split.
  - intros Hpass. exists (after_dca self trade current_rate st).
    split; [by apply adjust_trade_position_approved |].
    cbn. rewrite !lookup_insert_eq.
    split; [done |]. split; [done |].
    by apply new_sl_coef_in_unit_interval.
  - intros Hfail.
    destruct (adjust_trade_position_refused self trade current_rate
                current_profit st Hm Hfail) as (st' & Hrun & _ & Hcd).
    eauto.
Qed.

(** The breakout frame approves a DCA for a trade that is 2% under water
    and has no DCA yet. *)
Lemma breakout_checks_pass :
  dca_checks_pass (defaults "5m" breakout_data) trade_7 34 (-0.02) idle = true.
Proof. vm_compute. reflexivity. Qed.

Lemma dca_approval_records_price_and_stop_loss_witness :
  declared_bounds (defaults "5m" breakout_data)
  /\ dca_checks_pass (defaults "5m" breakout_data) trade_7 34 (-0.02) idle = true
  /\ exists st',
       adjust_trade_position (defaults "5m" breakout_data) trade_7 34 (-0.02) idle
       = (Ok (Some (stake_amount trade_7)), st')
       /\ cd_DCA (custom_data st') !! trade_id trade_7
          = Some (stored_dcas idle trade_7 ++ [34%Q])
       /\ cd_SL (custom_data st') !! trade_id trade_7
          = Some (34 * new_sl_coef (defaults "5m" breakout_data))%Q
       /\ (0 < new_sl_coef (defaults "5m" breakout_data)
           /\ new_sl_coef (defaults "5m" breakout_data) < 1)%Q.
Proof.
  assert (Hb : declared_bounds (defaults "5m" breakout_data))
    by apply defaults_within_bounds.
  assert (Hp : dca_checks_pass (defaults "5m" breakout_data) trade_7 34 (-0.02)
                 idle = true) by (vm_compute; reflexivity).
  split; [exact Hb |]. split; [exact Hp |].
  exact (proj1 (dca_approval_records_price_and_stop_loss
                  (defaults "5m" breakout_data) trade_7 34 (-0.02) idle Hb) Hp).
Defined.

(** A profit that is not below the negative threshold ends the callback
    at the second check, before the analysed frame is even fetched. *)
Lemma adjust_trade_position_profit_gate self trade rate profit st :
  (- dca_threshold self <= profit)%Q ->
  adjust_trade_position self trade rate profit st = (Ok None, st).
Proof.
  intros Hle. apply Qle_bool_iff in Hle.
  unfold adjust_trade_position, bind. rewrite get_dca_list_run, Hle.
  by destruct (match last (stored_dcas st trade) with
               | Some d => Qle_bool (d * 0.995) rate
               | None => false
               end).
Qed.

(** C6: a profit that is not below the negative DCA threshold is refused.
    With the threshold at 0.01 a profit of -0.005 is refused at this
    check, while for a trade without a prior DCA a profit of -0.02 gets
    past it: the outcome is then exactly what the later checks (analysed
    data present, index on the modulo, resistance breakout) decide. *)
Theorem dca_refused_unless_profit_below_threshold
    (self : DailyBuyStrategy) (trade : Trade)
    (current_rate current_profit : Q) (st : State) :
  ((- dca_threshold self <= current_profit)%Q ->
   adjust_trade_position self trade current_rate current_profit st
   = (Ok None, st))
  /\ ((dca_threshold self == 0.01)%Q ->
      adjust_trade_position self trade current_rate (-0.005) st = (Ok None, st))
  /\ ((dca_threshold self == 0.01)%Q ->
      stored_dcas st trade = [] ->
      dca_candles_modulo self <> 0%Z ->
      let dataframe :=
        get_analyzed_dataframe (dp self) (trade_pair trade) (timeframe self) in
      adjust_trade_position self trade current_rate (-0.02) st
      = if negb (empty dataframe)
           && (last_index dataframe mod dca_candles_modulo self =? 0)%Z
           && iloc_last (resistance_signal dataframe)
        then (Ok (Some (stake_amount trade)), after_dca self trade current_rate st)
        else (Ok None, st)).
Proof.
  split; [apply adjust_trade_position_profit_gate |]. split.
  - intros Hthr. apply adjust_trade_position_profit_gate.
    rewrite Hthr. by apply Qle_bool_iff.
  - intros Hthr Hnone Hm dataframe.
    assert (Hlt : Qlt_bool (-0.02) (- dca_threshold self) = true).
    { apply Qlt_bool_iff. rewrite Hthr. reflexivity. }
    destruct (negb (empty dataframe)
              && (last_index dataframe mod dca_candles_modulo self =? 0)%Z
              && iloc_last (resistance_signal dataframe)) eqn:Hlater.
    + apply adjust_trade_position_approved; [done |].
      unfold dca_checks_pass. rewrite Hnone, Hlt. cbn [last negb andb].
      rewrite andb_true_r. exact Hlater.
    + unfold adjust_trade_position, bind.
      rewrite get_dca_list_run, Hnone. cbn [last].
      apply Qlt_bool_iff, Qle_bool_false_iff in Hlt. rewrite Hlt.
      fold dataframe. destruct (empty dataframe); [done |].
      rewrite get_dca_list_run, Hnone. cbn [last negb andb] in *.
      rewrite (py_mod_run _ _ _ Hm).
      destruct (_ =? 0)%Z; cbn [negb andb] in *; [| done].
      by rewrite Hlater.
Qed.

Lemma dca_refused_unless_profit_below_threshold_witness :
  (- dca_threshold (defaults "5m" breakout_data) <= 0)%Q
  /\ (dca_threshold (defaults "5m" breakout_data) == 0.01)%Q
  /\ stored_dcas idle trade_7 = []
  /\ dca_candles_modulo (defaults "5m" breakout_data) <> 0%Z
  /\ adjust_trade_position (defaults "5m" breakout_data) trade_7 34 0 idle
     = (Ok None, idle)
  /\ adjust_trade_position (defaults "5m" breakout_data) trade_7 34 (-0.005) idle
     = (Ok None, idle)
  /\ adjust_trade_position (defaults "5m" breakout_data) trade_7 34 (-0.02) idle
     = (Ok (Some (stake_amount trade_7)),
        after_dca (defaults "5m" breakout_data) trade_7 34 idle).
Proof.
  assert (H1 : (- dca_threshold (defaults "5m" breakout_data) <= 0)%Q)
    by (by apply Qle_bool_iff).
  assert (H2 : (dca_threshold (defaults "5m" breakout_data) == 0.01)%Q)
    by reflexivity.
  assert (H3 : stored_dcas idle trade_7 = []) by reflexivity.
  assert (H4 : dca_candles_modulo (defaults "5m" breakout_data) <> 0%Z)
    by discriminate.
  destruct (dca_refused_unless_profit_below_threshold
              (defaults "5m" breakout_data) trade_7 34 0 idle)
    as (Hgate & Hsmall & Hlarge).
  repeat (split; [assumption |]).
  split; [exact (Hgate H1) |]. split; [exact (Hsmall H2) |].
  exact (Hlarge H2 H3 H4).
Defined.

(** C7: when the last candle's index is not a multiple of the DCA modulo,
    [adjust_trade_position] returns [None] and leaves the custom data
    untouched, whatever the other conditions are. *)
Theorem dca_refused_off_modulo
    (self : DailyBuyStrategy) (trade : Trade)
    (current_rate current_profit : Q) (st : State) :
  dca_candles_modulo self <> 0%Z ->
  ~ (dca_candles_modulo self
     | last_index (get_analyzed_dataframe (dp self) (trade_pair trade)
                     (timeframe self)))%Z ->
  exists st',
    adjust_trade_position self trade current_rate current_profit st
    = (Ok None, st')
    /\ custom_data st' = custom_data st.
Proof.
  intros Hm Hndiv.
  destruct (adjust_trade_position_refused self trade current_rate
              current_profit st Hm) as (st' & Hrun & _ & Hcd); [| eauto].
  unfold dca_checks_pass.
  destruct (Z.eqb_spec
              (last_index (get_analyzed_dataframe (dp self) (trade_pair trade)
                             (timeframe self)) mod dca_candles_modulo self) 0)
    as [Hmod | _].
  - exfalso. apply Hndiv. by apply Z.mod_divide.
  - by rewrite andb_false_r.
Qed.

(** The two-candle frame passes every other check, yet index 1 is not a
    multiple of 10. *)
Lemma dca_refused_off_modulo_witness :
  dca_candles_modulo (defaults "5m" two_candle_data) <> 0%Z
  /\ ~ (dca_candles_modulo (defaults "5m" two_candle_data)
        | last_index (get_analyzed_dataframe (dp (defaults "5m" two_candle_data))
                        (trade_pair trade_7)
                        (timeframe (defaults "5m" two_candle_data))))%Z
  /\ exists st',
       adjust_trade_position (defaults "5m" two_candle_data) trade_7 34 (-0.02)
         idle = (Ok None, st')
       /\ custom_data st' = custom_data idle.
Proof.
  assert (H1 : dca_candles_modulo (defaults "5m" two_candle_data) <> 0%Z)
    by discriminate.
  assert (H2 : ~ (dca_candles_modulo (defaults "5m" two_candle_data)
                  | last_index (get_analyzed_dataframe
                                  (dp (defaults "5m" two_candle_data))
                                  (trade_pair trade_7)
                                  (timeframe (defaults "5m" two_candle_data))))%Z).
  { intros Hdiv. apply Z.mod_divide in Hdiv; [| discriminate].
    vm_compute in Hdiv. discriminate. }
  split; [exact H1 |]. split; [exact H2 |].
  exact (dca_refused_off_modulo (defaults "5m" two_candle_data) trade_7 34 (-0.02)
           idle H1 H2).
Defined.

(* ===================================================================== *)
(** * Exit confirmation *)
(* ===================================================================== *)

Lemma append_empty_l (s : string) : "" +:+ s = s.
Proof. reflexivity. Qed.

Lemma append_String (c : ascii) (s1 s2 : string) :
  String c s1 +:+ s2 = String c (s1 +:+ s2).
Proof. reflexivity. Qed.

Lemma prefix_append (s1 s2 : string) :
  String.prefix s1 s2 = true <-> exists rest, s2 = s1 +:+ rest.
Proof.
  revert s2. induction s1 as [| a s1 IH]; intros s2.
  - destruct s2; cbn; split; eauto.
  - destruct s2 as [| b s2]; cbn.
    + split; [discriminate | intros [? [=]]].
    + destruct (ascii_dec a b) as [-> | Hne].
      * rewrite IH. split; intros [rest Hrest]; exists rest.
        -- by rewrite Hrest.
        -- by injection Hrest.
      * split; [discriminate | intros [? [=]]; congruence].
Qed.

Lemma contains_step (needle : string) (c : ascii) (rest : string) :
  contains needle (String c rest)
  = String.prefix needle (String c rest) || contains needle rest.
Proof. reflexivity. Qed.

(** [contains] decides [mentions]. *)
Lemma contains_mentions (needle text : string) :
  contains needle text = true <-> mentions needle text.
Proof.
  split.
  - induction text as [| c rest IH].
    + change (contains needle "") with (String.prefix needle "" || false).
      rewrite orb_false_r. intros H%prefix_append.
      destruct H as [after ->]. by exists ""%string, after.
    + rewrite contains_step, orb_true_iff. intros [H%prefix_append | H].
      * destruct H as [after ->]. by exists ""%string, after.
      * destruct (IH H) as (before & after & ->).
        by exists (String c before), after.
  - intros (before & after & ->).
    induction before as [| c before IH].
    + rewrite append_empty_l.
      assert (Hp : String.prefix needle (needle +:+ after) = true)
        by (apply prefix_append; eauto).
      destruct (needle +:+ after) as [| c rest];
        [change (contains needle "") with (String.prefix needle "" || false)
        | rewrite contains_step];
        by rewrite Hp.
    + rewrite append_String, contains_step, IH. apply orb_true_r.
Qed.

(** C4: [confirm_trade_exit] approves exactly when the reason mentions the
    default exit tag with a profit ratio of at least 0.005, or mentions
    trailing or roi with a profit ratio of at least 0.005, or mentions
    force or trigger; "roi" at 0.01 is approved, "roi" at 0.001 is
    rejected, and a reason with "force" in it is approved at any profit. *)
Theorem confirm_trade_exit_iff
    (self : DailyBuyStrategy) (pair : string) (trade : Trade) (rate : Q)
    (exit_reason : string) :
  (confirm_trade_exit self pair trade rate exit_reason = true
   <-> (mentions "macd_ema_exit" exit_reason
        /\ (0.005 <= calc_profit_ratio trade rate)%Q)
       \/ ((mentions "trailing" exit_reason \/ mentions "roi" exit_reason)
           /\ (0.005 <= calc_profit_ratio trade rate)%Q)
       \/ (mentions "force" exit_reason \/ mentions "trigger" exit_reason))
  /\ ((calc_profit_ratio trade rate == 0.01)%Q ->
      confirm_trade_exit self pair trade rate "roi" = true)
  /\ ((calc_profit_ratio trade rate == 0.001)%Q ->
      confirm_trade_exit self pair trade rate "roi" = false)
  /\ (mentions "force" exit_reason ->
      confirm_trade_exit self pair trade rate exit_reason = true).
Proof.
  assert (Hiff : forall reason,
    confirm_trade_exit self pair trade rate reason = true
    <-> (mentions "macd_ema_exit" reason
         /\ (0.005 <= calc_profit_ratio trade rate)%Q)
        \/ ((mentions "trailing" reason \/ mentions "roi" reason)
            /\ (0.005 <= calc_profit_ratio trade rate)%Q)
        \/ (mentions "force" reason \/ mentions "trigger" reason)).
  { intros reason. unfold confirm_trade_exit.
    rewrite <- !contains_mentions, <- Qle_bool_iff.
    destruct (contains "macd_ema_exit" reason),
      (contains "trailing" reason), (contains "roi" reason),
      (contains "force" reason), (contains "trigger" reason),
      (Qle_bool 0.005 (calc_profit_ratio trade rate)); cbn; intuition congruence. }
  split; [apply Hiff |]. split; [| split].
  - intros Hp.
    assert (Hle : Qle_bool 0.005 (calc_profit_ratio trade rate) = true)
      by (rewrite Hp; reflexivity).
    unfold confirm_trade_exit. rewrite Hle. reflexivity.
  - intros Hp.
    assert (Hle : Qle_bool 0.005 (calc_profit_ratio trade rate) = false)
      by (rewrite Hp; reflexivity).
    unfold confirm_trade_exit. rewrite Hle. reflexivity.
  - intros Hforce. apply Hiff. auto.
Qed.

Lemma confirm_trade_exit_iff_witness :
  (calc_profit_ratio trade_7 40.4 == 0.01)%Q
  /\ (calc_profit_ratio trade_7 40.04 == 0.001)%Q
  /\ mentions "force" "force_exit"
  /\ confirm_trade_exit (defaults "5m" no_data) "BTC/USD" trade_7 40.4 "roi" = true
  /\ confirm_trade_exit (defaults "5m" no_data) "BTC/USD" trade_7 40.04 "roi" = false
  /\ confirm_trade_exit (defaults "5m" no_data) "BTC/USD" trade_7 30 "force_exit"
     = true.
Proof.
  assert (H1 : (calc_profit_ratio trade_7 40.4 == 0.01)%Q) by reflexivity.
  assert (H2 : (calc_profit_ratio trade_7 40.04 == 0.001)%Q) by reflexivity.
  assert (H3 : mentions "force" "force_exit")
    by (by exists ""%string, "_exit"%string).
  repeat (split; [assumption |]).
  split; [| split].
  - exact (proj1 (proj2 (confirm_trade_exit_iff (defaults "5m" no_data) "BTC/USD"
                           trade_7 40.4 "roi")) H1).
  - exact (proj1 (proj2 (proj2 (confirm_trade_exit_iff (defaults "5m" no_data)
                                  "BTC/USD" trade_7 40.04 "roi"))) H2).
  - exact (proj2 (proj2 (proj2 (confirm_trade_exit_iff (defaults "5m" no_data)
                                  "BTC/USD" trade_7 30 "force_exit"))) H3).
Defined.

(* ===================================================================== *)
(** * Columns, row by row *)
(* ===================================================================== *)

Lemma vand_true (a b : Series bool) (i : nat) :
  (a .& b) !! i = Some true <-> a !! i = Some true /\ b !! i = Some true.
Proof.
  unfold vand. rewrite lookup_zip_with_Some. split.
  - intros (x & y & Hxy & Hx & Hy). symmetry in Hxy.
    apply andb_true_iff in Hxy as [-> ->]. done.
  - intros [Ha Hb]. by exists true, true.
Qed.

Lemma vor_true (a b : Series bool) (i : nat) :
  (a .| b) !! i = Some true -> a !! i = Some true \/ b !! i = Some true.
Proof.
  unfold vor. rewrite lookup_zip_with_Some.
  intros (x & y & Hxy & Hx & Hy). symmetry in Hxy.
  apply orb_true_iff in Hxy as [-> | ->]; auto.
Qed.

Lemma vor_true_iff (a b : Series bool) (i : nat) :
  is_Some (a !! i) -> is_Some (b !! i) ->
  (a .| b) !! i = Some true <-> a !! i = Some true \/ b !! i = Some true.
Proof.
  intros [x Hx] [y Hy]. split; [apply vor_true |].
  intros Hor. unfold vor. apply lookup_zip_with_Some. exists x, y.
  split; [| done]. rewrite Hx, Hy in Hor.
  destruct Hor as [[= ->] | [= ->]]; [done | by rewrite orb_true_r].
Qed.

Lemma loc_assign_lookup {A} (mask : Series bool) (v : A)
    (column : Series (option A)) (i : nat) (m : bool) (old : option A) :
  mask !! i = Some m -> column !! i = Some old ->
  loc_assign mask v column !! i = Some (if m then Some v else old).
Proof.
  intros Hm Hold. unfold loc_assign. by rewrite lookup_zip_with, Hm, Hold.
Qed.

(** A row that reads [v] after the assignment was under the mask, unless
    it read [v] before. *)
Lemma loc_assign_set {A} (mask : Series bool) (v : A)
    (column : Series (option A)) (i : nat) :
  loc_assign mask v column !! i = Some (Some v) ->
  mask !! i = Some true \/ column !! i = Some (Some v).
Proof.
  unfold loc_assign. rewrite lookup_zip_with_Some.
  intros (m & old & Hv & Hm & Hold). destruct m; [auto |].
  right. by rewrite Hold, Hv.
Qed.

Lemma shift_lookup (n : nat) (s : Series float) (i : nat) :
  shift n s !! i
  = if decide (i < length s)
    then if decide (i < n) then Some NaN else s !! (i - n)
    else None.
Proof.
  unfold shift. rewrite lookup_take. destruct (decide (i < length s)); [| done].
  destruct (decide (i < n)).
  - rewrite lookup_app_l by (by rewrite length_replicate).
    by apply lookup_replicate_2.
  - rewrite lookup_app_r by (rewrite length_replicate; lia).
    by rewrite length_replicate.
Qed.

Lemma reindex_nearest_lookup {A} (n : nat) (s : Series A) (i : nat) :
  s <> [] -> i < n ->
  reindex_nearest n s !! i = s !! (i `min` (length s - 1)).
Proof.
  intros Hs Hi. unfold reindex_nearest. destruct s as [| x s']; [done |].
  rewrite list_lookup_fmap, lookup_seq_lt by done. cbn [fmap option_fmap option_map].
  destruct (lookup_lt_is_Some_2 (x :: s') (i `min` (length (x :: s') - 1)))
    as [y Hy]; [cbn [length]; lia |].
  change (0 + i) with i. by rewrite Hy.
Qed.

(** [foldl Qmax] dominates its seed and every element it folds over. *)
Lemma foldl_Qmax_seed (xs : list Q) (x : Q) : (x <= foldl Qmax x xs)%Q.
Proof.
  revert x. induction xs as [| y ys IH]; intros x; cbn.
  - apply Qle_refl.
  - apply Qle_trans with (Qmax x y); [apply Q.le_max_l | apply IH].
Qed.

Lemma foldl_Qmax_elem (xs : list Q) (x y : Q) :
  y ∈ xs -> (y <= foldl Qmax x xs)%Q.
Proof.
  revert x. induction xs as [| z zs IH]; intros x Hin.
  - by apply elem_of_nil in Hin.
  - apply elem_of_cons in Hin as [-> | Hin]; cbn.
    + apply Qle_trans with (Qmax x z); [apply Q.le_max_r | apply foldl_Qmax_seed].
    + by apply IH.
Qed.

Lemma aggregate_max_dominates (mp : nat) (win : list Q) (q y : Q) :
  aggregate Qmax mp win = Fin q -> y ∈ win -> (y <= q)%Q.
Proof.
  unfold aggregate. destruct win as [| x xs]; [discriminate |].
  destruct (mp <=? length (x :: xs))%nat; [| discriminate].
  intros [= <-] Hin. apply elem_of_cons in Hin as [-> | Hin].
  - apply foldl_Qmax_seed.
  - by apply foldl_Qmax_elem.
Qed.

(** A window aggregates to a finite value or to NaN. *)
Lemma aggregate_finite_or_nan (pick : Q -> Q -> Q) (mp : nat) (win : list Q) :
  aggregate pick mp win = NaN \/ exists q, aggregate pick mp win = Fin q.
Proof.
  unfold aggregate. destruct win as [| x xs]; [by left |].
  destruct (mp <=? length (x :: xs))%nat; eauto.
Qed.

(** A window that is not empty holds the current row. *)
Lemma window_at_current {A} (w i : nat) (s : Series A) (y : A) :
  s !! i = Some y -> window_at w i s <> [] -> y ∈ window_at w i s.
Proof.
  intros Hy Hne. unfold window_at in *.
  assert (Hlen : i < length s) by (by eapply lookup_lt_Some).
  assert (Hk : S i - w <= i).
  { destruct (decide (S i - w <= i)); [done |]. exfalso. apply Hne.
    apply nil_length_inv. rewrite length_drop, length_take. lia. }
  apply list_elem_of_lookup. exists (i - (S i - w)).
  rewrite lookup_drop, lookup_take_lt by lia.
  replace (S i - w + (i - (S i - w))) with i by lia. done.
Qed.

(** A close that does not exceed the high of its candle is never above
    the rolling maximum of the highs: the maximum is NaN or at least the
    current high. *)
Lemma close_never_above_rolling_high (w mp : nat) (rows : OHLCV) (i : nat) :
  (forall c, c ∈ rows -> (c_close c <= c_high c)%Q) ->
  (floats (close rows) .> rolling_max w mp (high rows)) !! i <> Some true.
Proof.
  intros Hwf. unfold vgt, floats, close, high, rolling_max, rolling.
  rewrite lookup_zip_with, !list_lookup_fmap, list_lookup_imap, list_lookup_fmap.
  destruct (rows !! i) as [c |] eqn:Hc; [| done]. cbn.
  destruct (aggregate_finite_or_nan Qmax mp (window_at w i (c_high <$> rows)))
    as [Hagg | [q Hagg]]; rewrite Hagg; cbn; [done |].
  assert (Hin : c_high c ∈ window_at w i (c_high <$> rows)).
  { apply window_at_current.
    - by rewrite list_lookup_fmap, Hc.
    - intros Hnil. by rewrite Hnil in Hagg. }
  pose proof (aggregate_max_dominates _ _ _ _ Hagg Hin) as Hle.
  assert (Hcq : (c_close c <= q)%Q).
  { apply Qle_trans with (c_high c); [apply Hwf | done].
    apply list_elem_of_lookup. eauto. }
  apply Qlt_bool_false_iff in Hcq. unfold fgt. cbn. by rewrite Hcq.
Qed.

(* ===================================================================== *)
(** * The signal callbacks *)
(* ===================================================================== *)

(** The default entry path: the technical conditions, AND'd with the
    higher-timeframe confirmation when the informative frame has rows;
    when it has none, a log record and the technical conditions alone. *)
Lemma populate_entry_trend_default self d md st level :
  last_command_is "BUY" (commands st) md = false ->
  timeframe_hierarchy !! timeframe self = Some level ->
  populate_entry_trend self d md st
  = match get_pair_dataframe (dp self) (md_pair md) level with
    | [] =>
        (Ok (assign_enter (entry_technical self d) 1 "multi_timeframe_cross" d),
         {| commands := commands st; custom_data := custom_data st;
            log := log st ++ [Info_no_data (md_pair md) level] |})
    | informative =>
        (Ok (assign_enter
               (entry_technical self d
                .& higher_timeframe_confirmation d informative)
               1 "multi_timeframe_cross" d), st)
    end.
Proof.
  intros Hcmd Hlevel. unfold populate_entry_trend, bind, gets.
  rewrite Hcmd, Hlevel.
  by destruct (get_pair_dataframe (dp self) (md_pair md) level).
Qed.

(** The manual entry path. *)
Lemma populate_entry_trend_manual self d md st :
  last_command_is "BUY" (commands st) md = true ->
  populate_entry_trend self d md st
  = (Ok (assign_enter (volume_positive d) 1 "trigger_buy" d),
     {| commands := without_pair (md_pair md) (commands st);
        custom_data := custom_data st; log := log st |}).
Proof.
  intros Hcmd. unfold populate_entry_trend, bind, gets. by rewrite Hcmd.
Qed.

(** The default exit path. *)
Lemma populate_exit_trend_default self d md st :
  last_command_is "SELL" (commands st) md = false ->
  populate_exit_trend self d md st
  = (Ok (assign_exit (exit_technical self d .& volume_positive d)
           1 "macd_ema_exit" d), st).
Proof.
  intros Hcmd. unfold populate_exit_trend, bind, gets. by rewrite Hcmd.
Qed.

(** Whatever path it takes, [populate_entry_trend] only assigns into the
    two entry columns. *)
Lemma populate_entry_trend_assigns self d md st d' st' :
  populate_entry_trend self d md st = (Ok d', st') ->
  exists mask v tag, d' = assign_enter mask v tag d.
Proof.
  unfold populate_entry_trend, bind, gets.
  destruct (last_command_is "BUY" (commands st) md).
  - intros [= <- _]. eauto.
  - destruct (timeframe_hierarchy !! timeframe self) as [level |];
      [| discriminate].
    destruct (get_pair_dataframe (dp self) (md_pair md) level);
      intros [= <- _]; eauto.
Qed.

(** C10: on a candle series whose closes do not exceed their highs, the
    "close above rolling swing-high" disjunct of the base exit path is
    true on no row, so every row the base path marks [exit_long = 1]
    satisfies the MACD-and-EMA bearish condition or the
    TTF-below-lower-trigger condition. *)
Theorem swing_high_exit_never_fires
    (ta_MACD : OHLCV -> Series float * Series float)
    (ta_EMA : OHLCV -> Z -> Series float)
    (self : DailyBuyStrategy) (rows : OHLCV) (md : Metadata)
    (df d1 d2 : DataFrame) (st st1 st2 : State) (i : nat) :
  (forall c, c ∈ rows -> (c_close c <= c_high c)%Q) ->
  populate_indicators ta_MACD ta_EMA self rows md = Ok df ->
  populate_entry_trend self df md st = (Ok d1, st1) ->
  last_command_is "SELL" (commands st1) md = false ->
  populate_exit_trend self d1 md st1 = (Ok d2, st2) ->
  close_above_swing_high d1 !! i <> Some true
  /\ (exit_long d2 !! i = Some (Some 1%Z) ->
      macd_ema_bearish d1 !! i = Some true
      \/ ttf_below self d1 !! i = Some true).
Proof.
  intros Hwf Hdf Hentry Hcmd Hexit.
  apply populate_indicators_columns in Hdf
    as (Hrows & Hswing & _ & _ & _ & _ & _ & _ & Hfresh).
  apply populate_entry_trend_assigns in Hentry as (mask & v & tag & ->).
  rewrite populate_exit_trend_default in Hexit by done.
  injection Hexit as <- _.
  assert (Hnever : close_above_swing_high (assign_enter mask v tag df) !! i
                   <> Some true).
  { unfold close_above_swing_high. cbn [ohlcv swing_high assign_enter].
    rewrite Hrows, Hswing. by apply close_never_above_rolling_high. }
  split; [exact Hnever |].
  cbn [exit_long assign_exit assign_enter]. rewrite Hfresh.
  intros [Hmask | Hold]%loc_assign_set.
  - apply vand_true in Hmask as [Htech _]. unfold exit_technical in Htech.
    apply vor_true in Htech as [Htech | Httf]; [| by right].
    apply vor_true in Htech as [Hclose | Hmacd]; [| by left].
    by destruct Hnever.
  - by apply lookup_replicate in Hold as [[=] _].
Qed.

(** The falling series run through the entry and the exit callback. *)
Lemma falling_frame_entered :
  populate_entry_trend (defaults "5m" no_data) falling_frame btc idle
  = (Ok falling_entered, idle_logged).
Proof. vm_compute. reflexivity. Qed.

Lemma falling_frame_exited :
  populate_exit_trend (defaults "5m" no_data) falling_entered btc idle_logged
  = (Ok falling_exited, idle_logged).
Proof. vm_compute. reflexivity. Qed.

(** Its last row is entered on the resistance breakout and exited on the
    TTF. *)
Lemma falling_frame_both_signals :
  enter_long falling_exited !! 29 = Some (Some 1%Z)
  /\ exit_long falling_exited !! 29 = Some (Some 1%Z)
  /\ resistance_breakout falling_frame !! 29 = Some true
  /\ ttf_below (defaults "5m" no_data) falling_frame !! 29 = Some true.
Proof. vm_compute. repeat split. Qed.

Lemma falling_then_uptick_well_formed :
  forall c, c ∈ falling_then_uptick -> (c_close c <= c_high c)%Q.
Proof.
  assert (Hcandle : forall q, (c_close (candle_at q) <= c_high (candle_at q))%Q).
  { intros q. cbn. lra. }
  intros c [Hc | Hc]%elem_of_app.
  - apply list_elem_of_fmap in Hc as (k & -> & _). apply Hcandle.
  - apply list_elem_of_singleton in Hc as ->. apply Hcandle.
Qed.

Lemma swing_high_exit_never_fires_witness :
  (forall c, c ∈ falling_then_uptick -> (c_close c <= c_high c)%Q)
  /\ populate_indicators warmup_MACD warmup_EMA (defaults "5m" no_data)
       falling_then_uptick btc = Ok falling_frame
  /\ populate_entry_trend (defaults "5m" no_data) falling_frame btc idle
     = (Ok falling_entered, idle_logged)
  /\ last_command_is "SELL" (commands idle_logged) btc = false
  /\ populate_exit_trend (defaults "5m" no_data) falling_entered btc idle_logged
     = (Ok falling_exited, idle_logged)
  /\ close_above_swing_high falling_entered !! 29 <> Some true
  /\ (exit_long falling_exited !! 29 = Some (Some 1%Z) ->
      macd_ema_bearish falling_entered !! 29 = Some true
      \/ ttf_below (defaults "5m" no_data) falling_entered !! 29 = Some true).
Proof.
  assert (H1 := falling_then_uptick_well_formed).
  assert (H2 : populate_indicators warmup_MACD warmup_EMA (defaults "5m" no_data)
                 falling_then_uptick btc = Ok falling_frame)
    by (vm_compute; reflexivity).
  assert (H3 : populate_entry_trend (defaults "5m" no_data) falling_frame btc idle
               = (Ok falling_entered, idle_logged)) by (vm_compute; reflexivity).
  assert (H4 : last_command_is "SELL" (commands idle_logged) btc = false)
    by reflexivity.
  assert (H5 : populate_exit_trend (defaults "5m" no_data) falling_entered btc
                 idle_logged = (Ok falling_exited, idle_logged))
    by (vm_compute; reflexivity).
  repeat (split; [assumption |]).
  exact (swing_high_exit_never_fires warmup_MACD warmup_EMA (defaults "5m" no_data)
           falling_then_uptick btc falling_frame falling_entered falling_exited
           idle idle_logged idle_logged 29 H1 H2 H3 H4 H5).
Defined.

(* ===================================================================== *)
(** * Entry and exit on the same row *)
(* ===================================================================== *)

(** C2 (as stated) fails: with an empty command queue and the default
    parameters, the last row of the falling series is assigned
    [enter_long = 1] (resistance breakout) and [exit_long = 1] (TTF below
    the lower trigger). *)
Lemma both_signals_on_one_row :
  ~ never_both_signals_at warmup_MACD warmup_EMA (defaults "5m" no_data)
      falling_then_uptick btc idle.
Proof.
  intros Hclaim.
  destruct falling_frame_both_signals as (Henter & Hexit & _).
  apply (Hclaim falling_frame falling_entered idle_logged falling_exited
           idle_logged 29);
    [ apply falling_frame_computed | reflexivity | reflexivity
    | apply falling_frame_entered | apply falling_frame_exited | ].
  by split.
Qed.

Lemma macd_ema_exclusive (d : DataFrame) (i : nat) :
  ~ (macd_ema_bullish d !! i = Some true /\ macd_ema_bearish d !! i = Some true).
Proof.
  unfold macd_ema_bullish, macd_ema_bearish.
  intros [[Hbull _]%vand_true [Hbear _]%vand_true].
  unfold vgt in Hbull. unfold vlt in Hbear.
  apply lookup_zip_with_Some in Hbull as (m & s & Hgt & Hm & Hs).
  apply lookup_zip_with_Some in Hbear as (m' & s' & Hlt & Hm' & Hs').
  rewrite Hm in Hm'. rewrite Hs in Hs'. injection Hm' as <-. injection Hs' as <-.
  by apply (flt_fgt_exclusive m s).
Qed.

Lemma ttf_levels_exclusive (self : DailyBuyStrategy) (d : DataFrame) (i : nat) :
  (lower_trigger_level self <= upper_trigger_level self)%Z ->
  ~ (ttf_above self d !! i = Some true /\ ttf_below self d !! i = Some true).
Proof.
  intros Hlevels. unfold ttf_above, ttf_below, vgt_const, vlt_const.
  rewrite !list_lookup_fmap. destruct (ttf d !! i) as [t |]; cbn; [| by intros [[=] _]].
  intros [[= Habove] [= Hbelow]].
  by apply (flt_fgt_levels t _ _ Hlevels).
Qed.

(** C2 (as amended): with no manual command in the way, the two MACD/EMA
    conditions exclude each other on every row, and so do the two TTF
    conditions when the lower trigger is not above the upper one; a row
    with fresh signal columns that ends up with both [enter_long = 1] and
    [exit_long = 1] got them from a resistance-breakout entry, from a
    close-above-swing-high exit, or from MACD/EMA on one side and the TTF
    on the other. *)
Theorem both_signals_only_across_indicators
    (self : DailyBuyStrategy) (md : Metadata)
    (d d1 d2 : DataFrame) (st st1 st2 : State) (i : nat) :
  (lower_trigger_level self <= upper_trigger_level self)%Z ->
  last_command_is "BUY" (commands st) md = false ->
  populate_entry_trend self d md st = (Ok d1, st1) ->
  last_command_is "SELL" (commands st1) md = false ->
  populate_exit_trend self d1 md st1 = (Ok d2, st2) ->
  enter_long d !! i = Some None ->
  exit_long d !! i = Some None ->
  ~ (macd_ema_bullish d !! i = Some true /\ macd_ema_bearish d !! i = Some true)
  /\ ~ (ttf_above self d !! i = Some true /\ ttf_below self d !! i = Some true)
  /\ (enter_long d2 !! i = Some (Some 1%Z) ->
      exit_long d2 !! i = Some (Some 1%Z) ->
      resistance_breakout d !! i = Some true
      \/ close_above_swing_high d !! i = Some true
      \/ (macd_ema_bullish d !! i = Some true /\ ttf_below self d !! i = Some true)
      \/ (ttf_above self d !! i = Some true
          /\ macd_ema_bearish d !! i = Some true)).
Proof.
  intros Hlevels Hbuy Hentry Hsell Hexit Hfresh_enter Hfresh_exit.
  pose proof (macd_ema_exclusive d i) as Hmacd.
  pose proof (ttf_levels_exclusive self d i Hlevels) as Httf.
  split; [exact Hmacd |]. split; [exact Httf |].
  rewrite populate_exit_trend_default in Hexit by done.
  injection Hexit as <- _.
  assert (Hmask : exists mask, d1 = assign_enter mask 1 "multi_timeframe_cross" d
            /\ (mask !! i = Some true -> entry_technical self d !! i = Some true)).
  { destruct (timeframe_hierarchy !! timeframe self) as [level |] eqn:Hlevel.
    - rewrite (populate_entry_trend_default _ _ _ _ level) in Hentry by done.
      destruct (get_pair_dataframe (dp self) (md_pair md) level) as [| c cs];
        injection Hentry as <- _; eexists; (split; [reflexivity |]).
      + done.
      + by intros [H _]%vand_true.
    - unfold populate_entry_trend, bind, gets in Hentry.
      by rewrite Hbuy, Hlevel in Hentry. }
  destruct Hmask as (mask & -> & Hmask).
  cbn [enter_long exit_long assign_exit assign_enter].
  intros [Hin | Hold]%loc_assign_set [Hout | Hold']%loc_assign_set;
    try congruence.
  apply Hmask in Hin. apply vand_true in Hout as [Hout _].
  unfold entry_technical in Hin.
  change (exit_technical self (assign_enter mask 1 "multi_timeframe_cross" d))
    with (close_above_swing_high d .| macd_ema_bearish d .| ttf_below self d)
    in Hout.
  apply vor_true in Hin as [Hin | Habove];
    [apply vor_true in Hin as [Hbull | Hres] |];
    apply vor_true in Hout as [Hout | Hbelow];
    try (apply vor_true in Hout as [Hclose | Hbear]);
    tauto.
Qed.

Lemma both_signals_only_across_indicators_witness :
  (lower_trigger_level (defaults "5m" no_data)
   <= upper_trigger_level (defaults "5m" no_data))%Z
  /\ last_command_is "BUY" (commands idle) btc = false
  /\ populate_entry_trend (defaults "5m" no_data) falling_frame btc idle
     = (Ok falling_entered, idle_logged)
  /\ last_command_is "SELL" (commands idle_logged) btc = false
  /\ populate_exit_trend (defaults "5m" no_data) falling_entered btc idle_logged
     = (Ok falling_exited, idle_logged)
  /\ enter_long falling_frame !! 29 = Some None
  /\ exit_long falling_frame !! 29 = Some None
  /\ ~ (macd_ema_bullish falling_frame !! 29 = Some true
        /\ macd_ema_bearish falling_frame !! 29 = Some true)
  /\ ~ (ttf_above (defaults "5m" no_data) falling_frame !! 29 = Some true
        /\ ttf_below (defaults "5m" no_data) falling_frame !! 29 = Some true)
  /\ (enter_long falling_exited !! 29 = Some (Some 1%Z) ->
      exit_long falling_exited !! 29 = Some (Some 1%Z) ->
      resistance_breakout falling_frame !! 29 = Some true
      \/ close_above_swing_high falling_frame !! 29 = Some true
      \/ (macd_ema_bullish falling_frame !! 29 = Some true
          /\ ttf_below (defaults "5m" no_data) falling_frame !! 29 = Some true)
      \/ (ttf_above (defaults "5m" no_data) falling_frame !! 29 = Some true
          /\ macd_ema_bearish falling_frame !! 29 = Some true)).
Proof.
  assert (H1 : (lower_trigger_level (defaults "5m" no_data)
                <= upper_trigger_level (defaults "5m" no_data))%Z)
    by discriminate.
  assert (H2 : last_command_is "BUY" (commands idle) btc = false) by reflexivity.
  assert (H3 : populate_entry_trend (defaults "5m" no_data) falling_frame btc idle
               = (Ok falling_entered, idle_logged)) by (vm_compute; reflexivity).
  assert (H4 : last_command_is "SELL" (commands idle_logged) btc = false)
    by reflexivity.
  assert (H5 : populate_exit_trend (defaults "5m" no_data) falling_entered btc
                 idle_logged = (Ok falling_exited, idle_logged))
    by (vm_compute; reflexivity).
  assert (H6 : enter_long falling_frame !! 29 = Some None)
    by (vm_compute; reflexivity).
  assert (H7 : exit_long falling_frame !! 29 = Some None)
    by (vm_compute; reflexivity).
  repeat (split; [assumption |]).
  exact (both_signals_only_across_indicators (defaults "5m" no_data) btc
           falling_frame falling_entered falling_exited idle idle_logged
           idle_logged 29 H1 H2 H3 H4 H5 H6 H7).
Defined.

(* ===================================================================== *)
(** * The manual BUY command *)
(* ===================================================================== *)

(** C3 (as stated) fails twice over.  A BUY for the pair that is not the
    last entry of the queue is neither acted on nor removed; and a BUY
    that is acted on leaves a row without volume unmarked. *)
Lemma queued_buy_not_always_fired :
  ~ queued_buy_fires_at (defaults "5m" no_data) falling_frame btc
      buy_then_other_queued
  /\ ~ queued_buy_fires_at (defaults "5m" no_data) halted_frame btc buy_queued.
Proof.
  assert (Hqueued : forall rest,
    queues_buy ({| cmd_pair := "BTC/USD"; cmd_command := "BUY" |} :: rest) btc).
  { intros rest. eexists. split; [apply list_elem_of_here | by split]. }
  split; intros Hclaim.
  - destruct (Hclaim (Hqueued _)) as (d' & st' & Hrun & _ & Hgone).
    vm_compute in Hrun. injection Hrun as _ <-.
    apply Hgone, Hqueued.
  - destruct (Hclaim (Hqueued _)) as (d' & st' & Hrun & Hrows & _).
    vm_compute in Hrun. injection Hrun as <- _.
    destruct (Hrows 0) as [Hlong _]; [cbn; lia |].
    vm_compute in Hlong. discriminate.
Qed.

Lemma without_pair_spec (p : string) (cmds : list Command) (c : Command) :
  c ∈ without_pair p cmds <-> cmd_pair c <> p /\ c ∈ cmds.
Proof.
  unfold without_pair.
  apply (list_elem_of_filter (fun s => cmd_pair s <> p)).
Qed.

Lemma last_command_is_without_pair (command : string) (cmds : list Command)
    (md : Metadata) :
  last_command_is command (without_pair (md_pair md) cmds) md = false.
Proof.
  unfold last_command_is.
  destruct (last (without_pair (md_pair md) cmds)) as [c |] eqn:Hlast; [| done].
  assert (Hin : c ∈ without_pair (md_pair md) cmds).
  { apply last_Some in Hlast as [l' ->]. set_solver. }
  apply without_pair_spec in Hin as [Hne _].
  apply String.eqb_neq in Hne. by rewrite Hne.
Qed.

(** C3 (as amended): when the last entry of the queue is a BUY for the
    current pair, [populate_entry_trend] marks every row with positive
    volume [enter_long = 1] with the tag 'trigger_buy' and leaves the
    other rows as they were; it removes every command of that pair from
    the queue, so the next call finds no BUY to act on, and it logs
    nothing. *)
Theorem manual_buy_fires_when_last_in_queue
    (self : DailyBuyStrategy) (d : DataFrame) (md : Metadata) (st : State) :
  last_command_is "BUY" (commands st) md = true ->
  exists d' st',
    populate_entry_trend self d md st = (Ok d', st')
    /\ commands st' = without_pair (md_pair md) (commands st)
    /\ (forall c, c ∈ commands st' -> cmd_pair c <> md_pair md)
    /\ ~ queues_buy (commands st') md
    /\ last_command_is "BUY" (commands st') md = false
    /\ log st' = log st
    /\ custom_data st' = custom_data st
    /\ (forall i v old_long old_tag,
          volume (ohlcv d) !! i = Some v ->
          enter_long d !! i = Some old_long ->
          enter_tag d !! i = Some old_tag ->
          enter_long d' !! i
          = Some (if Qlt_bool 0 v then Some 1%Z else old_long)
          /\ enter_tag d' !! i
             = Some (if Qlt_bool 0 v then Some "trigger_buy"%string
                     else old_tag)).
Proof.
  intros Hcmd. rewrite populate_entry_trend_manual by done.
  eexists _, _. split; [reflexivity |]. cbn [commands log custom_data].
  split; [done |]. split; [by intros c [? _]%without_pair_spec |].
  split; [by intros (c & [Hne _]%without_pair_spec & Hpair & _) |].
  split; [apply last_command_is_without_pair |].
  split; [done |]. split; [done |].
  intros i v old_long old_tag Hv Hlong Htag.
  cbn [enter_long enter_tag assign_enter].
  assert (Hmask : volume_positive d !! i = Some (Qlt_bool 0 v)).
  { unfold volume_positive. by rewrite list_lookup_fmap, Hv. }
  split; by apply loc_assign_lookup.
Qed.

Lemma manual_buy_fires_when_last_in_queue_witness :
  last_command_is "BUY" (commands buy_queued) btc = true
  /\ exists d' st',
       populate_entry_trend (defaults "5m" no_data) halted_frame btc buy_queued
       = (Ok d', st')
       /\ commands st' = without_pair (md_pair btc) (commands buy_queued)
       /\ (forall c, c ∈ commands st' -> cmd_pair c <> md_pair btc)
       /\ ~ queues_buy (commands st') btc
       /\ last_command_is "BUY" (commands st') btc = false
       /\ log st' = log buy_queued
       /\ custom_data st' = custom_data buy_queued
       /\ (forall i v old_long old_tag,
             volume (ohlcv halted_frame) !! i = Some v ->
             enter_long halted_frame !! i = Some old_long ->
             enter_tag halted_frame !! i = Some old_tag ->
             enter_long d' !! i
             = Some (if Qlt_bool 0 v then Some 1%Z else old_long)
             /\ enter_tag d' !! i
                = Some (if Qlt_bool 0 v then Some "trigger_buy"%string
                        else old_tag)).
Proof.
  assert (H1 : last_command_is "BUY" (commands buy_queued) btc = true)
    by reflexivity.
  split; [exact H1 |].
  exact (manual_buy_fires_when_last_in_queue (defaults "5m" no_data)
           halted_frame btc buy_queued H1).
Defined.

(* ===================================================================== *)
(** * The higher-timeframe confirmation *)
(* ===================================================================== *)

Lemma reindex_nearest_length {A} (n : nat) (s : Series A) :
  s <> [] -> length (reindex_nearest n s) = n.
Proof.
  intros Hs. unfold reindex_nearest. destruct s; [done |].
  by rewrite length_fmap, length_seq.
Qed.

(** Row by row, the confirmation compares the current close with the
    close of the informative frame one row earlier (clamped to its last
    row); the first row has no earlier one and is never confirmed. *)
Lemma higher_timeframe_confirmation_row (d : DataFrame) (informative : OHLCV)
    (i : nat) :
  informative <> [] ->
  higher_timeframe_confirmation d informative !! i = Some true
  <-> exists c p,
        0 < i
        /\ close (ohlcv d) !! i = Some c
        /\ close informative !! ((i - 1) `min` (length informative - 1)) = Some p
        /\ (c < p)%Q.
Proof.
  intros Hinf.
  assert (Hclose : close informative <> []).
  { unfold close. by destruct informative. }
  assert (Hlen : length (close informative) = length informative)
    by apply length_fmap.
  unfold higher_timeframe_confirmation, vlt, floats.
  rewrite lookup_zip_with_Some. setoid_rewrite shift_lookup.
  rewrite length_fmap, (reindex_nearest_length _ _ Hclose).
  split.
  - intros (x & y & Hlt & Hx & Hy).
    apply list_lookup_fmap_Some in Hx as (c & -> & Hc).
    destruct (decide (i < n_rows d)); [| done].
    destruct (decide (i < 1)); [injection Hy as <-; by rewrite flt_NaN_r in Hlt |].
    apply list_lookup_fmap_Some in Hy as (p & -> & Hp).
    rewrite reindex_nearest_lookup, Hlen in Hp by (done || lia).
    exists c, p. symmetry in Hlt. apply flt_Fin in Hlt.
    repeat split; [lia | done | done | done].
  - intros (c & p & Hi & Hc & Hp & Hlt).
    assert (Hrow : i < n_rows d).
    { apply lookup_lt_Some in Hc. unfold close in Hc.
      by rewrite length_fmap in Hc. }
    exists (Fin c), (Fin p). split; [symmetry; by apply flt_Fin |].
    split; [by rewrite list_lookup_fmap, Hc |].
    destruct (decide (i < n_rows d)); [| done].
    destruct (decide (i < 1)); [lia |].
    rewrite list_lookup_fmap, reindex_nearest_lookup, Hlen by (done || lia).
    by rewrite Hp.
Qed.

(** C8: on the default entry path, with [level] the coarser timeframe the
    hierarchy gives for the strategy's timeframe: when the informative
    frame of [level] has rows, a fresh row is marked [enter_long = 1]
    exactly when the technical conditions hold and the current close is
    below the previous close of the informative frame, and nothing is
    logged; when it has no rows, the missing data is logged and a fresh
    row is marked exactly when the technical conditions hold. *)
Theorem entry_confirmation_skipped_without_informative_data
    (self : DailyBuyStrategy) (d : DataFrame) (md : Metadata) (st : State)
    (level : string) :
  last_command_is "BUY" (commands st) md = false ->
  timeframe_hierarchy !! timeframe self = Some level ->
  exists d' st',
    populate_entry_trend self d md st = (Ok d', st')
    /\ commands st' = commands st
    /\ custom_data st' = custom_data st
    /\ (get_pair_dataframe (dp self) (md_pair md) level <> [] ->
        log st' = log st
        /\ forall i,
             enter_long d !! i = Some None ->
             (enter_long d' !! i = Some (Some 1%Z)
              <-> entry_technical self d !! i = Some true
                  /\ exists c p,
                       0 < i
                       /\ close (ohlcv d) !! i = Some c
                       /\ close (get_pair_dataframe (dp self) (md_pair md) level)
                          !! ((i - 1)
                              `min` (length (get_pair_dataframe (dp self)
                                               (md_pair md) level) - 1))
                          = Some p
                       /\ (c < p)%Q))
    /\ (get_pair_dataframe (dp self) (md_pair md) level = [] ->
        log st' = log st ++ [Info_no_data (md_pair md) level]
        /\ forall i,
             enter_long d !! i = Some None ->
             (enter_long d' !! i = Some (Some 1%Z)
              <-> entry_technical self d !! i = Some true)).
Proof.
  intros Hcmd Hlevel.
  rewrite (populate_entry_trend_default _ _ _ _ level) by done.
  assert (Hassign : forall mask tag i,
    enter_long d !! i = Some None ->
    enter_long (assign_enter mask 1 tag d) !! i = Some (Some 1%Z)
    <-> mask !! i = Some true).
  { intros mask tag i Hfresh. cbn [enter_long assign_enter]. split.
    - intros [Hm | Hold]%loc_assign_set; [done | congruence].
    - intros Hm. by rewrite (loc_assign_lookup _ _ _ _ _ _ Hm Hfresh). }
  destruct (get_pair_dataframe (dp self) (md_pair md) level) as [| c cs] eqn:Hinf.
  - eexists _, _. split; [reflexivity |]. cbn [commands custom_data log].
    split; [done |]. split; [done |]. split; [done |].
    intros _. split; [done |]. intros i Hfresh. by apply Hassign.
  - eexists _, _. split; [reflexivity |].
    split; [done |]. split; [done |]. split; [| done].
    intros _. split; [done |]. intros i Hfresh.
    rewrite (Hassign _ _ _ Hfresh), vand_true.
    by rewrite higher_timeframe_confirmation_row.
Qed.

Lemma entry_confirmation_skipped_without_informative_data_witness :
  last_command_is "BUY" (commands idle) btc = false
  /\ timeframe_hierarchy !! timeframe (defaults "5m" coarse_data) = Some "15m"%string
  /\ exists d' st',
       populate_entry_trend (defaults "5m" coarse_data) falling_frame btc idle
       = (Ok d', st')
       /\ commands st' = commands idle
       /\ custom_data st' = custom_data idle
       /\ (get_pair_dataframe (dp (defaults "5m" coarse_data)) (md_pair btc) "15m"
           <> [] ->
           log st' = log idle
           /\ forall i,
                enter_long falling_frame !! i = Some None ->
                (enter_long d' !! i = Some (Some 1%Z)
                 <-> entry_technical (defaults "5m" coarse_data) falling_frame !! i
                     = Some true
                     /\ exists c p,
                          0 < i
                          /\ close (ohlcv falling_frame) !! i = Some c
                          /\ close (get_pair_dataframe (dp (defaults "5m" coarse_data))
                                      (md_pair btc) "15m")
                             !! ((i - 1)
                                 `min` (length (get_pair_dataframe
                                                  (dp (defaults "5m" coarse_data))
                                                  (md_pair btc) "15m") - 1))
                             = Some p
                          /\ (c < p)%Q))
       /\ (get_pair_dataframe (dp (defaults "5m" coarse_data)) (md_pair btc) "15m"
           = [] ->
           log st' = log idle ++ [Info_no_data (md_pair btc) "15m"]
           /\ forall i,
                enter_long falling_frame !! i = Some None ->
                (enter_long d' !! i = Some (Some 1%Z)
                 <-> entry_technical (defaults "5m" coarse_data) falling_frame !! i
                     = Some true)).
Proof.
  assert (H1 : last_command_is "BUY" (commands idle) btc = false) by reflexivity.
  assert (H2 : timeframe_hierarchy !! timeframe (defaults "5m" coarse_data)
               = Some "15m"%string) by (vm_compute; reflexivity).
  split; [exact H1 |]. split; [exact H2 |].
  exact (entry_confirmation_skipped_without_informative_data
           (defaults "5m" coarse_data) falling_frame btc idle "15m" H1 H2).
Defined.

(** With the coarse frames at hand the last row of the falling series is
    still entered (34 is below 40); without them the same row is entered
    and the missing data is logged. *)
Lemma falling_frame_entry_with_and_without_informative :
  (exists d',
     populate_entry_trend (defaults "5m" coarse_data) falling_frame btc idle
     = (Ok d', idle)
     /\ enter_long d' !! 29 = Some (Some 1%Z)
     /\ enter_long d' !! 0 = Some None)
  /\ (exists d',
        populate_entry_trend (defaults "5m" no_data) falling_frame btc idle
        = (Ok d', idle_logged)
        /\ enter_long d' !! 29 = Some (Some 1%Z)).
Proof.
  split; eexists; (split; [vm_compute; reflexivity |]); vm_compute; by repeat split.
Qed.

(* ===================================================================== *)
(** * The two signals on one row, whatever the indicator library *)
(* ===================================================================== *)

Section AnyIndicators.

(** Any MACD and EMA that return columns as long as the frame. *)
Variable ta_MACD : OHLCV -> Series float * Series float.
Variable ta_EMA : OHLCV -> Z -> Series float.
Hypothesis ta_MACD_length : forall rows,
  length (fst (ta_MACD rows)) = length rows
  /\ length (snd (ta_MACD rows)) = length rows.
Hypothesis ta_EMA_length : forall rows timeperiod,
  length (ta_EMA rows timeperiod) = length rows.

Lemma falling_with_computed :
  populate_indicators ta_MACD ta_EMA (defaults "5m" no_data)
    falling_then_uptick btc = Ok (falling_with ta_MACD ta_EMA).
Proof using Type. vm_compute. reflexivity. Qed.

Lemma falling_with_macd_ema_rows :
  is_Some (macd_ema_bullish (falling_with ta_MACD ta_EMA) !! 29)
  /\ is_Some (macd_ema_bearish (falling_with ta_MACD ta_EMA) !! 29).
Proof using ta_MACD_length ta_EMA_length.
  destruct (ta_MACD_length falling_then_uptick) as [Hm Hs].
  pose proof (ta_EMA_length falling_then_uptick 10) as Hes.
  pose proof (ta_EMA_length falling_then_uptick 50) as Hel.
  assert (Hn : length falling_then_uptick = 30) by reflexivity.
  split; apply lookup_lt_is_Some_2;
    unfold macd_ema_bullish, macd_ema_bearish, vand, vgt, vlt;
    rewrite !length_zip_with;
    cbn [macd macdsignal ema_short ema_long falling_with with_indicators];
    lia.
Qed.

(** The last row of the falling series is entered and exited by the
    default paths for every such library: the resistance breakout and
    the TTF do not depend on it. *)
Lemma falling_series_both_signals_any_indicators :
  exists df d1 st1 d2 st2,
    populate_indicators ta_MACD ta_EMA (defaults "5m" no_data)
      falling_then_uptick btc = Ok df
    /\ populate_entry_trend (defaults "5m" no_data) df btc idle = (Ok d1, st1)
    /\ populate_exit_trend (defaults "5m" no_data) d1 btc st1 = (Ok d2, st2)
    /\ enter_long d2 !! 29 = Some (Some 1%Z)
    /\ exit_long d2 !! 29 = Some (Some 1%Z).
Proof using ta_MACD_length ta_EMA_length.
  destruct falling_with_macd_ema_rows as [Hbull Hbear].
  assert (Hsome : forall (a b : Series bool),
    is_Some (a !! 29) -> is_Some (b !! 29) -> is_Some ((a .| b) !! 29)).
  { intros a b [x Hx] [y Hy]. unfold vor. rewrite lookup_zip_with, Hx, Hy.
    by eexists. }
  assert (Hentry :
    entry_technical (defaults "5m" no_data) (falling_with ta_MACD ta_EMA) !! 29
    = Some true).
  { unfold entry_technical. apply vor_true_iff.
    - apply Hsome; [done | by eexists].
    - by eexists.
    - left. apply vor_true_iff; [done | by eexists | right; by vm_compute]. }
  assert (Hexit :
    exit_technical (defaults "5m" no_data) (falling_with ta_MACD ta_EMA) !! 29
    = Some true).
  { unfold exit_technical. apply vor_true_iff.
    - apply Hsome; [by eexists | done].
    - by eexists.
    - right. by vm_compute. }
  eexists (falling_with ta_MACD ta_EMA), _, _, _, _.
  split; [apply falling_with_computed |].
  split; [by rewrite (populate_entry_trend_default _ _ _ _ "15m") |].
  split; [by rewrite populate_exit_trend_default |].
  cbn [enter_long exit_long assign_exit assign_enter get_pair_dataframe dp
       defaults no_data].
  assert (Hfresh_enter :
    enter_long (falling_with ta_MACD ta_EMA) !! 29 = Some None)
    by (by vm_compute).
  assert (Hfresh_exit :
    exit_long (falling_with ta_MACD ta_EMA) !! 29 = Some None)
    by (by vm_compute).
  split.
  - exact (loc_assign_lookup _ _ _ _ _ _ Hentry Hfresh_enter).
  - assert (Hmask :
      (exit_technical (defaults "5m" no_data) (falling_with ta_MACD ta_EMA)
       .& volume_positive (falling_with ta_MACD ta_EMA)) !! 29 = Some true).
    { apply vand_true. split; [exact Hexit | by vm_compute]. }
    exact (loc_assign_lookup _ _ _ _ _ _ Hmask Hfresh_exit).
Qed.

End AnyIndicators.

(* ===================================================================== *)
(** * More on the indicator columns *)
(* ===================================================================== *)

Lemma shift_length (n : nat) (s : Series float) : length (shift n s) = length s.
Proof.
  unfold shift. rewrite length_take, length_app, length_replicate. lia.
Qed.

Lemma rolling_length (pick : Q -> Q -> Q) (w mp : nat) (s : Series Q) :
  length (rolling pick w mp s) = length s.
Proof. unfold rolling. apply length_imap. Qed.

Lemma rolling_lookup (pick : Q -> Q -> Q) (w mp : nat) (s : Series Q) (i : nat) :
  i < length s ->
  rolling pick w mp s !! i = Some (aggregate pick mp (window_at w i s)).
Proof.
  intros Hi. unfold rolling. rewrite list_lookup_imap.
  destruct (lookup_lt_is_Some_2 s i Hi) as [x ->]. reflexivity.
Qed.

Lemma window_at_length {A} (w i : nat) (s : Series A) :
  i < length s -> length (window_at w i s) = w `min` S i.
Proof.
  intros Hi. unfold window_at. rewrite length_drop, length_take. lia.
Qed.

(** A window aggregates to a finite value exactly when it is not empty
    and holds [min_periods] rows. *)
Lemma aggregate_finite_iff (pick : Q -> Q -> Q) (mp : nat) (win : list Q) :
  (exists q, aggregate pick mp win = Fin q)
  <-> 0 < length win /\ mp <= length win.
Proof.
  unfold aggregate. destruct win as [| x xs].
  - split; [intros [q [=]] | cbn; lia].
  - destruct (Nat.leb_spec mp (length (x :: xs))) as [Hle | Hlt].
    + split; [intros _; cbn in *; lia | eauto].
    + split; [intros [q [=]] | lia].
Qed.

Lemma foldl_Qmin_seed (xs : list Q) (x : Q) : (foldl Qmin x xs <= x)%Q.
Proof.
  revert x. induction xs as [| y ys IH]; intros x; cbn.
  - apply Qle_refl.
  - apply Qle_trans with (Qmin x y); [apply IH | apply Q.le_min_l].
Qed.

(** Over one window the minimum does not exceed the maximum. *)
Lemma aggregate_min_le_max (mp : nat) (win : list Q) (lo hi : Q) :
  aggregate Qmin mp win = Fin lo -> aggregate Qmax mp win = Fin hi ->
  (lo <= hi)%Q.
Proof.
  unfold aggregate. destruct win as [| x xs]; [discriminate |].
  destruct (mp <=? length (x :: xs))%nat; [| discriminate].
  intros [= <-] [= <-].
  apply Qle_trans with x; [apply foldl_Qmin_seed | apply foldl_Qmax_seed].
Qed.

Lemma fsub_NaN_r (x : float) : fsub x NaN = NaN.
Proof. by destruct x. Qed.

Lemma fsub_Fin_inv (x y : float) (d : Q) :
  fsub x y = Fin d -> exists a b, x = Fin a /\ y = Fin b /\ d = (a + - b)%Q.
Proof.
  destruct x as [a| | |], y as [b| | |]; cbn; try discriminate.
  intros [= <-]. eauto.
Qed.

Section MoreIndicatorFacts.

Variable ta_MACD : OHLCV -> Series float * Series float.
Variable ta_EMA : OHLCV -> Z -> Series float.

(** The pivot and signal columns a successful [populate_indicators]
    leaves in the frame. *)
Lemma populate_indicators_pivot_columns self rows md df :
  populate_indicators ta_MACD ta_EMA self rows md = Ok df ->
  pp df = fst (fst (calculate_pivots rows))
  /\ r1 df = snd (fst (calculate_pivots rows))
  /\ s1 df = snd (calculate_pivots rows)
  /\ pivot_point df = pp df
  /\ resistance_1 df = r1 df
  /\ support_1 df = s1 df
  /\ previous_close df = shift 1 (floats (close rows))
  /\ resistance_signal df
     = (floats (close rows) .> r1 df)
       .& (floats (close rows) .> previous_close df)
  /\ swing_low df
     = rolling_min (swing_window self) (swing_min_periods self) (low rows)
  /\ enter_tag df = replicate (length rows) None
  /\ exit_tag df = replicate (length rows) None
  /\ macd df = fst (ta_MACD rows)
  /\ macdsignal df = snd (ta_MACD rows)
  /\ ema_short df = ta_EMA rows (buy_ema_short self)
  /\ ema_long df = ta_EMA rows (buy_ema_long self).
Proof using Type.
  unfold populate_indicators, calculate_swing, calculate_pivots.
  destruct (swing_window self <? swing_min_periods self)%nat; [discriminate |].
  intros [= <-]. cbn. repeat split.
Qed.

End MoreIndicatorFacts.

Lemma shift_lookup_S (s : Series float) (j : nat) (x : float) :
  s !! j = Some x -> S j < length s -> shift 1 s !! S j = Some x.
Proof.
  intros Hx Hlen. rewrite shift_lookup.
  destruct (decide (S j < length s)); [| lia].
  destruct (decide (S j < 1)); [lia |].
  by replace (S j - 1) with j by lia.
Qed.

Lemma shift_lookup_warm_up (n : nat) (s : Series float) (i : nat) :
  i < n -> i < length s -> shift n s !! i = Some NaN.
Proof.
  intros Hn Hlen. rewrite shift_lookup.
  destruct (decide (i < length s)); [| lia].
  by destruct (decide (i < n)); [| lia].
Qed.


Lemma pivot_row_0 (rows : OHLCV) :
  rows <> [] ->
  fst (fst (calculate_pivots rows)) !! 0 = Some NaN
  /\ snd (fst (calculate_pivots rows)) !! 0 = Some NaN
  /\ snd (calculate_pivots rows) !! 0 = Some NaN.
Proof.
  intros Hrows.
  assert (Hshift : forall f : Candle -> Q,
    shift 1 (floats (f <$> rows)) !! 0 = Some NaN).
  { intros f. apply shift_lookup_warm_up; [lia |].
    unfold floats. rewrite !length_fmap. destruct rows; [done | cbn; lia]. }
  unfold calculate_pivots, high, low, close. cbn [fst snd].
  unfold vsub, vscale, vunscale, vadd.
  rewrite !lookup_zip_with, !list_lookup_fmap, !lookup_zip_with, !Hshift.
  done.
Qed.

Section PivotFacts.

Variable ta_MACD : OHLCV -> Series float * Series float.
Variable ta_EMA : OHLCV -> Z -> Series float.


End PivotFacts.


(** A rolling window of width and [min_periods] [n] gives NaN on the first
    [n - 1] rows and a finite value from then on. *)
Lemma rolling_warm_up (pick : Q -> Q -> Q) (n : nat) (s : Series Q) (i : nat) :
  i < length s -> S i < n -> rolling pick n n s !! i = Some NaN.
Proof.
  intros Hlen Hn. rewrite rolling_lookup by done. f_equal.
  destruct (aggregate_finite_or_nan pick n (window_at n i s))
    as [-> | Hfin]; [done |].
  apply aggregate_finite_iff in Hfin as [_ Hmp].
  rewrite window_at_length in Hmp by done. lia.
Qed.

Lemma rolling_ready (pick : Q -> Q -> Q) (n : nat) (s : Series Q) (i : nat) :
  i < length s -> 1 <= n -> n <= S i ->
  exists q, rolling pick n n s !! i = Some (Fin q).
Proof.
  intros Hlen H1 Hn. rewrite rolling_lookup by done.
  destruct (proj2 (aggregate_finite_iff pick n (window_at n i s))) as [q ->];
    [rewrite window_at_length by done; lia | eauto].
Qed.

(** Where both rolling columns are finite the minimum is the smaller. *)
Lemma rolling_min_le_max (w mp : nat) (s : Series Q) (i : nat) (lo hi : Q) :
  rolling_min w mp s !! i = Some (Fin lo) ->
  rolling_max w mp s !! i = Some (Fin hi) ->
  (lo <= hi)%Q.
Proof.
  unfold rolling_min, rolling_max. intros Hlo Hhi.
  assert (Hlen : i < length s).
  { apply lookup_lt_Some in Hlo. by rewrite rolling_length in Hlo. }
  rewrite rolling_lookup in Hlo, Hhi by done.
  injection Hlo as Hlo. injection Hhi as Hhi.
  by eapply aggregate_min_le_max.
Qed.

Section OscillatorFacts.

Variable ta_MACD : OHLCV -> Series float * Series float.
Variable ta_EMA : OHLCV -> Z -> Series float.

(** X5: with a lookback of [n >= 1] the oscillator needs [2n - 1] candles
    to warm up: on the rows before that, buyPower, sellPower and the TTF
    are NaN; from row [2n - 1] on, buyPower and sellPower are finite. *)
Theorem ttf_warm_up
    (self : DailyBuyStrategy) (rows : OHLCV) (md : Metadata) (df : DataFrame)
    (i : nat) :
  populate_indicators ta_MACD ta_EMA self rows md = Ok df ->
  1 <= lookback_length self ->
  i < length rows ->
  (S i < 2 * lookback_length self ->
   buyPower df !! i = Some NaN
   /\ sellPower df !! i = Some NaN
   /\ ttf df !! i = Some NaN)
  /\ (2 * lookback_length self <= S i ->
      exists b s,
        buyPower df !! i = Some (Fin b) /\ sellPower df !! i = Some (Fin s)).
Proof using Type.
  intros Hdf Hn Hi.
  apply populate_indicators_columns in Hdf
    as (_ & _ & Hhh & Hll & Hbuy & Hsell & Httf & _).
  set (n := lookback_length self) in *.
  assert (Hclose : length (close rows) = length rows) by apply length_fmap.
  assert (Hhh_len : length (hh df) = length rows)
    by (by rewrite Hhh; unfold rolling_max; rewrite rolling_length).
  assert (Hll_len : length (ll df) = length rows)
    by (by rewrite Hll; unfold rolling_min; rewrite rolling_length).
  destruct (lookup_lt_is_Some_2 (hh df) i) as [h Hh]; [lia |].
  destruct (lookup_lt_is_Some_2 (ll df) i) as [l Hl]; [lia |].
  split.
  - intros Hwarm.
    assert (Hshift : shift n (ll df) !! i = Some NaN
                     /\ shift n (hh df) !! i = Some NaN).
    { destruct (decide (i < n)) as [Hlt | Hge].
      - split; apply shift_lookup_warm_up; lia.
      - rewrite !shift_lookup.
        destruct (decide (i < length (ll df))); [| lia].
        destruct (decide (i < length (hh df))); [| lia].
        destruct (decide (i < n)); [lia |].
        rewrite Hll, Hhh. unfold rolling_min, rolling_max.
        split; apply rolling_warm_up; lia. }
    destruct Hshift as [Hsl Hsh].
    assert (Hb : buyPower df !! i = Some NaN).
    { rewrite Hbuy. unfold vsub. rewrite lookup_zip_with, Hh, Hsl. cbn.
      by rewrite fsub_NaN_r. }
    assert (Hs : sellPower df !! i = Some NaN).
    { rewrite Hsell. unfold vsub. by rewrite lookup_zip_with, Hsh, Hl. }
    split; [done |]. split; [done |].
    rewrite Httf. unfold vdiv, vscale, vsub, vadd.
    by rewrite lookup_zip_with, list_lookup_fmap, !lookup_zip_with, Hb, Hs.
  - intros Hready.
    assert (Hfin : forall pick j, j < length rows -> n <= S j ->
              exists q, rolling pick n n (close rows) !! j = Some (Fin q)).
    { intros pick j Hj Hnj. apply rolling_ready; lia. }
    destruct (Hfin Qmax i) as [h1 Hh1]; [lia | lia |].
    destruct (Hfin Qmin i) as [l1 Hl1]; [lia | lia |].
    destruct (Hfin Qmax (i - n)) as [h0 Hh0]; [lia | lia |].
    destruct (Hfin Qmin (i - n)) as [l0 Hl0]; [lia | lia |].
    assert (Hshift : forall s, length s = length rows ->
              shift n s !! i = s !! (i - n)).
    { intros s Hs. rewrite shift_lookup.
      destruct (decide (i < length s)); [| lia].
      by destruct (decide (i < n)); [lia |]. }
    exists (h1 + - l0)%Q, (h0 + - l1)%Q.
    rewrite Hbuy, Hsell. unfold vsub.
    rewrite !lookup_zip_with, !Hshift by done.
    rewrite Hhh, Hll. unfold rolling_max, rolling_min.
    by rewrite Hh1, Hl1, Hh0, Hl0.
Qed.

End OscillatorFacts.

(** Under the default lookback of 15 the falling series is warm from row
    29 on: row 28 still holds NaN, row 29 holds finite powers. *)
Lemma ttf_warm_up_witness :
  populate_indicators warmup_MACD warmup_EMA (defaults "5m" no_data)
    falling_then_uptick btc = Ok falling_frame
  /\ 1 <= lookback_length (defaults "5m" no_data)
  /\ 28 < length falling_then_uptick
  /\ ttf falling_frame !! 28 = Some NaN
  /\ exists b s,
       buyPower falling_frame !! 29 = Some (Fin b)
       /\ sellPower falling_frame !! 29 = Some (Fin s).
Proof.
  assert (Hn : 1 <= lookback_length (defaults "5m" no_data)) by (cbn; lia).
  assert (H28 : 28 < length falling_then_uptick) by (vm_compute; lia).
  assert (H29 : 29 < length falling_then_uptick) by (vm_compute; lia).
  split; [apply falling_frame_computed |]. split; [exact Hn |].
  split; [exact H28 |]. split.
  - destruct (ttf_warm_up warmup_MACD warmup_EMA (defaults "5m" no_data)
                falling_then_uptick btc falling_frame 28
                falling_frame_computed Hn H28) as [Hwarm _].
    apply Hwarm. cbn. lia.
  - destruct (ttf_warm_up warmup_MACD warmup_EMA (defaults "5m" no_data)
                falling_then_uptick btc falling_frame 29
                falling_frame_computed Hn H29) as [_ Hready].
    apply Hready. cbn. lia.
Defined.

(** With a window of one row the rolling extremes are the column itself. *)
Lemma rolling_one (pick : Q -> Q -> Q) (s : Series Q) :
  rolling pick 1 1 s = floats s.
Proof.
  apply list_eq. intros i. unfold floats. rewrite list_lookup_fmap.
  destruct (s !! i) as [x |] eqn:Hx.
  - assert (Hi : i < length s) by (by eapply lookup_lt_Some).
    rewrite rolling_lookup by done. unfold window_at.
    replace (S i - 1) with i by lia.
    rewrite (take_S_r s i x Hx), drop_app_length' by (rewrite length_take; lia).
    done.
  - apply lookup_ge_None. rewrite rolling_length. by apply lookup_ge_None.
Qed.

Section PowerFacts.

Variable ta_MACD : OHLCV -> Series float * Series float.
Variable ta_EMA : OHLCV -> Z -> Series float.

(** X7: where buyPower + sellPower is zero the division is by zero and no
    exception is raised: the TTF is +inf when buyPower is positive, -inf
    when it is negative and NaN when both powers are zero.  +inf is above
    every upper trigger level and -inf below every lower one; NaN passes
    neither comparison. *)
Theorem ttf_infinite_on_zero_sum
    (self : DailyBuyStrategy) (rows : OHLCV) (md : Metadata) (df : DataFrame)
    (i : nat) (b s : Q) :
  populate_indicators ta_MACD ta_EMA self rows md = Ok df ->
  buyPower df !! i = Some (Fin b) ->
  sellPower df !! i = Some (Fin s) ->
  (b + s == 0)%Q ->
  ((0 < b)%Q ->
   ttf df !! i = Some PInf
   /\ ttf_above self df !! i = Some true
   /\ ttf_below self df !! i = Some false)
  /\ ((b < 0)%Q ->
      ttf df !! i = Some NInf
      /\ ttf_above self df !! i = Some false
      /\ ttf_below self df !! i = Some true)
  /\ ((b == 0)%Q ->
      ttf df !! i = Some NaN
      /\ ttf_above self df !! i = Some false
      /\ ttf_below self df !! i = Some false).
Proof using Type.
  intros Hdf Hb Hs Hzero.
  apply populate_indicators_columns in Hdf
    as (_ & _ & _ & _ & _ & _ & Httf & _).
  assert (Hrow : ttf df !! i
                 = Some (signed_inf (inject_Z 200 * (b + - s)) PInf)).
  { rewrite Httf. unfold vdiv, vscale, vsub, vadd.
    rewrite lookup_zip_with, list_lookup_fmap, !lookup_zip_with, Hb, Hs.
    cbn [mbind option_bind fmap option_fmap option_map].
    f_equal. by apply ttf_zero_sum. }
  unfold ttf_above, ttf_below, vgt_const, vlt_const.
  rewrite !list_lookup_fmap, Hrow. unfold signed_inf.
  change (inject_Z 200) with 200%Q.
  split; [| split]; intros Hsign.
  - assert (Heq : Qeq_bool (200 * (b + - s)) 0 = false)
      by (apply Qeq_bool_false_iff; intros ?; lra).
    assert (Hlt : Qlt_bool 0 (200 * (b + - s)) = true)
      by (apply Qlt_bool_iff; lra).
    by rewrite Heq, Hlt.
  - assert (Heq : Qeq_bool (200 * (b + - s)) 0 = false)
      by (apply Qeq_bool_false_iff; intros ?; lra).
    assert (Hlt : Qlt_bool 0 (200 * (b + - s)) = false)
      by (apply Qlt_bool_false_iff; lra).
    by rewrite Heq, Hlt.
  - assert (Heq : Qeq_bool (200 * (b + - s)) 0 = true)
      by (apply Qeq_bool_iff; lra).
    by rewrite Heq.
Qed.

(** X8: with the lookback at 1, the low end of its declared range, the
    powers of a row are the change of the close and its negative, so their
    sum is always zero: the trigger levels play no part, the TTF entry
    condition holds on exactly the rows that close above the previous row
    and the TTF exit condition on exactly those that close below it. *)
Theorem ttf_ignores_levels_at_lookback_one
    (self : DailyBuyStrategy) (rows : OHLCV) (md : Metadata) (df : DataFrame)
    (j : nat) (prev cur : Candle) :
  populate_indicators ta_MACD ta_EMA self rows md = Ok df ->
  lookback_length self = 1 ->
  rows !! j = Some prev ->
  rows !! S j = Some cur ->
  buyPower df !! S j = Some (Fin (c_close cur + - c_close prev))
  /\ sellPower df !! S j = Some (Fin (c_close prev + - c_close cur))
  /\ (ttf_above self df !! S j = Some true <-> (c_close prev < c_close cur)%Q)
  /\ (ttf_below self df !! S j = Some true <-> (c_close cur < c_close prev)%Q).
Proof using Type.
  intros Hdf Hn Hprev Hcur.
  assert (Hlen : S j < length rows) by (by eapply lookup_lt_Some).
  pose proof (populate_indicators_columns _ _ _ _ _ _ Hdf)
    as (_ & _ & Hhh & Hll & Hbuy & Hsell & _).
  rewrite Hn in Hhh, Hll, Hbuy, Hsell.
  unfold rolling_max, rolling_min in Hhh, Hll. rewrite rolling_one in Hhh, Hll.
  assert (Hshift : shift 1 (floats (close rows)) !! S j
                   = Some (Fin (c_close prev))).
  { apply shift_lookup_S; [| by unfold floats, close; rewrite !length_fmap].
    unfold floats, close. by rewrite !list_lookup_fmap, Hprev. }
  assert (Hrow : floats (close rows) !! S j = Some (Fin (c_close cur))).
  { unfold floats, close. by rewrite !list_lookup_fmap, Hcur. }
  assert (Hb : buyPower df !! S j
               = Some (Fin (c_close cur + - c_close prev))).
  { rewrite Hbuy, Hhh, Hll. unfold vsub.
    by rewrite lookup_zip_with, Hrow, Hshift. }
  assert (Hs : sellPower df !! S j
               = Some (Fin (c_close prev + - c_close cur))).
  { rewrite Hsell, Hhh, Hll. unfold vsub.
    by rewrite lookup_zip_with, Hrow, Hshift. }
  split; [exact Hb |]. split; [exact Hs |].
  apply populate_indicators_columns in Hdf
    as (_ & _ & _ & _ & _ & _ & Httf & _).
  set (b := (c_close cur + - c_close prev)%Q) in *.
  set (s := (c_close prev + - c_close cur)%Q) in *.
  assert (Hzero : (b + s == 0)%Q) by (unfold b, s; ring).
  assert (Hval : ttf df !! S j
                 = Some (signed_inf (inject_Z 200 * (b + - s)) PInf)).
  { rewrite Httf. unfold vdiv, vscale, vsub, vadd.
    rewrite lookup_zip_with, list_lookup_fmap, !lookup_zip_with, Hb, Hs.
    cbn [mbind option_bind fmap option_fmap option_map].
    f_equal. by apply ttf_zero_sum. }
  unfold ttf_above, ttf_below, vgt_const, vlt_const.
  rewrite !list_lookup_fmap, Hval. unfold signed_inf.
  change (inject_Z 200) with 200%Q.
  destruct (Qeq_bool (200 * (b + - s)) 0) eqn:Heq.
  - apply Qeq_bool_iff in Heq. cbn.
    split; (split; [done | intros ?; unfold b, s in Heq; lra]).
  - apply Qeq_bool_false_iff in Heq.
    destruct (Qlt_bool 0 (200 * (b + - s))) eqn:Hlt.
    + apply Qlt_bool_iff in Hlt. cbn.
      split; (split; intros ?); unfold b, s in Hlt; try done; lra.
    + apply Qlt_bool_false_iff in Hlt. cbn.
      split; (split; intros ?); unfold b, s in Hlt, Heq; try done.
      * exfalso. apply Heq. lra.
      * lra.
Qed.

End PowerFacts.

Lemma short_frame_computed :
  populate_indicators warmup_MACD warmup_EMA (short_lookback "5m" no_data)
    falling_then_uptick btc = Ok short_frame.
Proof. vm_compute. reflexivity. Qed.

(** Under a lookback of 1 the last row of the falling series has the
    powers 2 and -2: the TTF is +inf and passes the upper trigger level. *)
Lemma ttf_infinite_on_zero_sum_witness :
  populate_indicators warmup_MACD warmup_EMA (short_lookback "5m" no_data)
    falling_then_uptick btc = Ok short_frame
  /\ buyPower short_frame !! 29 = Some (Fin 2)
  /\ sellPower short_frame !! 29 = Some (Fin (-2))
  /\ (2 + -2 == 0)%Q
  /\ ttf short_frame !! 29 = Some PInf
  /\ ttf_above (short_lookback "5m" no_data) short_frame !! 29 = Some true.
Proof.
  assert (Hb : buyPower short_frame !! 29 = Some (Fin 2))
    by (vm_compute; reflexivity).
  assert (Hs : sellPower short_frame !! 29 = Some (Fin (-2)))
    by (vm_compute; reflexivity).
  assert (Hzero : (2 + -2 == 0)%Q) by reflexivity.
  split; [apply short_frame_computed |]. split; [exact Hb |].
  split; [exact Hs |]. split; [exact Hzero |].
  destruct (ttf_infinite_on_zero_sum warmup_MACD warmup_EMA
              (short_lookback "5m" no_data) falling_then_uptick btc
              short_frame 29 2 (-2) short_frame_computed Hb Hs Hzero)
    as [Hpos _].
  destruct Hpos as (Httf & Habove & _); [reflexivity |]. by split.
Defined.

(** Under a lookback of 1 the last row of the falling series, which closes
    at 34 after 32, passes the TTF entry condition. *)
Lemma ttf_ignores_levels_at_lookback_one_witness :
  populate_indicators warmup_MACD warmup_EMA (short_lookback "5m" no_data)
    falling_then_uptick btc = Ok short_frame
  /\ lookback_length (short_lookback "5m" no_data) = 1
  /\ falling_then_uptick !! 28 = Some (candle_at 32)
  /\ falling_then_uptick !! 29 = Some (candle_at 34)
  /\ ttf_above (short_lookback "5m" no_data) short_frame !! 29 = Some true.
Proof.
  assert (Hprev : falling_then_uptick !! 28 = Some (candle_at 32))
    by (vm_compute; reflexivity).
  assert (Hcur : falling_then_uptick !! 29 = Some (candle_at 34))
    by (vm_compute; reflexivity).
  split; [apply short_frame_computed |]. split; [reflexivity |].
  split; [exact Hprev |]. split; [exact Hcur |].
  destruct (ttf_ignores_levels_at_lookback_one warmup_MACD warmup_EMA
              (short_lookback "5m" no_data) falling_then_uptick btc
              short_frame 28 (candle_at 32) (candle_at 34)
              short_frame_computed eq_refl Hprev Hcur)
    as (_ & _ & Habove & _).
  apply Habove. reflexivity.
Defined.

(* ===================================================================== *)
(** * More on the signal callbacks *)
(* ===================================================================== *)

(** A timeframe has a next level exactly when it is one of the keys the
    class writes. *)
Lemma timeframe_hierarchy_None (tf : string) :
  timeframe_hierarchy !! tf = None <-> tf ∉ timeframe_hierarchy_keys.
Proof. unfold timeframe_hierarchy. by rewrite <- not_elem_of_list_to_map. Qed.

Lemma populate_exit_trend_manual self d md st :
  last_command_is "SELL" (commands st) md = true ->
  populate_exit_trend self d md st
  = (Ok (assign_exit (volume_positive d) 1 "trigger_sell" d),
     {| commands := without_pair (md_pair md) (commands st);
        custom_data := custom_data st; log := log st |}).
Proof.
  intros Hcmd. unfold populate_exit_trend, bind, gets. by rewrite Hcmd.
Qed.

(** The last command cannot be a SELL and a BUY at once. *)
Lemma last_command_sell_not_buy (cmds : list Command) (md : Metadata) :
  last_command_is "SELL" cmds md = true ->
  last_command_is "BUY" cmds md = false.
Proof.
  unfold last_command_is. destruct (last cmds) as [c |]; [| done].
  intros [_ Hsell%String.eqb_eq]%andb_true_iff. rewrite Hsell.
  apply andb_false_r.
Qed.

Lemma volume_positive_lookup (d : DataFrame) (i : nat) :
  volume_positive d !! i = Some true ->
  exists cur, ohlcv d !! i = Some cur /\ (0 < c_volume cur)%Q.
Proof.
  unfold volume_positive, volume. rewrite !list_lookup_fmap.
  destruct (ohlcv d !! i) as [cur |]; [| done]. cbn.
  intros [= Hv%Qlt_bool_iff]. eauto.
Qed.

(** X9: [populate_entry_trend] raises exactly when the last queued command
    is not a BUY for the pair and the configured timeframe is none of the
    seven keys of [timeframe_hierarchy] (so also at '1M', the top level);
    what it raises is a [KeyError], and commands, custom data and log are
    as they were. *)
Theorem populate_entry_trend_raises_iff_timeframe_unknown
    (self : DailyBuyStrategy) (d : DataFrame) (md : Metadata) (st : State) :
  ((exists e st', populate_entry_trend self d md st = (Raise e, st'))
   <-> last_command_is "BUY" (commands st) md = false
       /\ timeframe self ∉ timeframe_hierarchy_keys)
  /\ (forall e st',
        populate_entry_trend self d md st = (Raise e, st') ->
        e = KeyError /\ st' = st).
Proof.
  destruct (last_command_is "BUY" (commands st) md) eqn:Hcmd.
  - rewrite populate_entry_trend_manual by done.
    split; [split; [by intros (e & st' & [=]) | by intros [[=] _]] |].
    by intros e st' [=].
  - destruct (timeframe_hierarchy !! timeframe self) as [level |] eqn:Hlevel.
    + rewrite (populate_entry_trend_default self d md st level) by done.
      assert (Hkey : ~ (timeframe self ∉ timeframe_hierarchy_keys)).
      { rewrite <- timeframe_hierarchy_None, Hlevel. done. }
      destruct (get_pair_dataframe (dp self) (md_pair md) level).
      * split; [split; [by intros (e & st' & [=]) | by intros [_ ?]] |].
        by intros e st' [=].
      * split; [split; [by intros (e & st' & [=]) | by intros [_ ?]] |].
        by intros e st' [=].
    + assert (Hrun : populate_entry_trend self d md st = (Raise KeyError, st)).
      { unfold populate_entry_trend, bind, gets. by rewrite Hcmd, Hlevel. }
      rewrite Hrun. apply timeframe_hierarchy_None in Hlevel.
      split; [split; [done | eauto] |].
      by intros e st' [= <- <-].
Qed.

(** X10: [populate_exit_trend] marks no row without volume, on the manual
    path and on the default path alike: a row that holds [exit_long = 1]
    afterwards held it before or has a positive volume. *)
Theorem exit_signal_needs_volume
    (self : DailyBuyStrategy) (d : DataFrame) (md : Metadata) (st : State)
    (d' : DataFrame) (st' : State) (i : nat) :
  populate_exit_trend self d md st = (Ok d', st') ->
  exit_long d' !! i = Some (Some 1%Z) ->
  exit_long d !! i = Some (Some 1%Z)
  \/ exists cur, ohlcv d !! i = Some cur /\ (0 < c_volume cur)%Q.
Proof.
  intros Hrun Hexit.
  destruct (last_command_is "SELL" (commands st) md) eqn:Hcmd.
  - rewrite populate_exit_trend_manual in Hrun by done.
    injection Hrun as <- _. cbn [exit_long assign_exit] in Hexit.
    apply loc_assign_set in Hexit as [Hmask | Hold]; [right | by left].
    by apply volume_positive_lookup.
  - rewrite populate_exit_trend_default in Hrun by done.
    injection Hrun as <- _. cbn [exit_long assign_exit] in Hexit.
    apply loc_assign_set in Hexit as [Hmask | Hold]; [right | by left].
    apply vand_true in Hmask as [_ Hvolume]. by apply volume_positive_lookup.
Qed.

(** X11: when the last entry of the queue is a SELL for the current pair,
    [populate_exit_trend] marks every row with positive volume
    [exit_long = 1] with the tag 'trigger_sell' and leaves the other rows
    and the entry columns as they were; it removes every command of that
    pair from the queue and keeps the others in their order, it logs
    nothing, and the next call takes the rule path. *)
Theorem manual_sell_fires_when_last_in_queue
    (self : DailyBuyStrategy) (d : DataFrame) (md : Metadata) (st : State) :
  last_command_is "SELL" (commands st) md = true ->
  exists d' st',
    populate_exit_trend self d md st = (Ok d', st')
    /\ commands st'
       = filter (fun c => cmd_pair c <> md_pair md) (commands st)
    /\ (forall c, c ∈ commands st' <-> c ∈ commands st /\ cmd_pair c <> md_pair md)
    /\ last_command_is "SELL" (commands st') md = false
    /\ last_command_is "BUY" (commands st') md = false
    /\ log st' = log st
    /\ custom_data st' = custom_data st
    /\ enter_long d' = enter_long d
    /\ enter_tag d' = enter_tag d
    /\ (forall i v old_long old_tag,
          volume (ohlcv d) !! i = Some v ->
          exit_long d !! i = Some old_long ->
          exit_tag d !! i = Some old_tag ->
          exit_long d' !! i
          = Some (if Qlt_bool 0 v then Some 1%Z else old_long)
          /\ exit_tag d' !! i
             = Some (if Qlt_bool 0 v then Some "trigger_sell"%string
                     else old_tag)).
Proof.
  intros Hcmd. rewrite populate_exit_trend_manual by done.
  eexists _, _. split; [reflexivity |]. cbn [commands log custom_data].
  split; [done |].
  split; [intros c; rewrite without_pair_spec; tauto |].
  split; [apply last_command_is_without_pair |].
  split; [apply last_command_is_without_pair |].
  split; [done |]. split; [done |]. split; [done |]. split; [done |].
  intros i v old_long old_tag Hv Hlong Htag.
  cbn [exit_long exit_tag assign_exit].
  assert (Hmask : volume_positive d !! i = Some (Qlt_bool 0 v)).
  { unfold volume_positive. by rewrite list_lookup_fmap, Hv. }
  split; by apply loc_assign_lookup.
Qed.

(** X12: a BUY that is followed in the queue by a SELL for the same pair
    is never acted on: with the SELL last, [populate_entry_trend] takes
    the rule path and leaves the queue alone, and the [populate_exit_trend]
    that follows removes the BUY together with the SELL.  No row gets the
    tag 'trigger_buy' that did not hold it. *)
Theorem queued_buy_before_sell_is_dropped
    (self : DailyBuyStrategy) (d : DataFrame) (md : Metadata) (st : State)
    (level : string) :
  last_command_is "SELL" (commands st) md = true ->
  timeframe_hierarchy !! timeframe self = Some level ->
  exists d1 st1 d2 st2,
    populate_entry_trend self d md st = (Ok d1, st1)
    /\ commands st1 = commands st
    /\ populate_exit_trend self d1 md st1 = (Ok d2, st2)
    /\ ~ queues_buy (commands st2) md
    /\ (forall i,
          enter_tag d2 !! i = Some (Some "trigger_buy"%string) ->
          enter_tag d !! i = Some (Some "trigger_buy"%string)).
Proof.
  intros Hsell Hlevel.
  pose proof (last_command_sell_not_buy _ _ Hsell) as Hbuy.
  rewrite (populate_entry_trend_default self d md st level) by done.
  assert (Htag : forall mask i,
            loc_assign mask "multi_timeframe_cross"%string (enter_tag d) !! i
            = Some (Some "trigger_buy"%string) ->
            enter_tag d !! i = Some (Some "trigger_buy"%string)).
  { intros mask i Hi. unfold loc_assign in Hi.
    apply lookup_zip_with_Some in Hi as (m & old & Hv & _ & Hold).
    by destruct m; [| rewrite Hold, Hv]. }
  destruct (get_pair_dataframe (dp self) (md_pair md) level) as [| c cs].
  - eexists _, _, _, _. split; [reflexivity |]. split; [done |].
    split; [by apply populate_exit_trend_manual |]. cbn [commands].
    split; [by intros (c & [Hne _]%without_pair_spec & Hpair & _) |].
    intros i. cbn [enter_tag assign_exit assign_enter]. apply Htag.
  - eexists _, _, _, _. split; [reflexivity |]. split; [done |].
    split; [by apply populate_exit_trend_manual |]. cbn [commands].
    split; [by intros (c' & [Hne _]%without_pair_spec & Hpair & _) |].
    intros i. cbn [enter_tag assign_exit assign_enter]. apply Htag.
Qed.

(** The exit of the falling series: its last row is marked and has
    volume. *)
Lemma exit_signal_needs_volume_witness :
  populate_exit_trend (defaults "5m" no_data) falling_entered btc idle_logged
  = (Ok falling_exited, idle_logged)
  /\ exit_long falling_exited !! 29 = Some (Some 1%Z)
  /\ (exit_long falling_entered !! 29 = Some (Some 1%Z)
      \/ exists cur,
           ohlcv falling_entered !! 29 = Some cur /\ (0 < c_volume cur)%Q).
Proof.
  destruct falling_frame_both_signals as (_ & Hexit & _).
  split; [apply falling_frame_exited |]. split; [exact Hexit |].
  exact (exit_signal_needs_volume (defaults "5m" no_data) falling_entered btc
           idle_logged falling_exited idle_logged 29
           falling_frame_exited Hexit).
Defined.

(** A queue [BUY BTC/USD; BUY ETH/USD; SELL BTC/USD] on a halted market:
    only the command for ETH/USD is left and the row without volume is not
    marked. *)
Lemma manual_sell_fires_when_last_in_queue_witness :
  last_command_is "SELL" (commands buy_then_sell_queued) btc = true
  /\ exists d' st',
       populate_exit_trend (defaults "5m" no_data) halted_frame btc
         buy_then_sell_queued = (Ok d', st')
       /\ commands st' = [ {| cmd_pair := "ETH/USD"; cmd_command := "BUY" |} ]
       /\ exit_long d' !! 0 = Some None.
Proof.
  assert (H1 : last_command_is "SELL" (commands buy_then_sell_queued) btc = true)
    by reflexivity.
  split; [exact H1 |].
  destruct (manual_sell_fires_when_last_in_queue (defaults "5m" no_data)
              halted_frame btc buy_then_sell_queued H1)
    as (d' & st' & Hrun & Hcmds & _ & _ & _ & _ & _ & _ & _ & Hrows).
  exists d', st'. split; [exact Hrun |]. split; [rewrite Hcmds; reflexivity |].
  destruct (Hrows 0 0%Q None None) as [Hlong _]; try reflexivity.
  exact Hlong.
Defined.

(** The same queue on the falling series at '5m': the BUY for BTC/USD is
    gone after the two callbacks and was never acted on. *)
Lemma queued_buy_before_sell_is_dropped_witness :
  last_command_is "SELL" (commands buy_then_sell_queued) btc = true
  /\ timeframe_hierarchy !! timeframe (defaults "5m" no_data) = Some "15m"%string
  /\ exists d1 st1 d2 st2,
       populate_entry_trend (defaults "5m" no_data) falling_frame btc
         buy_then_sell_queued = (Ok d1, st1)
       /\ commands st1 = commands buy_then_sell_queued
       /\ populate_exit_trend (defaults "5m" no_data) d1 btc st1 = (Ok d2, st2)
       /\ ~ queues_buy (commands st2) btc
       /\ (forall i,
             enter_tag d2 !! i = Some (Some "trigger_buy"%string) ->
             enter_tag falling_frame !! i = Some (Some "trigger_buy"%string)).
Proof.
  assert (H1 : last_command_is "SELL" (commands buy_then_sell_queued) btc = true)
    by reflexivity.
  assert (H2 : timeframe_hierarchy !! timeframe (defaults "5m" no_data)
               = Some "15m"%string) by reflexivity.
  split; [exact H1 |]. split; [exact H2 |].
  exact (queued_buy_before_sell_is_dropped (defaults "5m" no_data)
           falling_frame btc buy_then_sell_queued "15m" H1 H2).
Defined.

(* ===================================================================== *)
(** * More on the exit confirmation *)
(* ===================================================================== *)

Lemma list_ascii_of_string_append (s1 s2 : string) :
  list_ascii_of_string (s1 +:+ s2)
  = list_ascii_of_string s1 ++ list_ascii_of_string s2.
Proof.
  induction s1 as [| c s1 IH].
  - by rewrite append_empty_l.
  - rewrite append_String. cbn. by rewrite IH.
Qed.

(** A text that contains a needle holds every character of the needle. *)
Lemma contains_characters (needle text : string) (c : ascii) :
  contains needle text = true ->
  c ∈ list_ascii_of_string needle -> c ∈ list_ascii_of_string text.
Proof.
  intros (before & after & ->)%contains_mentions Hc.
  rewrite !list_ascii_of_string_append, !elem_of_app. auto.
Qed.

Lemma not_contains (needle text : string) (c : ascii) :
  c ∈ list_ascii_of_string needle -> c ∉ list_ascii_of_string text ->
  contains needle text = false.
Proof.
  intros Hc Hmissing. destruct (contains needle text) eqn:Hin; [| done].
  exfalso. eauto using contains_characters.
Qed.

(** Neither [d] nor [r] occurs in the text of a custom stop-loss reason. *)
Lemma custom_stop_loss_characters (c : ascii) (text : string) :
  c = "d"%char \/ c = "r"%char ->
  float_text text ->
  c ∉ list_ascii_of_string ("custom_stop_loss_" +:+ text).
Proof.
  intros Hc Htext. rewrite list_ascii_of_string_append, elem_of_app.
  intros [Hprefix | Hfloat].
  - apply list_elem_of_In in Hprefix. cbn in Hprefix.
    destruct Hc as [-> | ->]; intuition discriminate.
  - unfold float_text in Htext. rewrite Forall_forall in Htext.
    apply Htext, list_elem_of_In in Hfloat. cbn in Hfloat.
    destruct Hc as [-> | ->]; intuition discriminate.
Qed.

(** X13: the reason [custom_exit] returns is never confirmed by
    [confirm_trade_exit]: 'custom_stop_loss_' followed by the text of a
    float mentions none of the five tags the confirmation looks for,
    whatever the profit. *)
Theorem custom_stop_loss_exit_is_never_confirmed
    (self : DailyBuyStrategy) (pair : string) (trade : Trade) (rate : Q)
    (format : Q -> string) (signal : ExitSignal) :
  (forall sl, float_text (format sl)) ->
  confirm_trade_exit self pair trade rate (exit_reason_of format signal) = false.
Proof.
  intros Hformat. destruct signal as [sl]. unfold exit_reason_of.
  pose proof (custom_stop_loss_characters "d" (format sl) (or_introl eq_refl)
                (Hformat sl)) as Hd.
  pose proof (custom_stop_loss_characters "r" (format sl) (or_intror eq_refl)
                (Hformat sl)) as Hr.
  assert (Hin : forall (c : ascii) (tag : string),
            In c (list_ascii_of_string tag) -> c ∈ list_ascii_of_string tag)
    by (intros c tag; apply list_elem_of_In).
  unfold confirm_trade_exit.
  rewrite (not_contains "macd_ema_exit" _ "d"), (not_contains "trailing" _ "r"),
    (not_contains "roi" _ "r"), (not_contains "force" _ "r"),
    (not_contains "trigger" _ "r");
    [done | | done | | done | | done | | done | | done];
    apply Hin; cbn; tauto.
Qed.

(** X14: the tag [populate_exit_trend] writes on a row decides the
    confirmation: after a manual SELL the tag is 'trigger_sell', which
    [confirm_trade_exit] confirms at any profit; on the rule path it is
    'macd_ema_exit', confirmed exactly when the profit ratio is at least
    0.005. *)
Theorem written_exit_tag_decides_confirmation
    (self : DailyBuyStrategy) (d : DataFrame) (md : Metadata) (st : State)
    (d' : DataFrame) (st' : State) (i : nat) (tag : string)
    (pair : string) (trade : Trade) (rate : Q) :
  populate_exit_trend self d md st = (Ok d', st') ->
  exit_tag d' !! i = Some (Some tag) ->
  exit_tag d !! i <> Some (Some tag) ->
  (last_command_is "SELL" (commands st) md = true ->
   tag = "trigger_sell"%string
   /\ confirm_trade_exit self pair trade rate tag = true)
  /\ (last_command_is "SELL" (commands st) md = false ->
      tag = "macd_ema_exit"%string
      /\ (confirm_trade_exit self pair trade rate tag = true
          <-> (0.005 <= calc_profit_ratio trade rate)%Q)).
Proof.
  intros Hrun Htag Hnew.
  assert (Hwritten : forall mask v,
            loc_assign mask v (exit_tag d) !! i = Some (Some tag) -> tag = v).
  { intros mask v Hi. unfold loc_assign in Hi.
    apply lookup_zip_with_Some in Hi as (m & old & Hv & _ & Hold).
    destruct m; [by injection Hv | by rewrite Hold, Hv in Hnew]. }
  split; intros Hcmd.
  - rewrite populate_exit_trend_manual in Hrun by done.
    injection Hrun as <- _. cbn [exit_tag assign_exit] in Htag.
    apply Hwritten in Htag as ->. split; [done |].
    unfold confirm_trade_exit.
    by destruct (Qle_bool 0.005 (calc_profit_ratio trade rate)).
  - rewrite populate_exit_trend_default in Hrun by done.
    injection Hrun as <- _. cbn [exit_tag assign_exit] in Htag.
    apply Hwritten in Htag as ->. split; [done |].
    unfold confirm_trade_exit. rewrite <- Qle_bool_iff.
    by destruct (Qle_bool 0.005 (calc_profit_ratio trade rate)).
Qed.

(** Trade 7 at a rate of 30 is below its stop-loss of 36: [custom_exit]
    fires, and the reason it gives is not confirmed. *)
Lemma custom_stop_loss_exit_is_never_confirmed_witness :
  (forall sl, float_text (writes_36 sl))
  /\ custom_exit (defaults "5m" no_data) "BTC/USD" trade_7 30 (-0.25) idle
     = (Ok (Some (custom_stop_loss_ 36)), idle)
  /\ confirm_trade_exit (defaults "5m" no_data) "BTC/USD" trade_7 30
       (exit_reason_of writes_36 (custom_stop_loss_ 36)) = false.
Proof.
  assert (H1 : forall sl, float_text (writes_36 sl)).
  { intros sl. unfold float_text, writes_36. cbn.
    repeat (apply Forall_cons; split;
            [apply list_elem_of_In; cbn; tauto |]).
    apply Forall_nil_2. }
  assert (H2 : custom_exit (defaults "5m" no_data) "BTC/USD" trade_7 30 (-0.25)
                 idle = (Ok (Some (custom_stop_loss_ 36)), idle))
    by reflexivity.
  split; [exact H1 |]. split; [exact H2 |].
  exact (custom_stop_loss_exit_is_never_confirmed (defaults "5m" no_data)
           "BTC/USD" trade_7 30 writes_36 (custom_stop_loss_ 36) H1).
Defined.

(** The rule exit of the falling series writes 'macd_ema_exit' on its last
    row; trade 7, bought at 40, is confirmed out at 40.4. *)
Lemma written_exit_tag_decides_confirmation_witness :
  populate_exit_trend (defaults "5m" no_data) falling_entered btc idle_logged
  = (Ok falling_exited, idle_logged)
  /\ exit_tag falling_exited !! 29 = Some (Some "macd_ema_exit"%string)
  /\ exit_tag falling_entered !! 29 <> Some (Some "macd_ema_exit"%string)
  /\ confirm_trade_exit (defaults "5m" no_data) "BTC/USD" trade_7 40.4
       "macd_ema_exit" = true.
Proof.
  assert (H2 : exit_tag falling_exited !! 29
               = Some (Some "macd_ema_exit"%string))
    by (vm_compute; reflexivity).
  assert (H3 : exit_tag falling_entered !! 29
               <> Some (Some "macd_ema_exit"%string))
    by (vm_compute; discriminate).
  split; [apply falling_frame_exited |]. split; [exact H2 |].
  split; [exact H3 |].
  destruct (written_exit_tag_decides_confirmation (defaults "5m" no_data)
              falling_entered btc idle_logged falling_exited idle_logged 29
              "macd_ema_exit" "BTC/USD" trade_7 40.4
              falling_frame_exited H2 H3) as [_ Hrule].
  destruct Hrule as [_ Hconfirm]; [reflexivity |].
  apply Hconfirm. by apply Qle_bool_iff.
Defined.

(* ===================================================================== *)
(** * More on the custom data and the DCA decision *)
(* ===================================================================== *)

Lemma set_mk_sl_run self trade rate st :
  set_mk_sl self trade rate st
  = (Ok tt,
     {| commands := commands st;
        custom_data :=
          {| cd_DCA := cd_DCA (custom_data st);
             cd_SL :=
               <[trade_id trade := (rate * new_sl_coef self)%Q]>
                 (cd_SL (custom_data st)) |};
        log := log st |}).
Proof. reflexivity. Qed.

(** The callback flattened: the checks in the order the code makes them,
    each with the result and the state it ends in. *)
Lemma adjust_trade_position_run self trade rate profit st :
  adjust_trade_position self trade rate profit st
  = let dataframe :=
      get_analyzed_dataframe (dp self) (trade_pair trade) (timeframe self) in
    let proceed :=
      if (dca_candles_modulo self =? 0)%Z then (Raise ZeroDivisionError, st)
      else if negb (last_index dataframe mod dca_candles_modulo self =? 0)%Z
      then (Ok None, st)
      else if iloc_last (resistance_signal dataframe)
      then (Ok (Some (stake_amount trade)), after_dca self trade rate st)
      else (Ok None, st) in
    match last (stored_dcas st trade) with
    | Some d =>
        if Qle_bool (d * 0.995) rate then (Ok None, st)
        else if Qle_bool (- dca_threshold self) profit then (Ok None, st)
        else if empty dataframe then (Ok None, st)
        else if Qlt_bool d rate
        then (Ok None,
              {| commands := commands st; custom_data := custom_data st;
                 log := log st ++ [Info_price_higher rate d] |})
        else proceed
    | None =>
        if Qle_bool (- dca_threshold self) profit then (Ok None, st)
        else if empty dataframe then (Ok None, st)
        else proceed
    end.
Proof.
  cbv zeta. unfold adjust_trade_position, bind.
  rewrite get_dca_list_run.
  assert (Hproceed :
    (r <- py_mod (last_index (get_analyzed_dataframe (dp self)
                                (trade_pair trade) (timeframe self)))
           (dca_candles_modulo self) ;;
     if negb (r =? 0)%Z then ret None
     else if iloc_last (resistance_signal
                          (get_analyzed_dataframe (dp self) (trade_pair trade)
                             (timeframe self)))
     then confirm_dca self rate trade ;;
          logging (Info_dca_triggered (trade_pair trade) (stake_amount trade)) ;;
          ret (Some (stake_amount trade))
     else ret None) st
    = if (dca_candles_modulo self =? 0)%Z then (Raise ZeroDivisionError, st)
      else if negb (last_index (get_analyzed_dataframe (dp self)
                                  (trade_pair trade) (timeframe self))
                    mod dca_candles_modulo self =? 0)%Z
      then (Ok None, st)
      else if iloc_last (resistance_signal
                           (get_analyzed_dataframe (dp self) (trade_pair trade)
                              (timeframe self)))
      then (Ok (Some (stake_amount trade)), after_dca self trade rate st)
      else (Ok None, st)).
  { unfold bind, py_mod.
    destruct (dca_candles_modulo self =? 0)%Z; [done |]. cbn [ret].
    destruct (negb _); [done |].
    destruct (iloc_last _); [| done].
    by rewrite confirm_dca_run. }
  destruct (last (stored_dcas st trade)) as [d |] eqn:Hlast.
  - destruct (Qle_bool (d * 0.995) rate); [done |].
    destruct (Qle_bool (- dca_threshold self) profit); [done |].
    destruct (empty _); [done |].
    rewrite get_dca_list_run, Hlast.
    destruct (Qlt_bool d rate); [done | apply Hproceed].
  - destruct (Qle_bool (- dca_threshold self) profit); [done |].
    destruct (empty _); [done |].
    rewrite get_dca_list_run, Hlast. apply Hproceed.
Qed.

(** An approval is the only way to a stake: it leaves the state
    [after_dca] describes. *)
Lemma adjust_trade_position_Some_inv self trade rate profit st a st' :
  adjust_trade_position self trade rate profit st = (Ok (Some a), st') ->
  a = stake_amount trade /\ st' = after_dca self trade rate st.
Proof.
  rewrite adjust_trade_position_run. cbv zeta.
  intros Hrun. repeat case_match; by simplify_eq.
Qed.

Lemma stored_dcas_after_dca self trade rate st :
  stored_dcas (after_dca self trade rate st) trade
  = stored_dcas st trade ++ [rate].
Proof. unfold stored_dcas at 1. cbn. by rewrite lookup_insert_eq. Qed.


(** [confirm_dca] once per rate: the rates are appended in order and the
    stop-loss follows the last one. *)
Lemma confirm_dca_each_run self rates trade st :
  exists st',
    confirm_dca_each self rates trade st = (Ok tt, st')
    /\ stored_dcas st' trade = stored_dcas st trade ++ rates
    /\ stored_sl st' trade
       = match last rates with
         | Some rate => (rate * new_sl_coef self)%Q
         | None => stored_sl st trade
         end
    /\ commands st' = commands st
    /\ log st' = log st
    /\ forall other,
         trade_id other <> trade_id trade ->
         stored_dcas st' other = stored_dcas st other
         /\ stored_sl st' other = stored_sl st other.
Proof.
  revert st. induction rates as [| rate later IH]; intros st.
  - exists st. cbn. by rewrite app_nil_r.
  - cbn [confirm_dca_each]. unfold bind. rewrite confirm_dca_run.
    set (st1 := {| commands := commands st; custom_data := _; log := log st |}).
    destruct (IH st1) as (st' & Hrun & Hdcas & Hsl & Hcmds & Hlog & Hother).
    exists st'. split; [exact Hrun |].
    assert (Hdcas1 : stored_dcas st1 trade = stored_dcas st trade ++ [rate]).
    { unfold stored_dcas at 1. cbn. by rewrite lookup_insert_eq. }
    assert (Hsl1 : stored_sl st1 trade = (rate * new_sl_coef self)%Q).
    { unfold stored_sl. cbn. by rewrite lookup_insert_eq. }
    split; [by rewrite Hdcas, Hdcas1, <- app_assoc |].
    split.
    { rewrite Hsl, Hsl1, last_cons. by destruct (last later). }
    split; [done |]. split; [done |].
    intros other Hne. destruct (Hother other Hne) as [-> ->].
    unfold stored_dcas, stored_sl. cbn.
    by rewrite !lookup_insert_ne.
Qed.

(** X15: what [set_mk_sl] stores, [get_mk_sl] returns: the rate times
    [new_sl_coef].  The stop-loss of a trade with another id, every DCA
    list, the command queue and the log are as they were. *)
Theorem set_mk_sl_then_get_mk_sl
    (self : DailyBuyStrategy) (trade other : Trade) (rate : Q) (st : State) :
  exists st',
    set_mk_sl self trade rate st = (Ok tt, st')
    /\ get_mk_sl self trade st' = (Ok (rate * new_sl_coef self)%Q, st')
    /\ (trade_id other <> trade_id trade ->
        fst (get_mk_sl self other st') = fst (get_mk_sl self other st))
    /\ fst (get_dca_list self other st') = fst (get_dca_list self other st)
    /\ commands st' = commands st
    /\ log st' = log st.
Proof.
  rewrite set_mk_sl_run. eexists. split; [reflexivity |].
  rewrite !get_mk_sl_run, !get_dca_list_run. cbn [fst commands log].
  split; [| split; [| done]].
  - f_equal. f_equal. unfold stored_sl. cbn. by rewrite lookup_insert_eq.
  - intros Hne. f_equal. unfold stored_sl. cbn. by rewrite lookup_insert_ne.
Qed.

(** X16: after [confirm_dca] has run once for each of a list of rates,
    [get_dca_list] returns the earlier list with those rates appended in
    order, and [get_mk_sl] the last rate times [new_sl_coef] (what it
    returned before when the list is empty); the command queue and the
    log are as they were. *)
Theorem confirm_dca_each_accumulates
    (self : DailyBuyStrategy) (rates : list Q) (trade : Trade) (st : State) :
  exists old sl st',
    get_dca_list self trade st = (Ok old, st)
    /\ get_mk_sl self trade st = (Ok sl, st)
    /\ confirm_dca_each self rates trade st = (Ok tt, st')
    /\ get_dca_list self trade st' = (Ok (old ++ rates), st')
    /\ get_mk_sl self trade st'
       = (Ok match last rates with
             | Some rate => (rate * new_sl_coef self)%Q
             | None => sl
             end, st')
    /\ commands st' = commands st
    /\ log st' = log st.
Proof.
  destruct (confirm_dca_each_run self rates trade st)
    as (st' & Hrun & Hdcas & Hsl & Hcmds & Hlog & _).
  exists (stored_dcas st trade), (stored_sl st trade), st'.
  rewrite !get_dca_list_run, !get_mk_sl_run, Hdcas, Hsl. by repeat split.
Qed.

(** X17: after an approved DCA at some rate, every later call for that
    trade at a rate of at least 99.5% of it is refused at the first check,
    whatever the profit, the parameters and the analysed frame of the
    later call, and nothing is written or logged. *)
Theorem dca_cooldown
    (self : DailyBuyStrategy) (trade : Trade) (rate profit : Q) (st : State)
    (stake : Q) (st' : State)
    (self' : DailyBuyStrategy) (trade' : Trade) (rate' profit' : Q) :
  adjust_trade_position self trade rate profit st = (Ok (Some stake), st') ->
  trade_id trade' = trade_id trade ->
  (rate * 0.995 <= rate')%Q ->
  adjust_trade_position self' trade' rate' profit' st' = (Ok None, st').
Proof.
  intros [_ ->]%adjust_trade_position_Some_inv Hid Hrate.
  rewrite adjust_trade_position_run. cbv zeta.
  assert (Hdcas : stored_dcas (after_dca self trade rate st) trade'
                  = stored_dcas st trade ++ [rate]).
  { rewrite <- (stored_dcas_after_dca self trade rate st).
    unfold stored_dcas. by rewrite Hid. }
  rewrite Hdcas, last_snoc.
  apply Qle_bool_iff in Hrate. by rewrite Hrate.
Qed.



(** X20: as long as the last recorded DCA price is not negative, the
    fourth check (the price is higher than the last DCA price) never
    decides: such a rate is at least 99.5% of that price and was refused
    by the first check.  So the callback never logs that message, a
    refusal leaves the whole state as it was, and the only record it ever
    logs is the one of an approved DCA. *)
Theorem price_higher_check_never_decides
    (self : DailyBuyStrategy) (trade : Trade) (rate profit : Q) (st : State)
    (res : Result (option Q)) (st' : State) :
  (forall d, last (stored_dcas st trade) = Some d -> (0 <= d)%Q) ->
  adjust_trade_position self trade rate profit st = (res, st') ->
  (forall r d, Info_price_higher r d ∈ log st' -> Info_price_higher r d ∈ log st)
  /\ (res = Ok None -> st' = st)
  /\ (log st' = log st
      \/ (res = Ok (Some (stake_amount trade))
          /\ log st'
             = log st
               ++ [Info_dca_triggered (trade_pair trade) (stake_amount trade)])).
Proof.
  intros Hprice. rewrite adjust_trade_position_run. cbv zeta.
  assert (Hsame : forall r,
            (r, st) = (res, st') ->
            (forall r d, Info_price_higher r d ∈ log st' ->
                         Info_price_higher r d ∈ log st)
            /\ (res = Ok None -> st' = st)
            /\ (log st' = log st
                \/ (res = Ok (Some (stake_amount trade))
                    /\ log st'
                       = log st
                         ++ [Info_dca_triggered (trade_pair trade)
                               (stake_amount trade)]))).
  { intros r [= <- <-]. split; [done |]. split; [done | by left]. }
  assert (Hproceed :
    (if (dca_candles_modulo self =? 0)%Z then (Raise ZeroDivisionError, st)
     else if negb (last_index (get_analyzed_dataframe (dp self)
                                 (trade_pair trade) (timeframe self))
                   mod dca_candles_modulo self =? 0)%Z
     then (Ok None, st)
     else if iloc_last (resistance_signal
                          (get_analyzed_dataframe (dp self) (trade_pair trade)
                             (timeframe self)))
     then (Ok (Some (stake_amount trade)), after_dca self trade rate st)
     else (Ok None, st)) = (res, st') ->
    (forall r d, Info_price_higher r d ∈ log st' ->
                 Info_price_higher r d ∈ log st)
    /\ (res = Ok None -> st' = st)
    /\ (log st' = log st
        \/ (res = Ok (Some (stake_amount trade))
            /\ log st'
               = log st
                 ++ [Info_dca_triggered (trade_pair trade)
                       (stake_amount trade)]))).
  { destruct (dca_candles_modulo self =? 0)%Z; [apply Hsame |].
    destruct (negb _); [apply Hsame |].
    destruct (iloc_last _); [| apply Hsame].
    intros [= <- <-]. cbn [log after_dca].
    split; [| split; [done | by right]].
    intros r d [Hin | Hin%list_elem_of_singleton]%elem_of_app; done. }
  destruct (last (stored_dcas st trade)) as [d |].
  - destruct (Qle_bool (d * 0.995) rate) eqn:H1; [apply Hsame |].
    destruct (Qle_bool (- dca_threshold self) profit); [apply Hsame |].
    destruct (empty _); [apply Hsame |].
    destruct (Qlt_bool d rate) eqn:H4; [| apply Hproceed].
    exfalso. apply Qle_bool_false_iff in H1. apply Qlt_bool_iff in H4.
    pose proof (Hprice d eq_refl). lra.
  - destruct (Qle_bool (- dca_threshold self) profit); [apply Hsame |].
    destruct (empty _); [apply Hsame |]. apply Hproceed.
Qed.

Lemma breakout_dca_approved :
  adjust_trade_position (defaults "5m" breakout_data) trade_7 34 (-0.02) idle
  = (Ok (Some (stake_amount trade_7)),
     after_dca (defaults "5m" breakout_data) trade_7 34 idle).
Proof.
  apply adjust_trade_position_approved; [discriminate |].
  apply breakout_checks_pass.
Qed.

(** After the DCA of trade 7 at 34, a call at 34 again is refused even at
    a loss of 50%, and even when the strategy now sees another frame. *)
Lemma dca_cooldown_witness :
  adjust_trade_position (defaults "5m" breakout_data) trade_7 34 (-0.02) idle
  = (Ok (Some (stake_amount trade_7)),
     after_dca (defaults "5m" breakout_data) trade_7 34 idle)
  /\ trade_id trade_7 = trade_id trade_7
  /\ (34 * 0.995 <= 34)%Q
  /\ adjust_trade_position (defaults "1h" two_candle_data) trade_7 34 (-0.5)
       (after_dca (defaults "5m" breakout_data) trade_7 34 idle)
     = (Ok None, after_dca (defaults "5m" breakout_data) trade_7 34 idle).
Proof.
  assert (H2 : (34 * 0.995 <= 34)%Q) by (by apply Qle_bool_iff).
  split; [apply breakout_dca_approved |]. split; [reflexivity |].
  split; [exact H2 |].
  exact (dca_cooldown (defaults "5m" breakout_data) trade_7 34 (-0.02) idle
           (stake_amount trade_7)
           (after_dca (defaults "5m" breakout_data) trade_7 34 idle)
           (defaults "1h" two_candle_data) trade_7 34 (-0.5)
           breakout_dca_approved eq_refl H2).
Defined.


(** After the DCA of trade 7 at 34 a call at 35 ends at the first check:
    the state is as it was and nothing is logged. *)
Lemma price_higher_check_never_decides_witness :
  (forall d,
     last (stored_dcas (after_dca (defaults "5m" breakout_data) trade_7 34 idle)
             trade_7) = Some d -> (0 <= d)%Q)
  /\ adjust_trade_position (defaults "5m" breakout_data) trade_7 35 (-0.125)
       (after_dca (defaults "5m" breakout_data) trade_7 34 idle)
     = (Ok None, after_dca (defaults "5m" breakout_data) trade_7 34 idle)
  /\ forall r d,
       Info_price_higher r d
       ∈ log (after_dca (defaults "5m" breakout_data) trade_7 34 idle) ->
       Info_price_higher r d
       ∈ log (after_dca (defaults "5m" breakout_data) trade_7 34 idle).
Proof.
  assert (H1 : forall d,
            last (stored_dcas
                    (after_dca (defaults "5m" breakout_data) trade_7 34 idle)
                    trade_7) = Some d -> (0 <= d)%Q).
  { intros d. rewrite stored_dcas_after_dca, last_snoc. by intros [= <-]. }
  assert (H2 : adjust_trade_position (defaults "5m" breakout_data) trade_7 35
                 (-0.125)
                 (after_dca (defaults "5m" breakout_data) trade_7 34 idle)
               = (Ok None,
                  after_dca (defaults "5m" breakout_data) trade_7 34 idle)).
  { rewrite adjust_trade_position_run. cbv zeta.
    by rewrite stored_dcas_after_dca, last_snoc. }
  split; [exact H1 |]. split; [exact H2 |].
  exact (proj1 (price_higher_check_never_decides
                  (defaults "5m" breakout_data) trade_7 35 (-0.125)
                  (after_dca (defaults "5m" breakout_data) trade_7 34 idle)
                  (Ok None)
                  (after_dca (defaults "5m" breakout_data) trade_7 34 idle)
                  H1 H2)).
Defined.


(* ===================================================================== *)
(** * Informative pairs and the swing levels *)
(* ===================================================================== *)

(** X21: [informative_pairs] asks for every whitelisted pair at each of
    the seven keys of [timeframe_hierarchy], seven entries a pair.  The
    level [populate_entry_trend] fetches for a timeframe is among them
    for every timeframe but '1w', whose level '1M' is not a key. *)
Theorem informative_pairs_cover_all_levels_but_1M
    (self : DailyBuyStrategy) (pairs : list string) (p tf : string) :
  ((p, tf) ∈ informative_pairs self pairs
   <-> p ∈ pairs /\ tf ∈ timeframe_hierarchy_keys)
  /\ length (informative_pairs self pairs) = 7 * length pairs
  /\ (forall level,
        timeframe_hierarchy !! tf = Some level ->
        ((p, level) ∈ informative_pairs self pairs
         <-> p ∈ pairs /\ tf <> "1w"%string)).
Proof.
  assert (Hmem : forall q t,
            (q, t) ∈ informative_pairs self pairs
            <-> q ∈ pairs /\ t ∈ timeframe_hierarchy_keys).
  { intros q t. unfold informative_pairs. rewrite list_elem_of_bind. split.
    - intros (q' & (t' & [= <- <-]%list_elem_of_singleton & Ht)%list_elem_of_bind
              & Hq). done.
    - intros [Hq Ht]. exists q. split; [| done].
      apply list_elem_of_bind. exists t. split; [| done].
      by apply list_elem_of_singleton. }
  split; [apply Hmem |]. split.
  - clear Hmem. unfold informative_pairs.
    induction pairs as [| q qs IH]; [done |].
    rewrite bind_cons, length_app, IH. cbn. lia.
  - intros level Hlevel. rewrite Hmem.
    apply elem_of_list_to_map_2 in Hlevel.
    apply list_elem_of_In in Hlevel. cbn in Hlevel.
    assert (Hkeys : forall t, t ∈ timeframe_hierarchy_keys
                              <-> In t timeframe_hierarchy_keys)
      by (intros t; apply list_elem_of_In).
    rewrite Hkeys. cbn.
    destruct Hlevel as [[= <- <-] | [[= <- <-] | [[= <- <-] | [[= <- <-] |
      [[= <- <-] | [[= <- <-] | [[= <- <-] | []]]]]]]];
      split; intros [Hp H]; (split; [exact Hp |]); try done; try tauto;
      intuition discriminate.
Qed.

Lemma foldl_Qmin_elem (xs : list Q) (x y : Q) :
  y ∈ xs -> (foldl Qmin x xs <= y)%Q.
Proof.
  revert x. induction xs as [| z zs IH]; intros x Hin.
  - by apply elem_of_nil in Hin.
  - apply elem_of_cons in Hin as [-> | Hin]; cbn.
    + apply Qle_trans with (Qmin x z); [apply foldl_Qmin_seed | apply Q.le_min_r].
    + by apply IH.
Qed.

Lemma aggregate_min_dominated (mp : nat) (win : list Q) (q y : Q) :
  aggregate Qmin mp win = Fin q -> y ∈ win -> (q <= y)%Q.
Proof.
  unfold aggregate. destruct win as [| x xs]; [discriminate |].
  destruct (mp <=? length (x :: xs))%nat; [| discriminate].
  intros [= <-] Hin. apply elem_of_cons in Hin as [-> | Hin].
  - apply foldl_Qmin_seed.
  - by apply foldl_Qmin_elem.
Qed.

(** The window of row [i] holds every row from [i - w + 1] to [i]. *)
Lemma window_at_member {A} (w i k : nat) (s : Series A) (y : A) :
  s !! k = Some y -> k <= i -> i < k + w -> i < length s ->
  y ∈ window_at w i s.
Proof.
  intros Hy Hki Hkw Hlen. unfold window_at.
  apply list_elem_of_lookup. exists (k - (S i - w)).
  rewrite lookup_drop, lookup_take_lt by lia.
  by replace (S i - w + (k - (S i - w))) with k by lia.
Qed.

Section SwingFacts.

Variable ta_MACD : OHLCV -> Series float * Series float.
Variable ta_EMA : OHLCV -> Z -> Series float.

Lemma populate_indicators_Ok_window self rows md df :
  populate_indicators ta_MACD ta_EMA self rows md = Ok df ->
  swing_min_periods self <= swing_window self.
Proof using Type.
  unfold populate_indicators, calculate_swing, calculate_pivots.
  by destruct (Nat.ltb_spec (swing_window self) (swing_min_periods self)).
Qed.

(** X22: with a swing window of at least one row, the swing levels of a
    row are NaN while fewer than [swing_min_periods] candles have been
    seen and finite from then on; the finite levels bracket every candle
    of the window, the current one included: swing_low is at most each
    low and swing_high at least each high. *)
Theorem swing_levels_bracket_window
    (self : DailyBuyStrategy) (rows : OHLCV) (md : Metadata) (df : DataFrame)
    (i : nat) :
  populate_indicators ta_MACD ta_EMA self rows md = Ok df ->
  1 <= swing_window self ->
  i < length rows ->
  (S i < swing_min_periods self ->
   swing_low df !! i = Some NaN /\ swing_high df !! i = Some NaN)
  /\ (swing_min_periods self <= S i ->
      exists lo hi,
        swing_low df !! i = Some (Fin lo)
        /\ swing_high df !! i = Some (Fin hi)
        /\ forall k candle,
             k <= i -> i < k + swing_window self ->
             rows !! k = Some candle ->
             (lo <= c_low candle /\ c_high candle <= hi)%Q).
Proof using Type.
  intros Hdf Hw Hi.
  pose proof (populate_indicators_Ok_window _ _ _ _ Hdf) as Hmp.
  pose proof (populate_indicators_columns _ _ _ _ _ _ Hdf) as (_ & Hsh & _).
  pose proof (populate_indicators_pivot_columns _ _ _ _ _ _ Hdf)
    as (_ & _ & _ & _ & _ & _ & _ & _ & Hsl & _).
  rewrite Hsl, Hsh. unfold rolling_min, rolling_max.
  assert (Hlow : i < length (low rows)) by (unfold low; by rewrite length_fmap).
  assert (Hhigh : i < length (high rows))
    by (unfold high; by rewrite length_fmap).
  rewrite !rolling_lookup by done.
  set (w := swing_window self) in *. set (mp := swing_min_periods self) in *.
  split.
  - intros Hwarm.
    assert (Hnan : forall pick (s : Series Q),
              i < length s -> aggregate pick mp (window_at w i s) = NaN).
    { intros pick s Hs.
      destruct (aggregate_finite_or_nan pick mp (window_at w i s))
        as [-> | Hfin]; [done |].
      apply aggregate_finite_iff in Hfin as [_ Hlen].
      rewrite window_at_length in Hlen by done. lia. }
    by rewrite !Hnan.
  - intros Hready.
    assert (Hfin : forall pick (s : Series Q),
              i < length s ->
              exists q, aggregate pick mp (window_at w i s) = Fin q).
    { intros pick s Hs. apply aggregate_finite_iff.
      rewrite window_at_length by done. lia. }
    destruct (Hfin Qmin (low rows) Hlow) as [lo Hlo].
    destruct (Hfin Qmax (high rows) Hhigh) as [hi Hhi].
    exists lo, hi. rewrite Hlo, Hhi. split; [done |]. split; [done |].
    intros k candle Hki Hkw Hk. split.
    + apply (aggregate_min_dominated mp (window_at w i (low rows))); [done |].
      apply (window_at_member w i k); [| done | done | done].
      unfold low. by rewrite list_lookup_fmap, Hk.
    + apply (aggregate_max_dominates mp (window_at w i (high rows))); [done |].
      apply (window_at_member w i k); [| done | done | done].
      unfold high. by rewrite list_lookup_fmap, Hk.
Qed.

End SwingFacts.

(** Under the defaults the falling series has swing levels from its tenth
    row on. *)
Lemma swing_levels_bracket_window_witness :
  populate_indicators warmup_MACD warmup_EMA (defaults "5m" no_data)
    falling_then_uptick btc = Ok falling_frame
  /\ 1 <= swing_window (defaults "5m" no_data)
  /\ 29 < length falling_then_uptick
  /\ swing_high falling_frame !! 8 = Some NaN
  /\ exists lo hi,
       swing_low falling_frame !! 29 = Some (Fin lo)
       /\ swing_high falling_frame !! 29 = Some (Fin hi)
       /\ (lo <= 33 /\ 35 <= hi)%Q.
Proof.
  assert (Hw : 1 <= swing_window (defaults "5m" no_data)) by (cbn; lia).
  assert (H8 : 8 < length falling_then_uptick) by (vm_compute; lia).
  assert (H29 : 29 < length falling_then_uptick) by (vm_compute; lia).
  split; [apply falling_frame_computed |]. split; [exact Hw |].
  split; [exact H29 |]. split.
  - destruct (swing_levels_bracket_window warmup_MACD warmup_EMA
                (defaults "5m" no_data) falling_then_uptick btc falling_frame 8
                falling_frame_computed Hw H8) as [Hwarm _].
    apply Hwarm. cbn. lia.
  - destruct (swing_levels_bracket_window warmup_MACD warmup_EMA
                (defaults "5m" no_data) falling_then_uptick btc falling_frame 29
                falling_frame_computed Hw H29) as [_ Hready].
    destruct Hready as (lo & hi & Hlo & Hhi & Hbracket); [cbn; lia |].
    exists lo, hi. split; [exact Hlo |]. split; [exact Hhi |].
    apply (Hbracket 29 (candle_at 34)); [lia | cbn; lia |].
    vm_compute. reflexivity.
Defined.


(* ===================================================================== *)
(** * The arithmetic columns under rounding *)
(* ===================================================================== *)

Lemma round_to_identity (x : float) : round_to (fun q => q) x = x.
Proof. by destruct x. Qed.

(** The exact columns are the rounded ones under the identity rounding. *)
Lemma populate_indicators_rounded_identity
    (ta_MACD : OHLCV -> Series float * Series float)
    (ta_EMA : OHLCV -> Z -> Series float)
    (self : DailyBuyStrategy) (rows : OHLCV) (md : Metadata) :
  populate_indicators_rounded (fun q => q) ta_MACD ta_EMA self rows md
  = populate_indicators ta_MACD ta_EMA self rows md.
Proof.
  assert (Hzip : forall (f : float -> float -> float) (xs ys : Series float),
            zip_with (fun x y => round_to (fun q => q) (f x y)) xs ys
            = zip_with f xs ys).
  { intros f xs ys. apply zip_with_ext; [| done | done].
    intros x y. apply round_to_identity. }
  assert (Hmap : forall (f : float -> float) (xs : Series float),
            (fun x => round_to (fun q => q) (f x)) <$> xs = f <$> xs).
  { intros f xs. apply list_fmap_ext. intros _ x _. apply round_to_identity. }
  unfold populate_indicators_rounded, populate_indicators,
    calculate_pivots_rounded, calculate_pivots,
    vadd_rounded, vsub_rounded, vdiv_rounded, vscale_rounded, vunscale_rounded,
    vadd, vsub, vdiv, vscale, vunscale,
    fadd_rounded, fsub_rounded, fmul_rounded, fdiv_rounded.
  by rewrite !Hzip, !Hmap.
Qed.

(** The identity is a rounding without error, and [inflate] one with an
    error of a thousandth. *)
Lemma identity_rounding : rounding (fun q => q) 0.
Proof.
  split; cbv beta.
  - done.
  - done.
  - intros x. reflexivity.
  - intros x Hx. split; lra.
  - split; [apply Qle_refl | reflexivity].
Qed.

Lemma inflate_rounding : rounding inflate 0.001.
Proof.
  unfold inflate. split.
  - intros x y Hxy. by rewrite Hxy.
  - intros x y Hxy. lra.
  - intros x. ring.
  - intros x Hx. split; lra.
  - split; [by apply Qle_bool_iff | reflexivity].
Qed.

Lemma rnd_zero rnd eps : rounding rnd eps -> (rnd 0 == 0)%Q.
Proof.
  intros Hr. pose proof (rnd_odd _ _ Hr 0) as Hodd.
  assert (Hsame : (rnd (- 0) == rnd 0)%Q) by (by apply (rnd_compat _ _ Hr)).
  lra.
Qed.

Lemma rnd_opp rnd eps (x : Q) : rounding rnd eps -> (rnd x == - rnd (- x))%Q.
Proof.
  intros Hr. pose proof (rnd_odd _ _ Hr (- x)) as Hodd.
  assert (Hsame : (rnd (- - x) == rnd x)%Q)
    by (apply (rnd_compat _ _ Hr); ring).
  lra.
Qed.

Lemma rnd_nonneg rnd eps (x : Q) :
  rounding rnd eps -> (0 <= x -> 0 <= rnd x)%Q.
Proof.
  intros Hr Hx. pose proof (rnd_zero _ _ Hr).
  pose proof (rnd_monotone _ _ Hr 0 x Hx). lra.
Qed.

Lemma rnd_nonpos rnd eps (x : Q) :
  rounding rnd eps -> (x <= 0 -> rnd x <= 0)%Q.
Proof.
  intros Hr Hx. pose proof (rnd_zero _ _ Hr).
  pose proof (rnd_monotone _ _ Hr x 0 Hx). lra.
Qed.

(** A rounding with a relative error below 1 keeps the sign. *)
Lemma rnd_pos rnd eps (x : Q) : rounding rnd eps -> (0 < x -> 0 < rnd x)%Q.
Proof.
  intros Hr Hx. destruct (eps_range _ _ Hr) as [_ Heps].
  destruct (rnd_error _ _ Hr x) as [Hlo _]; [lra |].
  assert (Hprod : (0 < x * (1 - eps))%Q) by (apply Qmult_lt_0_compat; lra).
  lra.
Qed.

Lemma rnd_neg rnd eps (x : Q) : rounding rnd eps -> (x < 0 -> rnd x < 0)%Q.
Proof.
  intros Hr Hx. pose proof (rnd_opp _ _ x Hr).
  assert (Hpos : (0 < rnd (- x))%Q) by (apply (rnd_pos _ eps); [done | lra]).
  lra.
Qed.

Lemma rnd_pos_iff rnd eps (x : Q) : rounding rnd eps -> (0 < rnd x <-> 0 < x)%Q.
Proof.
  intros Hr. split; [| by apply (rnd_pos _ eps)].
  intros Hpos. destruct (Qlt_le_dec 0 x) as [? | Hle]; [done |].
  pose proof (rnd_nonpos _ _ x Hr Hle). lra.
Qed.

Lemma rnd_neg_iff rnd eps (x : Q) : rounding rnd eps -> (rnd x < 0 <-> x < 0)%Q.
Proof.
  intros Hr. split; [| by apply (rnd_neg _ eps)].
  intros Hneg. destruct (Qlt_le_dec x 0) as [? | Hle]; [done |].
  pose proof (rnd_nonneg _ _ x Hr Hle). lra.
Qed.

(** A value within [-B, B] rounds to a value within [-B(1+eps), B(1+eps)]. *)
Lemma rnd_within rnd eps (x B : Q) :
  rounding rnd eps ->
  (- B <= x -> x <= B ->
   - (B * (1 + eps)) <= rnd x /\ rnd x <= B * (1 + eps))%Q.
Proof.
  intros Hr Hlo Hhi.
  assert (HB : (0 <= B)%Q) by lra.
  destruct (rnd_error _ _ Hr B HB) as [_ Hup].
  pose proof (rnd_monotone _ _ Hr x B Hhi).
  pose proof (rnd_monotone _ _ Hr (- B) x Hlo).
  pose proof (rnd_odd _ _ Hr B).
  split; lra.
Qed.

(** A rounded difference or sum is finite only when both operands are. *)
Lemma fsub_rounded_Fin_inv rnd (x y : float) (d : Q) :
  fsub_rounded rnd x y = Fin d ->
  exists a b, x = Fin a /\ y = Fin b /\ d = rnd (a + - b)%Q.
Proof.
  unfold fsub_rounded.
  destruct x as [a| | |], y as [b| | |]; cbn; try discriminate.
  intros [= <-]. eauto.
Qed.

Lemma fadd_rounded_Fin_inv rnd (x y : float) (d : Q) :
  fadd_rounded rnd x y = Fin d ->
  exists a b, x = Fin a /\ y = Fin b /\ d = rnd (a + b)%Q.
Proof.
  unfold fadd_rounded.
  destruct x as [a| | |], y as [b| | |]; cbn; try discriminate.
  intros [= <-]. eauto.
Qed.

(** The TTF of a row whose powers are finite with a non-zero rounded
    sum: four operations, four roundings. *)
Lemma ttf_value_rounded rnd (b s : Q) :
  ~ (rnd (b + s) == 0)%Q ->
  fdiv_rounded rnd
    (fmul_rounded rnd (of_Z 200) (fsub_rounded rnd (Fin b) (Fin s)))
    (fadd_rounded rnd (Fin b) (Fin s))
  = Fin (rnd (rnd (inject_Z 200 * rnd (b + - s)) / rnd (b + s)))%Q.
Proof.
  intros Hne. unfold fdiv_rounded, fmul_rounded, fsub_rounded, fadd_rounded.
  cbn. by apply Qeq_bool_false_iff in Hne as ->.
Qed.

(** Two rationals whose product is not negative are both non-negative or
    both non-positive. *)
Lemma same_sign_cases (b s : Q) :
  (0 <= b * s -> (0 <= b /\ 0 <= s) \/ (b <= 0 /\ s <= 0))%Q.
Proof.
  intros Hprod.
  destruct (Qlt_le_dec b 0) as [Hb | Hb], (Qlt_le_dec s 0) as [Hs | Hs].
  - right. split; lra.
  - destruct (Qle_lt_or_eq _ _ Hs) as [Hs' | Hs']; [| right; split; lra].
    exfalso. nra.
  - destruct (Qle_lt_or_eq _ _ Hb) as [Hb' | Hb']; [| right; split; lra].
    exfalso. nra.
  - by left.
Qed.

(** The quotient of a numerator within [-B|d|, B|d|] by [d] lies within
    [-B, B]. *)
Lemma quotient_within (m d B : Q) :
  (0 < d -> - (B * d) <= m -> m <= B * d -> - B <= m / d /\ m / d <= B)%Q.
Proof.
  intros Hd Hlo Hhi.
  assert (Hq : (m / d * d == m)%Q) by (field; lra).
  rewrite <- (Qmult_le_r (- B) (m / d) d Hd),
          <- (Qmult_le_r (m / d) B d Hd), Hq.
  split; lra.
Qed.

Section RoundedFacts.

Variable rnd : Q -> Q.
Variable eps : Q.
Variable ta_MACD : OHLCV -> Series float * Series float.
Variable ta_EMA : OHLCV -> Z -> Series float.

Lemma populate_indicators_rounded_columns self rows md df :
  populate_indicators_rounded rnd ta_MACD ta_EMA self rows md = Ok df ->
  hh df = rolling_max (lookback_length self) (lookback_length self) (close rows)
  /\ ll df = rolling_min (lookback_length self) (lookback_length self) (close rows)
  /\ buyPower df = vsub_rounded rnd (hh df) (shift (lookback_length self) (ll df))
  /\ sellPower df = vsub_rounded rnd (shift (lookback_length self) (hh df)) (ll df)
  /\ ttf df
     = vdiv_rounded rnd
         (vscale_rounded rnd (of_Z 200)
            (vsub_rounded rnd (buyPower df) (sellPower df)))
         (vadd_rounded rnd (buyPower df) (sellPower df))
  /\ pivot_point df = fst (fst (calculate_pivots_rounded rnd rows))
  /\ resistance_1 df = snd (fst (calculate_pivots_rounded rnd rows))
  /\ support_1 df = snd (calculate_pivots_rounded rnd rows).
Proof using Type.
  unfold populate_indicators_rounded, calculate_swing, calculate_pivots_rounded.
  destruct (swing_window self <? swing_min_periods self)%nat; [discriminate |].
  intros [= <-]. cbn. repeat split.
Qed.

(** The TTF of a row with finite powers and a non-zero rounded sum. *)
Lemma ttf_row_rounded self rows md df (i : nat) (b s : Q) :
  populate_indicators_rounded rnd ta_MACD ta_EMA self rows md = Ok df ->
  buyPower df !! i = Some (Fin b) ->
  sellPower df !! i = Some (Fin s) ->
  ~ (rnd (b + s) == 0)%Q ->
  ttf df !! i
  = Some (Fin (rnd (rnd (inject_Z 200 * rnd (b + - s)) / rnd (b + s)))%Q).
Proof using Type.
  intros Hdf Hb Hs Hne.
  apply populate_indicators_rounded_columns in Hdf
    as (_ & _ & _ & _ & Httf & _).
  rewrite Httf.
  unfold vdiv_rounded, vscale_rounded, vsub_rounded, vadd_rounded.
  rewrite lookup_zip_with, list_lookup_fmap, !lookup_zip_with, Hb, Hs.
  cbn [mbind option_bind fmap option_fmap option_map].
  f_equal. by apply ttf_value_rounded.
Qed.

(** C1 (as amended): computed with any rounding of relative error at most
    [eps], on a row whose buyPower + sellPower is finite and not zero the
    TTF is the finite value the four rounded operations give, and when
    the two powers do not have opposite signs it lies within
    200 (1 + eps)^2 of zero: within [-200, 200] in exact arithmetic
    ([eps] = 0), and beyond it by no more than two roundings in doubles.
    Powers of opposite signs are not bounded this way. *)
Theorem ttf_within_band_up_to_rounding
    (self : DailyBuyStrategy) (rows : OHLCV) (md : Metadata)
    (df : DataFrame) (i : nat) (d : Q) :
  rounding rnd eps ->
  populate_indicators_rounded rnd ta_MACD ta_EMA self rows md = Ok df ->
  vadd_rounded rnd (buyPower df) (sellPower df) !! i = Some (Fin d) ->
  ~ (d == 0)%Q ->
  exists b s t,
    buyPower df !! i = Some (Fin b)
    /\ sellPower df !! i = Some (Fin s)
    /\ ttf df !! i = Some (Fin t)
    /\ t = rnd (rnd (inject_Z 200 * rnd (b + - s)) / d)%Q
    /\ ((0 <= b * s)%Q ->
        (- (200 * (1 + eps) * (1 + eps)) <= t
         /\ t <= 200 * (1 + eps) * (1 + eps))%Q).
Proof using Type.
  intros Hr Hdf Hsum Hne.
  unfold vadd_rounded in Hsum.
  apply lookup_zip_with_Some in Hsum as (x & y & Hd & Hx & Hy).
  symmetry in Hd. apply fadd_rounded_Fin_inv in Hd as (b & s & -> & -> & ->).
  exists b, s, (rnd (rnd (inject_Z 200 * rnd (b + - s)) / rnd (b + s)))%Q.
  split; [done |]. split; [done |].
  split; [by eapply ttf_row_rounded |]. split; [done |].
  intros Hsign.
  destruct (eps_range _ _ Hr) as [Heps _].
  set (n := rnd (b + - s)%Q) in *. set (d := rnd (b + s)%Q) in *.
  set (m := rnd (inject_Z 200 * n)%Q).
  change (inject_Z 200) with 200%Q in *.
  (* the numerator difference does not exceed the sum in magnitude *)
  assert (Hn : ((0 < d /\ - d <= n /\ n <= d)
                \/ (d < 0 /\ d <= n /\ n <= - d))%Q).
  { destruct (same_sign_cases b s Hsign) as [[Hb Hs] | [Hb Hs]].
    - left.
      assert (Hd0 : (0 <= d)%Q) by (apply (rnd_nonneg _ eps); [done | lra]).
      split; [apply Qle_lt_or_eq in Hd0 as [? | Hz]; [done |];
              exfalso; apply Hne; by symmetry |].
      pose proof (rnd_monotone _ _ Hr (b + - s) (b + s)) as Hup.
      pose proof (rnd_monotone _ _ Hr (- (b + s)) (b + - s)) as Hdown.
      pose proof (rnd_odd _ _ Hr (b + s)) as Hodd.
      fold d in Hup, Hodd. fold n in Hup, Hdown.
      split; [rewrite <- Hodd; apply Hdown; lra | apply Hup; lra].
    - right.
      assert (Hd0 : (d <= 0)%Q) by (apply (rnd_nonpos _ eps); [done | lra]).
      split; [apply Qle_lt_or_eq in Hd0 as [? | Hz]; [done |];
              exfalso; by apply Hne |].
      pose proof (rnd_monotone _ _ Hr (b + s) (b + - s)) as Hdown.
      pose proof (rnd_monotone _ _ Hr (b + - s) (- (b + s))) as Hup.
      pose proof (rnd_odd _ _ Hr (b + s)) as Hodd.
      fold d in Hdown, Hodd. fold n in Hup, Hdown.
      split; [apply Hdown; lra | rewrite <- Hodd; apply Hup; lra]. }
  destruct Hn as [(Hd & Hlo & Hhi) | (Hd & Hlo & Hhi)].
  - destruct (rnd_within rnd eps (200 * n) (200 * d) Hr) as [Hmlo Hmhi];
      [lra | lra |]. fold m in Hmlo, Hmhi.
    destruct (quotient_within m d (200 * (1 + eps)) Hd) as [Hqlo Hqhi];
      [lra | lra |].
    destruct (rnd_within rnd eps (m / d) (200 * (1 + eps)) Hr Hqlo Hqhi).
    split; lra.
  - destruct (rnd_within rnd eps (200 * n) (200 * - d) Hr) as [Hmlo Hmhi];
      [lra | lra |]. fold m in Hmlo, Hmhi.
    assert (Hd' : (0 < - d)%Q) by lra.
    destruct (quotient_within (- m) (- d) (200 * (1 + eps)) Hd')
      as [Hqlo Hqhi]; [lra | lra |].
    assert (Hq : (- m / - d == m / d)%Q) by (field; lra).
    rewrite Hq in Hqlo, Hqhi.
    destruct (rnd_within rnd eps (m / d) (200 * (1 + eps)) Hr Hqlo Hqhi).
    split; lra.
Qed.

End RoundedFacts.

(** The pivot levels of a row under rounding: the previous candle's high,
    low and close, combined in the order the code writes them. *)
Lemma pivot_row_rounded rnd (rows : OHLCV) (j : nat) (prev cur : Candle) :
  rows !! j = Some prev -> rows !! S j = Some cur ->
  let p := rnd (rnd (rnd (c_high prev + c_low prev) + c_close prev)
                / inject_Z 3)%Q in
  fst (fst (calculate_pivots_rounded rnd rows)) !! S j = Some (Fin p)
  /\ snd (fst (calculate_pivots_rounded rnd rows)) !! S j
     = Some (Fin (rnd (rnd (inject_Z 2 * p) + - c_low prev)%Q))
  /\ snd (calculate_pivots_rounded rnd rows) !! S j
     = Some (Fin (rnd (rnd (inject_Z 2 * p) + - c_high prev)%Q)).
Proof.
  intros Hprev Hcur.
  assert (Hlen : S j < length rows) by (by eapply lookup_lt_Some).
  assert (Hshift : forall f : Candle -> Q,
    shift 1 (floats (f <$> rows)) !! S j = Some (Fin (f prev))).
  { intros f. apply shift_lookup_S.
    - unfold floats. by rewrite !list_lookup_fmap, Hprev.
    - unfold floats. by rewrite !length_fmap. }
  unfold calculate_pivots_rounded, high, low, close. cbn [fst snd].
  unfold vsub_rounded, vscale_rounded, vunscale_rounded, vadd_rounded.
  rewrite !lookup_zip_with, !list_lookup_fmap, !lookup_zip_with, !Hshift.
  done.
Qed.

Lemma pivot_row_0_rounded rnd (rows : OHLCV) :
  rows <> [] ->
  fst (fst (calculate_pivots_rounded rnd rows)) !! 0 = Some NaN
  /\ snd (fst (calculate_pivots_rounded rnd rows)) !! 0 = Some NaN
  /\ snd (calculate_pivots_rounded rnd rows) !! 0 = Some NaN.
Proof.
  intros Hrows.
  assert (Hshift : forall f : Candle -> Q,
    shift 1 (floats (f <$> rows)) !! 0 = Some NaN).
  { intros f. apply shift_lookup_warm_up; [lia |].
    unfold floats. rewrite !length_fmap. destruct rows; [done | cbn; lia]. }
  unfold calculate_pivots_rounded, high, low, close. cbn [fst snd].
  unfold vsub_rounded, vscale_rounded, vunscale_rounded, vadd_rounded.
  rewrite !lookup_zip_with, !list_lookup_fmap, !lookup_zip_with, !Hshift.
  done.
Qed.

(** Three roundings of a mean of three non-negative prices stay within
    the smallest and the largest of them, up to the three errors. *)
Lemma rounded_mean_within rnd eps (h l c : Q) :
  rounding rnd eps ->
  (0 <= l -> l <= c -> c <= h ->
   l * (1 - eps) * (1 - eps) * (1 - eps)
   <= rnd (rnd (rnd (h + l) + c) / 3)
   /\ rnd (rnd (rnd (h + l) + c) / 3)
      <= h * (1 + eps) * (1 + eps) * (1 + eps))%Q.
Proof.
  intros Hr Hl Hlc Hch.
  destruct (eps_range _ _ Hr) as [Heps0 Heps1].
  assert (Ha1 : (0 <= rnd (h + l))%Q)
    by (apply (rnd_nonneg _ eps); [done | lra]).
  destruct (rnd_error _ _ Hr (h + l)%Q) as [H1lo H1hi]; [lra |].
  remember (rnd (h + l)%Q) as a1 eqn:Ea1. clear Ea1.
  assert (Ha2 : (0 <= rnd (a1 + c))%Q)
    by (apply (rnd_nonneg _ eps); [done | lra]).
  destruct (rnd_error _ _ Hr (a1 + c)%Q) as [H2lo H2hi]; [lra |].
  remember (rnd (a1 + c)%Q) as a2 eqn:Ea2. clear Ea2.
  assert (Hq3 : (a2 / 3 * 3 == a2)%Q) by field.
  remember (a2 / 3)%Q as q3 eqn:Eq3. clear Eq3.
  destruct (rnd_error _ _ Hr q3) as [H3lo H3hi]; [lra |].
  remember (rnd q3) as a3 eqn:Ea3. clear Ea3.
  split.
  - (* from below: every step loses at most a factor 1 - eps *)
    set (D := (1 - eps)%Q) in *.
    assert (HD0 : (0 < D)%Q) by (unfold D; lra).
    assert (HD1 : (D <= 1)%Q) by (unfold D; lra).
    assert (Hc : (c * D <= c)%Q) by nra.
    assert (Hs1 : ((h + l + c) * D <= a1 + c)%Q) by lra.
    assert (Hs2 : ((h + l + c) * D * D <= a2)%Q).
    { apply Qle_trans with ((a1 + c) * D)%Q; [| done].
      apply Qmult_le_compat_r; lra. }
    assert (Hs3 : ((h + l + c) * D * D * D <= a3 * 3)%Q).
    { apply Qle_trans with (a2 * D)%Q; [apply Qmult_le_compat_r; lra |].
      rewrite <- Hq3. lra. }
    assert (Hmin : (l * 3 * D * D * D <= (h + l + c) * D * D * D)%Q).
    { repeat (apply Qmult_le_compat_r; [| lra]). lra. }
    lra.
  - set (U := (1 + eps)%Q) in *.
    assert (HU1 : (1 <= U)%Q) by (unfold U; lra).
    assert (Hc : (c <= c * U)%Q) by nra.
    assert (Hs1 : (a1 + c <= (h + l + c) * U)%Q) by lra.
    assert (Hs2 : (a2 <= (h + l + c) * U * U)%Q).
    { apply Qle_trans with ((a1 + c) * U)%Q; [done |].
      apply Qmult_le_compat_r; lra. }
    assert (Hs3 : (a3 * 3 <= (h + l + c) * U * U * U)%Q).
    { apply Qle_trans with (a2 * U)%Q; [| apply Qmult_le_compat_r; lra].
      rewrite <- Hq3. lra. }
    assert (Hmax : ((h + l + c) * U * U * U <= h * 3 * U * U * U)%Q).
    { repeat (apply Qmult_le_compat_r; [| lra]). lra. }
    lra.
Qed.

Section RoundedRowFacts.

Variable rnd : Q -> Q.
Variable eps : Q.
Variable ta_MACD : OHLCV -> Series float * Series float.
Variable ta_EMA : OHLCV -> Z -> Series float.

(** Finite rounded powers on a row are rounded differences of rolling
    extremes of two windows, each with its minimum below its maximum. *)
Lemma power_rows_rounded self rows md df (i : nat) (b s : Q) :
  populate_indicators_rounded rnd ta_MACD ta_EMA self rows md = Ok df ->
  buyPower df !! i = Some (Fin b) ->
  sellPower df !! i = Some (Fin s) ->
  exists h1 l1 h0 l0 : Q,
    b = rnd (h1 + - l0)%Q /\ s = rnd (h0 + - l1)%Q
    /\ (l1 <= h1)%Q /\ (l0 <= h0)%Q.
Proof using Type.
  intros Hdf Hb Hs.
  apply populate_indicators_rounded_columns in Hdf
    as (Hhh & Hll & Hbuy & Hsell & _).
  rewrite Hbuy in Hb. rewrite Hsell in Hs. unfold vsub_rounded in Hb, Hs.
  apply lookup_zip_with_Some in Hb as (x1 & y0 & Hb & Hx1 & Hy0).
  apply lookup_zip_with_Some in Hs as (x0 & y1 & Hs & Hx0 & Hy1).
  symmetry in Hb, Hs.
  apply fsub_rounded_Fin_inv in Hb as (h1 & l0 & -> & -> & ->).
  apply fsub_rounded_Fin_inv in Hs as (h0 & l1 & -> & -> & ->).
  rewrite shift_lookup in Hy0, Hx0.
  destruct (decide (i < length (ll df))); [| done].
  destruct (decide (i < length (hh df))); [| done].
  destruct (decide (i < lookback_length self)); [done |].
  rewrite Hhh in Hx1, Hx0. rewrite Hll in Hy1, Hy0.
  exists h1, l1, h0, l0. split; [done |]. split; [done |].
  split; eapply rolling_min_le_max; eassumption.
Qed.

(** X6: computed with any rounding, buyPower + sellPower is never
    negative on a row where both are finite, and neither is its rounded
    value, the denominator of the TTF.  Where that denominator is not
    zero the TTF is finite and has the sign of buyPower - sellPower: it is
    positive exactly when buyPower exceeds sellPower and negative exactly
    when sellPower exceeds buyPower. *)
Theorem power_sum_never_negative_under_rounding
    (self : DailyBuyStrategy) (rows : OHLCV) (md : Metadata) (df : DataFrame)
    (i : nat) (b s : Q) :
  rounding rnd eps ->
  populate_indicators_rounded rnd ta_MACD ta_EMA self rows md = Ok df ->
  buyPower df !! i = Some (Fin b) ->
  sellPower df !! i = Some (Fin s) ->
  (0 <= b + s)%Q
  /\ (0 <= rnd (b + s)%Q)%Q
  /\ (~ (rnd (b + s)%Q == 0)%Q ->
      exists t,
        ttf df !! i = Some (Fin t)
        /\ ((0 < t)%Q <-> (s < b)%Q)
        /\ ((t < 0)%Q <-> (b < s)%Q)).
Proof using Type.
  intros Hr Hdf Hb Hs.
  destruct (power_rows_rounded _ _ _ _ _ _ _ Hdf Hb Hs)
    as (h1 & l1 & h0 & l0 & Hbv & Hsv & H1 & H0).
  assert (Hsum : (0 <= b + s)%Q).
  { pose proof (rnd_monotone _ _ Hr (l1 + - l0)%Q (h1 + - l0)%Q) as Hbuy.
    pose proof (rnd_monotone _ _ Hr (l0 + - l1)%Q (h0 + - l1)%Q) as Hsell.
    pose proof (rnd_odd _ _ Hr (l1 + - l0)%Q) as Hodd.
    assert (Hflip : (rnd (- (l1 + - l0)) == rnd (l0 + - l1))%Q)
      by (apply (rnd_compat _ _ Hr); ring).
    rewrite Hbv, Hsv.
    assert (rnd (l1 + - l0) <= rnd (h1 + - l0))%Q by (apply Hbuy; lra).
    assert (rnd (l0 + - l1) <= rnd (h0 + - l1))%Q by (apply Hsell; lra).
    lra. }
  assert (Hd : (0 <= rnd (b + s)%Q)%Q) by (by apply (rnd_nonneg _ eps)).
  split; [exact Hsum |]. split; [exact Hd |]. intros Hne.
  exists (rnd (rnd (inject_Z 200 * rnd (b + - s)) / rnd (b + s)))%Q.
  split; [by eapply ttf_row_rounded |].
  set (d := rnd (b + s)%Q) in *. set (n := rnd (b + - s)%Q).
  set (m := rnd (inject_Z 200 * n)%Q).
  change (inject_Z 200) with 200%Q in *.
  assert (Hdpos : (0 < d)%Q).
  { apply Qle_lt_or_eq in Hd as [? | Hz]; [done |].
    exfalso. apply Hne. by symmetry. }
  assert (Hq : (m / d * d == m)%Q) by (field; lra).
  assert (Hqpos : (0 < m / d <-> 0 < m)%Q).
  { rewrite <- (Qmult_lt_r 0 (m / d) d Hdpos), Hq. split; intros ?; lra. }
  assert (Hqneg : (m / d < 0 <-> m < 0)%Q).
  { rewrite <- (Qmult_lt_r (m / d) 0 d Hdpos), Hq. split; intros ?; lra. }
  split.
  - rewrite (rnd_pos_iff _ eps _ Hr), Hqpos. unfold m.
    rewrite (rnd_pos_iff _ eps _ Hr).
    assert (Hn : (0 < 200 * n <-> 0 < n)%Q) by (split; intros ?; lra).
    rewrite Hn. unfold n. rewrite (rnd_pos_iff _ eps _ Hr).
    split; intros ?; lra.
  - rewrite (rnd_neg_iff _ eps _ Hr), Hqneg. unfold m.
    rewrite (rnd_neg_iff _ eps _ Hr).
    assert (Hn : (200 * n < 0 <-> n < 0)%Q) by (split; intros ?; lra).
    rewrite Hn. unfold n. rewrite (rnd_neg_iff _ eps _ Hr).
    split; intros ?; lra.
Qed.

(** X2: computed with any rounding of relative error at most [eps], on
    every row but the first the pivot point is the rounded mean of the
    previous candle's high, low and close, R1 the rounded twice-pivot
    minus the previous low and S1 the rounded twice-pivot minus the
    previous high, each operation rounded in the order the code writes
    it.  S1 never exceeds R1 when the previous low does not exceed the
    previous high, and for non-negative prices with the close between low
    and high the pivot lies between low (1 - eps)^3 and high (1 + eps)^3:
    inside the candle in exact arithmetic, and outside it by no more than
    three roundings in doubles.  On the first row the three levels are
    NaN. *)
Theorem pivot_levels_under_rounding
    (self : DailyBuyStrategy) (rows : OHLCV) (md : Metadata) (df : DataFrame)
    (j : nat) (prev cur : Candle) :
  rounding rnd eps ->
  populate_indicators_rounded rnd ta_MACD ta_EMA self rows md = Ok df ->
  rows !! j = Some prev ->
  rows !! S j = Some cur ->
  (exists p r s,
     pivot_point df !! S j = Some (Fin p)
     /\ resistance_1 df !! S j = Some (Fin r)
     /\ support_1 df !! S j = Some (Fin s)
     /\ p = rnd (rnd (rnd (c_high prev + c_low prev) + c_close prev) / 3)%Q
     /\ r = rnd (rnd (2 * p) + - c_low prev)%Q
     /\ s = rnd (rnd (2 * p) + - c_high prev)%Q
     /\ ((c_low prev <= c_high prev)%Q -> (s <= r)%Q)
     /\ ((0 <= c_low prev /\ c_low prev <= c_close prev
          /\ c_close prev <= c_high prev)%Q ->
         (c_low prev * (1 - eps) * (1 - eps) * (1 - eps) <= p
          /\ p <= c_high prev * (1 + eps) * (1 + eps) * (1 + eps))%Q))
  /\ pivot_point df !! 0 = Some NaN
  /\ resistance_1 df !! 0 = Some NaN
  /\ support_1 df !! 0 = Some NaN.
Proof using Type.
  intros Hr Hdf Hprev Hcur.
  apply populate_indicators_rounded_columns in Hdf
    as (_ & _ & _ & _ & _ & -> & -> & ->).
  destruct (pivot_row_rounded rnd rows j prev cur Hprev Hcur) as (-> & -> & ->).
  assert (Hrows : rows <> []) by (by intros ->).
  destruct (pivot_row_0_rounded rnd rows Hrows) as (-> & -> & ->).
  split; [| done].
  change (inject_Z 2) with 2%Q. change (inject_Z 3) with 3%Q.
  eexists _, _, _.
  split; [reflexivity |]. split; [reflexivity |]. split; [reflexivity |].
  split; [reflexivity |]. split; [reflexivity |]. split; [reflexivity |].
  split.
  - intros Hlh. apply (rnd_monotone _ _ Hr). lra.
  - intros (Hl & Hlc & Hch). by apply rounded_mean_within.
Qed.

End RoundedRowFacts.

Lemma flat_frame_rounded_computed :
  populate_indicators_rounded inflate warmup_MACD warmup_EMA
    (defaults "5m" no_data) flat_then_uptick btc = Ok flat_frame_rounded.
Proof. vm_compute. reflexivity. Qed.

(** On the last row of the flat series buyPower is positive and sellPower
    zero.  With a rounding that errs by a thousandth the TTF is above 200
    and within 200 * 1.001^2. *)
Lemma ttf_within_band_up_to_rounding_witness :
  rounding inflate 0.001
  /\ populate_indicators_rounded inflate warmup_MACD warmup_EMA
       (defaults "5m" no_data) flat_then_uptick btc = Ok flat_frame_rounded
  /\ exists d b s t,
       vadd_rounded inflate (buyPower flat_frame_rounded)
         (sellPower flat_frame_rounded) !! 29 = Some (Fin d)
       /\ ~ (d == 0)%Q
       /\ buyPower flat_frame_rounded !! 29 = Some (Fin b)
       /\ sellPower flat_frame_rounded !! 29 = Some (Fin s)
       /\ (0 <= b * s)%Q
       /\ ttf flat_frame_rounded !! 29 = Some (Fin t)
       /\ (200 < t)%Q
       /\ (t <= 200 * (1 + 0.001) * (1 + 0.001))%Q.
Proof.
  split; [apply inflate_rounding |].
  split; [apply flat_frame_rounded_computed |].
  destruct (vadd_rounded inflate (buyPower flat_frame_rounded)
              (sellPower flat_frame_rounded) !! 29) as [[d | | |] |] eqn:Hsum;
    try (vm_compute in Hsum; discriminate).
  assert (Hne : ~ (d == 0)%Q).
  { vm_compute in Hsum. injection Hsum as <-. discriminate. }
  destruct (ttf_within_band_up_to_rounding inflate 0.001 warmup_MACD warmup_EMA
              (defaults "5m" no_data) flat_then_uptick btc flat_frame_rounded
              29 d inflate_rounding flat_frame_rounded_computed Hsum Hne)
    as (b & s & t & Hb & Hs & Ht & Hvalue & Hband).
  assert (Hsign : (0 <= b * s)%Q).
  { vm_compute in Hb, Hs. injection Hb as <-. injection Hs as <-.
    discriminate. }
  exists d, b, s, t.
  split; [reflexivity |]. split; [exact Hne |]. split; [exact Hb |].
  split; [exact Hs |]. split; [exact Hsign |]. split; [exact Ht |].
  split; [| exact (proj2 (Hband Hsign))].
  vm_compute in Hsum, Hb, Hs.
  injection Hsum as <-. injection Hb as <-. injection Hs as <-.
  rewrite Hvalue. reflexivity.
Defined.

(** On that row the rounded sum is positive and the TTF has the sign of
    buyPower - sellPower. *)
Lemma power_sum_never_negative_under_rounding_witness :
  rounding inflate 0.001
  /\ populate_indicators_rounded inflate warmup_MACD warmup_EMA
       (defaults "5m" no_data) flat_then_uptick btc = Ok flat_frame_rounded
  /\ exists b s t,
       buyPower flat_frame_rounded !! 29 = Some (Fin b)
       /\ sellPower flat_frame_rounded !! 29 = Some (Fin s)
       /\ (0 <= b + s)%Q
       /\ (s < b)%Q
       /\ ttf flat_frame_rounded !! 29 = Some (Fin t)
       /\ (0 < t)%Q.
Proof.
  split; [apply inflate_rounding |].
  split; [apply flat_frame_rounded_computed |].
  destruct (buyPower flat_frame_rounded !! 29) as [[b | | |] |] eqn:Hb;
    try (vm_compute in Hb; discriminate).
  destruct (sellPower flat_frame_rounded !! 29) as [[s | | |] |] eqn:Hs;
    try (vm_compute in Hs; discriminate).
  destruct (power_sum_never_negative_under_rounding inflate 0.001
              warmup_MACD warmup_EMA (defaults "5m" no_data) flat_then_uptick
              btc flat_frame_rounded 29 b s inflate_rounding
              flat_frame_rounded_computed Hb Hs) as (Hsum & _ & Hrow).
  assert (Hlt : (s < b)%Q).
  { vm_compute in Hb, Hs. injection Hb as <-. injection Hs as <-.
    reflexivity. }
  destruct Hrow as (t & Ht & Hpos & _).
  { vm_compute in Hb, Hs. injection Hb as <-. injection Hs as <-.
    discriminate. }
  exists b, s, t.
  split; [reflexivity |]. split; [reflexivity |]. split; [exact Hsum |].
  split; [exact Hlt |]. split; [exact Ht |]. by apply Hpos.
Defined.

(** The last two candles of the flat series: the previous one has low 0,
    close 1 and high 2. *)
Lemma pivot_levels_under_rounding_witness :
  rounding inflate 0.001
  /\ populate_indicators_rounded inflate warmup_MACD warmup_EMA
       (defaults "5m" no_data) flat_then_uptick btc = Ok flat_frame_rounded
  /\ flat_then_uptick !! 28 = Some (candle_at 1)
  /\ flat_then_uptick !! 29 = Some (candle_at 2)
  /\ exists p r s,
       pivot_point flat_frame_rounded !! 29 = Some (Fin p)
       /\ resistance_1 flat_frame_rounded !! 29 = Some (Fin r)
       /\ support_1 flat_frame_rounded !! 29 = Some (Fin s)
       /\ (s <= r)%Q
       /\ (p <= c_high (candle_at 1) * (1 + 0.001) * (1 + 0.001) * (1 + 0.001))%Q.
Proof.
  assert (Hprev : flat_then_uptick !! 28 = Some (candle_at 1))
    by (vm_compute; reflexivity).
  assert (Hcur : flat_then_uptick !! 29 = Some (candle_at 2))
    by (vm_compute; reflexivity).
  split; [apply inflate_rounding |].
  split; [apply flat_frame_rounded_computed |].
  split; [exact Hprev |]. split; [exact Hcur |].
  destruct (pivot_levels_under_rounding inflate 0.001 warmup_MACD warmup_EMA
              (defaults "5m" no_data) flat_then_uptick btc flat_frame_rounded
              28 (candle_at 1) (candle_at 2) inflate_rounding
              flat_frame_rounded_computed Hprev Hcur)
    as [(p & r & s & Hp & Hres & Hsup & _ & _ & _ & Horder & Hinside) _].
  exists p, r, s.
  split; [exact Hp |]. split; [exact Hres |]. split; [exact Hsup |].
  split.
  - apply Horder. by apply Qle_bool_iff.
  - apply Hinside. repeat split; by apply Qle_bool_iff.
Defined.
